(** * Session lifecycle of z-squad: [session/instance.go]

    A shallow embedding of the [Instance] state machine and of the
    [DevServer] supervisor.  The terminal multiplexer, the version-control
    worktree, the file system, the process launcher and the clock are
    external collaborators: every call to them is recorded in a trace, and
    its result is read from an environment of oracles that may answer
    differently at every point of the history. *)

From Stdlib Require Import ZArith List String Ascii Bool Lia DecimalString.
Import ListNotations.
Local Open Scope string_scope.
Local Open Scope Z_scope.

(** ** Errors

    Go's [error] values built by [fmt.Errorf]: a plain message, or a
    message wrapping an inner error (the [%w] verb). *)

Inductive error : Type :=
| errorString (s : string)
| wrapError (msg : string) (err : error).

Definition Error (e : error) : string :=
  match e with
  | errorString s => s
  | wrapError msg _ => msg
  end.

(** [fmt.Errorf(prefix + "%w", err)] *)
Definition Errorf_w (prefix : string) (err : error) : error :=
  wrapError (prefix ++ Error err) err.

(** [fmt.Errorf("%v (cleanup error: %v)", err, cleanupErr)] *)
Definition Errorf_cleanup (err cleanupErr : error) : error :=
  errorString (Error err ++ " (cleanup error: " ++ Error cleanupErr ++ ")").

(** [if err != nil { errs = append(errs, fmt.Errorf(prefix + "%w", err)) }] *)
Definition collect (prefix : string) (r : option error) : list error :=
  match r with
  | Some err => [Errorf_w prefix err]
  | None => []
  end.

Definition nl : string := String "010"%char EmptyString.

(** [s] occurs inside [big]. *)
Definition Contains (big s : string) : Prop :=
  exists pre post, big = pre ++ s ++ post.

(** [strings.HasPrefix] as a proposition. *)
Definition HasPrefix (big p : string) : Prop :=
  exists post, big = p ++ post.

(** ** combineErrors (instance.go, 361-375) *)

Definition cleanupHeader : string := "multiple cleanup errors occurred:".

(** The [for _, err := range errs] loop that extends [errMsg]. *)
Fixpoint combineLoop (errMsg : string) (errs : list error) : string :=
  match errs with
  | [] => errMsg
  | err :: rest => combineLoop (errMsg ++ (nl ++ "  - ") ++ Error err) rest
  end.

Definition combineErrors (errs : list error) : option error :=
  match errs with
  | [] => None
  | [e] => Some e
  | _ => Some (errorString (combineLoop cleanupHeader errs))
  end.

(** ** Statuses *)

Inductive Status : Type := Running | Ready | Loading | Paused.

Inductive DevServerStatus : Type :=
| DevServerStopped
| DevServerBuilding
| DevServerStarting
| DevServerRunning
| DevServerCrashed.

Definition Status_eqb (a b : Status) : bool :=
  match a, b with
  | Running, Running | Ready, Ready | Loading, Loading | Paused, Paused => true
  | _, _ => false
  end.

Definition DevServerStatus_eqb (a b : DevServerStatus) : bool :=
  match a, b with
  | DevServerStopped, DevServerStopped
  | DevServerBuilding, DevServerBuilding
  | DevServerStarting, DevServerStarting
  | DevServerRunning, DevServerRunning
  | DevServerCrashed, DevServerCrashed => true
  | _, _ => false
  end.

(** ** Handles of the external collaborators

    Packages [session/tmux] and [session/git] are not among the sources;
    [instance.go] consumes them through the contracts of section 6 of the
    specification.  A handle keeps the constructor arguments; all behaviour
    is in the environment below. *)

(** Modelled from the spec: the type [tmux.TmuxSession], of which only the
    contract "create(name, program)" is known. *)
Record TmuxSession : Type := mkTmuxSession {
  ts_name : string;
  ts_program : string
}.

(** Modelled from the spec: [tmux.NewTmuxSession(name, program)] builds the
    handle; the session itself starts with [Start] or [Restore]. *)
Definition NewTmuxSession (name program : string) : TmuxSession :=
  mkTmuxSession name program.

(** Modelled from the spec: the type [git.GitWorktree], with the fields that
    [git.NewGitWorktreeFromStorage] receives in [FromInstanceData]. *)
Record GitWorktree : Type := mkGitWorktree {
  repoPath : string;
  worktreePath : string;
  sessionName : string;
  branchName : string;
  baseCommitSHA : string
}.

(** Modelled from the spec: the accessor for the worktree path. *)
Definition GetWorktreePath (w : GitWorktree) : string := worktreePath w.

(** [time.Duration] counts nanoseconds in an int64. *)
Definition Duration := Z.
Definition Millisecond : Duration := 1000000.
Definition Second : Duration := 1000 * Millisecond.

Definition wrap64 (z : Z) : Z := (z + 2^63) mod 2^64 - 2^63.

(** ** Trace of external calls

    One event per call that leaves [instance.go]: the worktree and session
    contracts, [os.Stat], the clipboard, [time.Sleep], [exec.Command], the
    pty factory and [log.ErrorLog].  Calls to [log.InfoLog] change neither
    state nor control flow and are left out.  [EvIfaceStop] is the [Stop] of
    a test double for the dev-server interface; [EvDeferredKill] is a ghost
    event that marks the call [i.Kill()] made by the deferred closure of
    [Start]. *)

Inductive event : Type :=
| EvNewGitWorktree (path title : string)
| EvSetup (w : GitWorktree)
| EvCleanup (w : GitWorktree)
| EvIsDirty (w : GitWorktree)
| EvCommitChanges (w : GitWorktree) (msg : string)
| EvIsBranchCheckedOut (w : GitWorktree)
| EvTmuxStart (s : TmuxSession) (workDir : string)
| EvRestore (s : TmuxSession)
| EvClose (s : TmuxSession)
| EvDetachSafely (s : TmuxSession)
| EvDoesSessionExist (s : TmuxSession)
| EvSendKeys (s : TmuxSession) (keys : string)
| EvStat (path : string)
| EvClipboardWriteAll (text : string)
| EvSleep (d : Duration)
| EvExecRun (argv : list string)
| EvExecOutput (argv : list string)
| EvPtyStart (argv : list string)
| EvPtmxClose
| EvErrorLog (msg : string)
| EvIfaceStop
| EvDeferredKill.

Definition trace := list event.

Inductive stat_result : Type :=
| StatOk
| StatNotExist
| StatErr (e : error).

(** The environment: what each external call answers, given the history of
    calls made before it.  [TmuxPrefix] is the constant [tmux.TmuxPrefix];
    [NowFormat_ h layout] is [time.Now().Format(layout)]; [Elapsed_ h e] is
    the time, in nanoseconds, that the call [e] made after [h] takes (for
    [time.Sleep], the time it takes beyond the duration asked for). *)
Record Env : Type := mkEnv {
  TmuxPrefix : string;
  NewGitWorktree_ : trace -> string -> string -> (GitWorktree * string) + error;
  Setup_ : trace -> GitWorktree -> option error;
  Cleanup_ : trace -> GitWorktree -> option error;
  IsDirty_ : trace -> GitWorktree -> bool * option error;
  CommitChanges_ : trace -> GitWorktree -> string -> option error;
  IsBranchCheckedOut_ : trace -> GitWorktree -> bool * option error;
  TmuxStart_ : trace -> TmuxSession -> string -> option error;
  Restore_ : trace -> TmuxSession -> option error;
  Close_ : trace -> TmuxSession -> option error;
  DetachSafely_ : trace -> TmuxSession -> option error;
  DoesSessionExist_ : trace -> TmuxSession -> bool;
  SendKeys_ : trace -> TmuxSession -> string -> option error;
  Stat_ : trace -> string -> stat_result;
  ExecRun_ : trace -> list string -> option error;
  ExecOutput_ : trace -> list string -> string * option error;
  PtyStart_ : trace -> list string -> option error;
  IfaceStop_ : trace -> option error;
  NowFormat_ : trace -> string -> string;
  Elapsed_ : trace -> event -> N
}.

(** The time a call takes at least: [time.Sleep] lasts at least the
    duration asked for, and returns at once when that is negative or
    zero. *)
Definition sleepTime (e : event) : Z :=
  match e with
  | EvSleep d => Z.max 0 d
  | _ => 0
  end.

(** The time the calls [evs], made after the history [past], have taken. *)
Fixpoint clockFrom (env : Env) (past evs : trace) : Z :=
  match evs with
  | [] => 0
  | e :: rest =>
      sleepTime e + Z.of_N (Elapsed_ env past e)
      + clockFrom env (past ++ [e])%list rest
  end.

(** The clock: time passes in the external calls, in [time.Sleep] as in
    every other one. *)
Definition clock (env : Env) (t : trace) : Z := clockFrom env [] t.

(** ** The monad of lifecycle operations

    State is the trace; a run either finishes or faults (a nil pointer
    dereference panics in Go; a bounded loop may exhaust its fuel). *)

Inductive fault : Type := NilPointer | OutOfFuel.

Inductive outcome (A : Type) : Type :=
| Done (a : A) (t : trace)
| Fault (f : fault).
Arguments Done {A} a t.
Arguments Fault {A} f.

Definition M (A : Type) : Type := trace -> outcome A.

Definition ret {A} (a : A) : M A := fun t => Done a t.

Definition bind {A B} (m : M A) (f : A -> M B) : M B :=
  fun t => match m t with
           | Done a t' => f a t'
           | Fault x => Fault x
           end.

Definition panic {A} (f : fault) : M A := fun _ => Fault f.

(** Perform an external call: the oracle sees the history before the call. *)
Definition call {A} (e : event) (answer : trace -> A) : M A :=
  fun t => Done (answer t) (t ++ [e])%list.

Definition emit (e : event) : M unit := call e (fun _ => tt).

Definition now (env : Env) : M Z := fun t => Done (clock env t) t.

Definition ask {A} (answer : trace -> A) : M A := fun t => Done (answer t) t.

(** Dereference of a possibly-nil pointer: a method of the worktree or of
    the session called through a nil pointer panics. *)
Definition deref {A} (p : option A) : M A :=
  match p with
  | Some a => ret a
  | None => panic NilPointer
  end.

Declare Scope go_scope.
Delimit Scope go_scope with go.
Notation "x <- c1 ;; c2" := (bind c1 (fun x => c2))
  (at level 61, c1 at next level, right associativity) : go_scope.
Notation "' pat <- c1 ;; c2" :=
  (bind c1 (fun x => match x with pat => c2 end))
  (at level 61, pat pattern, c1 at next level, right associativity) : go_scope.
Notation "c1 ;; c2" := (bind c1 (fun _ => c2))
  (at level 61, right associativity) : go_scope.
Local Open Scope go_scope.

(** The method set of the [Instance.DevServer] field.  [Kill] needs [Stop];
    the accessors are the ones persisted by [ToInstanceData]. *)
Class DevServerAPI (D : Type) : Type := {
  api_Status : D -> DevServerStatus;
  api_CrashCount : D -> Z;
  api_IsRunning : D -> bool;
  api_Start : D -> M (option error * D);
  api_Stop : D -> M (option error * D)
}.

(** ** DevServer: the dev-server subprocess supervisor *)

Record DevServerConfig : Type := mkDevServerConfig {
  BuildCommand : string;
  DevCommand : string;
  (* map[string]string; the list order stands for the iteration order of
     the Go map, which the language leaves unspecified *)
  Env_ : list (string * string)
}.

Definition isSpace (c : ascii) : bool :=
  match c with
  | "009"%char | "010"%char | "012"%char | "013"%char | " "%char => true
  | _ => false
  end.

(** [regexp.MustCompile(`\s+`).ReplaceAllString(s, "")] *)
Fixpoint removeWhitespace (s : string) : string :=
  match s with
  | EmptyString => EmptyString
  | String c rest =>
      if isSpace c then removeWhitespace rest
      else String c (removeWhitespace rest)
  end.

(** [strings.ReplaceAll(s, ".", "_")] *)
Fixpoint replaceDots (s : string) : string :=
  match s with
  | EmptyString => EmptyString
  | String c rest =>
      String (if Ascii.eqb c "."%char then "_"%char else c) (replaceDots rest)
  end.

Definition devServerSessionName (instanceName : string) : string :=
  replaceDots (removeWhitespace instanceName) ++ "_dev".

Module DevServer.

Record t : Type := mk {
  config : DevServerConfig;
  status : DevServerStatus;
  session : option TmuxSession;
  crashCount : Z;
  output : list string;
  worktree : string;
  instance : string
}.

Definition set_status (st : DevServerStatus) (d : t) : t :=
  mk (config d) st (session d) (crashCount d) (output d) (worktree d)
     (instance d).

Definition set_session (s : option TmuxSession) (d : t) : t :=
  mk (config d) (status d) s (crashCount d) (output d) (worktree d)
     (instance d).

Definition set_output (o : list string) (d : t) : t :=
  mk (config d) (status d) (session d) (crashCount d) o (worktree d)
     (instance d).

Definition NewDevServer (cfg : DevServerConfig) (wt inst : string) : t :=
  mk cfg DevServerStopped None 0 [] wt inst.

(** The slice operations of [appendOutput] (instance.go 660-668) on the
    buffer alone: append, then keep the last 100 when longer. *)
Definition pushLine (buf : list string) (line : string) : list string :=
  let buf' := (buf ++ [line])%list in
  if (100 <? List.length buf')%nat
  then skipn (List.length buf' - 100) buf'
  else buf'.

Definition appendOutput (line : string) (d : t) : t :=
  set_output (pushLine (output d) line) d.

Definition Status (d : t) : DevServerStatus := status d.

(** instance.go 688-691 *)
Definition IsRunning (d : t) : bool :=
  DevServerStatus_eqb (Status d) DevServerRunning
  || DevServerStatus_eqb (Status d) DevServerStarting.

(** The delay update of the polling loop in [startDevServer]:
    [if sleepDuration < 50*time.Millisecond { sleepDuration *= 2 }]. *)
Definition nextSleep (sleepDuration : Duration) : Duration :=
  if sleepDuration <? 50 * Millisecond
  then wrap64 (sleepDuration * 2)
  else sleepDuration.

(** Bound on the iterations of the polling loop; [startDevServer_run] shows
    that it is never reached. *)
Definition pollFuel : nat := 512.

Section WithEnv.
Variable env : Env.

(** instance.go 849-866 *)
Definition Stop (d : t) : M (option error * t) :=
  match session d with
  | None => ret (None, set_status DevServerStopped d)
  | Some s =>
      call (EvSendKeys s (String "003"%char EmptyString))
           (fun h => SendKeys_ env h s (String "003"%char EmptyString)) ;;
      emit (EvSleep (2 * Second)) ;;
      exists_ <- call (EvDoesSessionExist s)
                      (fun h => DoesSessionExist_ env h s) ;;
      (if exists_ : bool
       then call (EvClose s) (fun h => Close_ env h s) ;; ret tt
       else ret tt) ;;
      ret (None, set_status DevServerStopped (set_session None d))
  end.

(** instance.go 868-878 *)
Definition runBuild (d : t) : M (option error * t) :=
  let argv := ["sh"; "-c"; BuildCommand (config d)] in
  '(out, err) <- call (EvExecOutput argv)
                      (fun h => ExecOutput_ env h argv) ;;
  match err with
  | Some e =>
      ret (Some (Errorf_w "build command failed: " e), appendOutput out d)
  | None => ret (None, appendOutput out d)
  end.

(** instance.go 929-941:
    [for !d.session.DoesSessionExist() { select { case <-timeout: ...;
    default: time.Sleep(sleepDuration); ... } }].  The result is [true] when
    the session was observed and [false] when the timer, due at [deadline],
    had fired at a check. *)
Fixpoint waitLoop (fuel : nat) (s : TmuxSession) (deadline : Z)
         (sleepDuration : Duration) : M bool :=
  match fuel with
  | O => panic OutOfFuel
  | S fuel' =>
      exists_ <- call (EvDoesSessionExist s)
                      (fun h => DoesSessionExist_ env h s) ;;
      if exists_ : bool then ret true
      else
        clk <- now env ;;
        if deadline <=? clk then ret false
        else
          emit (EvSleep sleepDuration) ;;
          waitLoop fuel' s deadline (nextSleep sleepDuration)
  end.

(** instance.go 880-949 *)
Definition startDevServer (d : t) : M (option error * t) :=
  let sessionName := devServerSessionName (instance d) in
  let fullSessionName := TmuxPrefix env ++ sessionName in
  let hasArgv := ["tmux"; "has-session"; "-t"; fullSessionName] in
  let killArgv := ["tmux"; "kill-session"; "-t"; fullSessionName] in
  has <- call (EvExecRun hasArgv) (fun h => ExecRun_ env h hasArgv) ;;
  match has with
  | None => call (EvExecRun killArgv) (fun h => ExecRun_ env h killArgv) ;;
            ret tt
  | Some _ => ret tt
  end ;;
  let devCmd :=
    match Env_ (config d) with
    | [] => DevCommand (config d)
    | _ :: _ =>
        String.concat " "
          (map (fun kv => fst kv ++ "=" ++ snd kv) (Env_ (config d)))
        ++ " " ++ DevCommand (config d)
    end in
  let tmuxArgv :=
    ["tmux"; "new-session"; "-d"; "-s"; fullSessionName; "-c"; worktree d;
     "-x"; "200"; "-y"; "50"; "sh"; "-c"; devCmd] in
  err <- call (EvPtyStart tmuxArgv) (fun h => PtyStart_ env h tmuxArgv) ;;
  match err with
  | Some e =>
      emit (EvErrorLog ("Failed to start tmux session: " ++ Error e)) ;;
      ret (Some (Errorf_w "failed to start tmux session: " e), d)
  | None =>
      let s := NewTmuxSession fullSessionName (DevCommand (config d)) in
      let d := set_session (Some s) d in
      clk <- now env ;;
      let deadline := clk + 2 * Second in
      seen <- waitLoop pollFuel s deadline (5 * Millisecond) ;;
      if seen : bool then
        emit EvPtmxClose ;;
        call (EvDoesSessionExist s) (fun h => DoesSessionExist_ env h s) ;;
        stamp <- ask (fun h => NowFormat_ env h "15:04:05") ;;
        ret (None,
             appendOutput ("[" ++ stamp ++ "] Starting dev server: "
                           ++ DevCommand (config d)) d)
      else
        emit EvPtmxClose ;;
        emit (EvErrorLog ("Timed out waiting for tmux session "
                          ++ fullSessionName)) ;;
        ret (Some (errorString ("timed out waiting for tmux session "
                                ++ fullSessionName)), d)
  end.

(** instance.go 808-847 *)
Definition Start (d : t) : M (option error * t) :=
  if IsRunning d then
    ret (Some (errorString "dev server is already running"), d)
  else if (DevCommand (config d) =? "")%string then
    ret (Some (errorString "dev command not configured"), d)
  else
    let d := set_status DevServerBuilding d in
    '(buildErr, d) <-
      (if (BuildCommand (config d) =? "")%string then ret (None, d)
       else runBuild d) ;;
    match buildErr with
    | Some e =>
        emit (EvErrorLog ("DevServer.Start: build failed: " ++ Error e)) ;;
        ret (Some (Errorf_w "build failed: " e),
             set_status DevServerStopped d)
    | None =>
        let d := set_status DevServerStarting d in
        '(startErr, d) <- startDevServer d ;;
        match startErr with
        | Some e =>
            emit (EvErrorLog ("DevServer.Start: startDevServer failed: "
                              ++ Error e)) ;;
            ret (Some (Errorf_w "failed to start dev server: " e),
                 set_status DevServerStopped d)
        | None => ret (None, set_status DevServerRunning d)
        end
    end.

#[export] Instance API : DevServerAPI t := {
  api_Status := Status;
  api_CrashCount := crashCount;
  api_IsRunning := IsRunning;
  api_Start := Start;
  api_Stop := Stop
}.

End WithEnv.

End DevServer.

(** ** Instance: the session state machine *)

Record DiffStats : Type := mkDiffStats {
  Added : Z;
  Removed : Z;
  Content : string
}.

(** [time.RFC822] *)
Definition RFC822 : string := "02 Jan 06 15:04 MST".

Module Inst.

Local Abbreviation status_t := Status.

Record t (D : Type) : Type := mk {
  Title : string;
  Path : string;
  Branch : string;
  Status : status_t;
  Program : string;
  Height : Z;
  Width : Z;
  CreatedAt : Z;
  UpdatedAt : Z;
  AutoYes : bool;
  Prompt : string;
  diffStats : option DiffStats;
  DevServer : option D;
  started : bool;
  tmuxSession : option TmuxSession;
  gitWorktree : option GitWorktree
}.
Arguments mk {D}.
Arguments Title {D}.
Arguments Path {D}.
Arguments Branch {D}.
Arguments Status {D}.
Arguments Program {D}.
Arguments Height {D}.
Arguments Width {D}.
Arguments CreatedAt {D}.
Arguments UpdatedAt {D}.
Arguments AutoYes {D}.
Arguments Prompt {D}.
Arguments diffStats {D}.
Arguments DevServer {D}.
Arguments started {D}.
Arguments tmuxSession {D}.
Arguments gitWorktree {D}.

Section Fields.
Context {D : Type}.

Definition set_Branch (b : string) (i : t D) : t D :=
  mk (Title i) (Path i) b (Status i) (Program i) (Height i) (Width i)
     (CreatedAt i) (UpdatedAt i) (AutoYes i) (Prompt i) (diffStats i)
     (DevServer i) (started i) (tmuxSession i) (gitWorktree i).

Definition SetStatus (status : status_t) (i : t D) : t D :=
  mk (Title i) (Path i) (Branch i) status (Program i) (Height i) (Width i)
     (CreatedAt i) (UpdatedAt i) (AutoYes i) (Prompt i) (diffStats i)
     (DevServer i) (started i) (tmuxSession i) (gitWorktree i).

Definition set_DevServer (d : option D) (i : t D) : t D :=
  mk (Title i) (Path i) (Branch i) (Status i) (Program i) (Height i)
     (Width i) (CreatedAt i) (UpdatedAt i) (AutoYes i) (Prompt i)
     (diffStats i) d (started i) (tmuxSession i) (gitWorktree i).

Definition set_started (b : bool) (i : t D) : t D :=
  mk (Title i) (Path i) (Branch i) (Status i) (Program i) (Height i)
     (Width i) (CreatedAt i) (UpdatedAt i) (AutoYes i) (Prompt i)
     (diffStats i) (DevServer i) b (tmuxSession i) (gitWorktree i).

Definition SetTmuxSession (s : option TmuxSession) (i : t D) : t D :=
  mk (Title i) (Path i) (Branch i) (Status i) (Program i) (Height i)
     (Width i) (CreatedAt i) (UpdatedAt i) (AutoYes i) (Prompt i)
     (diffStats i) (DevServer i) (started i) s (gitWorktree i).

Definition set_gitWorktree (w : option GitWorktree) (i : t D) : t D :=
  mk (Title i) (Path i) (Branch i) (Status i) (Program i) (Height i)
     (Width i) (CreatedAt i) (UpdatedAt i) (AutoYes i) (Prompt i)
     (diffStats i) (DevServer i) (started i) (tmuxSession i) w.

(** [NewInstance], with the absolute path and the creation time given. *)
Definition NewInstance (title absPath program : string) (now_ : Z) : t D :=
  mk title absPath "" Ready program 0 0 now_ now_ false "" None None
     false None None.

End Fields.

Section WithEnv.
Variable env : Env.
Context {D : Type} `{DevServerAPI D}.

(** instance.go 327-359 *)
Definition Kill (i : t D) : M (option error * t D) :=
  if negb (started i) then ret (None, i)
  else
    let errs : list error := [] in
    '(errs, i) <-
      match DevServer i with
      | Some d =>
          '(err, d') <- api_Stop d ;;
          ret ((errs ++ collect "failed to stop dev server: " err)%list,
               set_DevServer (Some d') i)
      | None => ret (errs, i)
      end ;;
    errs <-
      match tmuxSession i with
      | Some s =>
          err <- call (EvClose s) (fun h => Close_ env h s) ;;
          ret (errs ++ collect "failed to close tmux session: " err)%list
      | None => ret errs
      end ;;
    errs <-
      match gitWorktree i with
      | Some w =>
          err <- call (EvCleanup w) (fun h => Cleanup_ env h w) ;;
          ret (errs ++ collect "failed to cleanup git worktree: " err)%list
      | None => ret errs
      end ;;
    ret (combineErrors errs, i).

(** The statements of [Start] after the [defer] (instance.go 298-324): the
    pair is the value handed to [return] and the instance at that point.
    On every path the local [setupErr] holds that same value. *)
Definition Start_body (firstTimeSetup : bool) (tmuxSession_ : TmuxSession)
           (i : t D) : M (option error * t D) :=
  if negb firstTimeSetup then
    err <- call (EvRestore tmuxSession_)
                (fun h => Restore_ env h tmuxSession_) ;;
    match err with
    | Some e =>
        ret (Some (Errorf_w "failed to restore existing session: " e), i)
    | None => ret (None, SetStatus Running i)
    end
  else
    w <- deref (gitWorktree i) ;;
    err <- call (EvSetup w) (fun h => Setup_ env h w) ;;
    match err with
    | Some e => ret (Some (Errorf_w "failed to setup git worktree: " e), i)
    | None =>
        s <- deref (tmuxSession i) ;;
        w <- deref (gitWorktree i) ;;
        err <- call (EvTmuxStart s (GetWorktreePath w))
                    (fun h => TmuxStart_ env h s (GetWorktreePath w)) ;;
        match err with
        | Some e =>
            w <- deref (gitWorktree i) ;;
            cleanupErr <- call (EvCleanup w) (fun h => Cleanup_ env h w) ;;
            let e := match cleanupErr with
                     | Some c => Errorf_cleanup e c
                     | None => e
                     end in
            ret (Some (Errorf_w "failed to start new session: " e), i)
        | None => ret (None, SetStatus Running i)
        end
    end.

(** The deferred closure of [Start] (instance.go 288-296).  It yields the
    final value of the local variable [setupErr] and the instance.
    [EvDeferredKill] is a ghost event marking the call [i.Kill()]. *)
Definition Start_deferred (setupErr : option error) (i : t D)
  : M (option error * t D) :=
  match setupErr with
  | Some e =>
      emit EvDeferredKill ;;
      '(cleanupErr, i) <- Kill i ;;
      match cleanupErr with
      | Some c => ret (Some (Errorf_cleanup e c), i)
      | None => ret (Some e, i)
      end
  | None => ret (None, set_started true i)
  end.

(** instance.go 261-325.  [Start] has an unnamed result: [return setupErr]
    copies the value before the deferred closure runs, and what the closure
    assigns to the local variable afterwards is not what the caller
    receives. *)
Definition Start (firstTimeSetup : bool) (i : t D)
  : M (option error * t D) :=
  if (Title i =? "")%string then
    ret (Some (errorString "instance title cannot be empty"), i)
  else
    let tmuxSession_ :=
      match tmuxSession i with
      | Some s => s
      | None => NewTmuxSession (Title i) (Program i)
      end in
    let i := SetTmuxSession (Some tmuxSession_) i in
    created <-
      (if firstTimeSetup then
         r <- call (EvNewGitWorktree (Path i) (Title i))
                   (fun h => NewGitWorktree_ env h (Path i) (Title i)) ;;
         match r with
         | inr e =>
             ret (inl (Errorf_w "failed to create git worktree: " e))
         | inl (w, branchName_) =>
             ret (inr (set_Branch branchName_
                         (set_gitWorktree (Some w) i)))
         end
       else ret (inr i)) ;;
    match created with
    | inl e => ret (Some e, i)
    | inr i =>
        '(result, i) <- Start_body firstTimeSetup tmuxSession_ i ;;
        '(_, i) <- Start_deferred result i ;;
        ret (result, i)
    end.

Definition commitMsg (title stamp : string) : string :=
  "[claudesquad] update from '" ++ title ++ "' on " ++ stamp ++ " (paused)".

(** instance.go 447-494 *)
Definition Pause (i : t D) : M (option error * t D) :=
  if negb (started i) then
    ret (Some (errorString
                 "cannot pause instance that has not been started"), i)
  else if Status_eqb (Status i) Paused then
    ret (Some (errorString "instance is already paused"), i)
  else
    let errs : list error := [] in
    w <- deref (gitWorktree i) ;;
    '(dirty, err) <- call (EvIsDirty w) (fun h => IsDirty_ env h w) ;;
    (* [inl] is the early return, [inr] the errors collected so far *)
    step <-
      match err with
      | Some e =>
          emit (EvErrorLog (Error e)) ;;
          ret (inr (errs ++ collect "failed to check if worktree is dirty: "
                                    (Some e))%list)
      | None =>
          if dirty : bool then
            stamp <- ask (fun h => NowFormat_ env h RFC822) ;;
            let msg := commitMsg (Title i) stamp in
            w <- deref (gitWorktree i) ;;
            cerr <- call (EvCommitChanges w msg)
                         (fun h => CommitChanges_ env h w msg) ;;
            match cerr with
            | Some e =>
                emit (EvErrorLog (Error e)) ;;
                ret (inl (combineErrors
                            (errs ++ collect "failed to commit changes: "
                                             (Some e))%list))
            | None => ret (inr errs)
            end
          else ret (inr errs)
      end ;;
    match step with
    | inl early => ret (early, i)
    | inr errs =>
        s <- deref (tmuxSession i) ;;
        derr <- call (EvDetachSafely s) (fun h => DetachSafely_ env h s) ;;
        errs <-
          match derr with
          | Some e =>
              emit (EvErrorLog (Error e)) ;;
              ret (errs ++ collect "failed to detach tmux session: "
                                   (Some e))%list
          | None => ret errs
          end ;;
        match combineErrors errs with
        | Some e =>
            emit (EvErrorLog (Error e)) ;;
            ret (Some e, i)
        | None =>
            let i := SetStatus Paused i in
            w <- deref (gitWorktree i) ;;
            emit (EvClipboardWriteAll (GetWorktreePath w)) ;;
            ret (None, i)
        end
    end.

(** The two places of [Resume] (instance.go 532-540 and 544-552) that start
    a fresh session and clean the worktree up when that fails. *)
Definition startFresh (i : t D) : M (option error) :=
  s <- deref (tmuxSession i) ;;
  w <- deref (gitWorktree i) ;;
  err <- call (EvTmuxStart s (GetWorktreePath w))
              (fun h => TmuxStart_ env h s (GetWorktreePath w)) ;;
  match err with
  | Some e =>
      emit (EvErrorLog (Error e)) ;;
      cleanupErr <- call (EvCleanup w) (fun h => Cleanup_ env h w) ;;
      match cleanupErr with
      | Some c =>
          let e := Errorf_cleanup e c in
          emit (EvErrorLog (Error e)) ;;
          ret (Some (Errorf_w "failed to start new session: " e))
      | None => ret (Some (Errorf_w "failed to start new session: " e))
      end
  | None => ret None
  end.

(** instance.go 496-557 *)
Definition Resume (i : t D) : M (option error * t D) :=
  if negb (started i) then
    ret (Some (errorString
                 "cannot resume instance that has not been started"), i)
  else if negb (Status_eqb (Status i) Paused) then
    ret (Some (errorString "can only resume paused instances"), i)
  else
    w <- deref (gitWorktree i) ;;
    '(checked, err) <- call (EvIsBranchCheckedOut w)
                            (fun h => IsBranchCheckedOut_ env h w) ;;
    match err with
    | Some e =>
        emit (EvErrorLog (Error e)) ;;
        ret (Some (Errorf_w "failed to check if branch is checked out: " e),
             i)
    | None =>
        if checked : bool then
          ret (Some (errorString
                       "cannot resume: branch is checked out, please switch to a different branch"),
               i)
        else
          st <- call (EvStat (GetWorktreePath w))
                     (fun h => Stat_ env h (GetWorktreePath w)) ;;
          statErr <-
            match st with
            | StatNotExist =>
                serr <- call (EvSetup w) (fun h => Setup_ env h w) ;;
                match serr with
                | Some e =>
                    emit (EvErrorLog (Error e)) ;;
                    ret (Some (Errorf_w "failed to setup git worktree: " e))
                | None => ret None
                end
            | StatErr e =>
                ret (Some (Errorf_w "failed to check if worktree exists: "
                                    e))
            | StatOk => ret None
            end ;;
          match statErr with
          | Some e => ret (Some e, i)
          | None =>
              s <- deref (tmuxSession i) ;;
              exists_ <- call (EvDoesSessionExist s)
                              (fun h => DoesSessionExist_ env h s) ;;
              sessErr <-
                (if exists_ : bool then
                   rerr <- call (EvRestore s)
                                (fun h => Restore_ env h s) ;;
                   match rerr with
                   | Some e => emit (EvErrorLog (Error e)) ;; startFresh i
                   | None => ret None
                   end
                 else startFresh i) ;;
              match sessErr with
              | Some e => ret (Some e, i)
              | None => ret (None, SetStatus Running i)
              end
          end
    end.

End WithEnv.

Definition Started {D} (i : t D) : bool := started i.

Definition Paused {D} (i : t D) : bool := Status_eqb (Status i) Paused.

End Inst.

(** ** Views on buffers and traces used by the specifications *)

(** The last [n] elements of a list. *)
Definition lastn {A} (n : nat) (l : list A) : list A :=
  skipn (List.length l - n) l.

(** A sequence of [appendOutput] calls, oldest line first. *)
Definition appendAll (lines : list string) (d : DevServer.t) : DevServer.t :=
  fold_left (fun d line => DevServer.appendOutput line d) lines d.

(** The durations handed to [time.Sleep], in order. *)
Fixpoint sleepsOf (evs : trace) : list Duration :=
  match evs with
  | [] => []
  | EvSleep d :: rest => d :: sleepsOf rest
  | _ :: rest => sleepsOf rest
  end.

(** The delay before the [k]-th re-check of the polling loop. *)
Fixpoint backoff (k : nat) : Duration :=
  match k with
  | O => 5 * Millisecond
  | S k' => DevServer.nextSleep (backoff k')
  end.

(** Time slept before the [k]-th re-check: the first [k] delays added up. *)
Fixpoint sumBackoff (k : nat) : Z :=
  match k with
  | O => 0
  | S k' => sumBackoff k' + backoff k'
  end.

Definition isCommitCall (e : event) : bool :=
  match e with
  | EvCommitChanges _ _ => true
  | _ => false
  end.

(** The commits that the calls [evs], made after the history [past], have
    created: the messages of the commit-changes calls that succeeded. *)
Fixpoint commitsFrom (env : Env) (past evs : trace) : list string :=
  match evs with
  | [] => []
  | e :: rest =>
      (match e with
       | EvCommitChanges w msg =>
           match CommitChanges_ env past w msg with
           | None => [msg]
           | Some _ => []
           end
       | _ => []
       end ++ commitsFrom env (past ++ [e]) rest)%list
  end.

(** Calls that change a worktree, a session or a process (the others only
    observe, wait or log). *)
Definition mutates (e : event) : bool :=
  match e with
  | EvNewGitWorktree _ _ | EvSetup _ | EvCleanup _ | EvCommitChanges _ _
  | EvTmuxStart _ _ | EvRestore _ | EvClose _ | EvDetachSafely _
  | EvSendKeys _ _ | EvExecRun _ | EvExecOutput _ | EvPtyStart _
  | EvPtmxClose | EvIfaceStop => true
  | _ => false
  end.

(** [Start] failed with [e] at instance [i1] and history [t1], and its
    deferred handler ran [Kill] there: the run [r] ends in the state [Kill]
    leaves, with an error that is [e] whenever [Kill] reported none. *)
Definition rolledBack (env : Env) {D : Type} `{DevServerAPI D}
           (e : error) (i1 : Inst.t D) (t1 : trace)
           (r : outcome (option error * Inst.t D)) : Prop :=
  forall c i2 t2,
    Inst.Kill env i1 (t1 ++ [EvDeferredKill])%list = Done (c, i2) t2 ->
    exists e', r = Done (Some e', i2) t2 /\ (c = None -> e' = e).

(** ** Scenarios: concrete environments and instances *)

Module Scenario.

Definition wt : GitWorktree :=
  mkGitWorktree "/repo" "/repo/.worktrees/t1" "t1" "user/t1" "abc123".

Definition sess : TmuxSession := NewTmuxSession "t1" "claude".

Definition boom (what : string) : error := errorString what.

(** An environment in which the named calls fail and all others succeed. *)
Definition scenarioEnv (fails : list string)
           (dirty checkedOut sessionExists : bool) : Env :=
  let failIf (what : string) : option error :=
    if existsb (String.eqb what) fails
    then Some (boom (what ++ " failed")) else None in
  mkEnv "claudesquad_"
    (fun _ _ _ => match failIf "create" with
                  | Some e => inr e
                  | None => inl (wt, "user/t1")
                  end)
    (fun _ _ => failIf "setup")
    (fun _ _ => failIf "cleanup")
    (fun _ _ => (dirty, failIf "is-dirty"))
    (fun _ _ _ => failIf "commit")
    (fun _ _ => (checkedOut, None))
    (fun _ _ _ => failIf "tmux start")
    (fun _ _ => failIf "restore")
    (fun _ _ => failIf "close")
    (fun _ _ => failIf "detach")
    (fun _ _ => sessionExists)
    (fun _ _ _ => None)
    (fun _ _ => StatOk)
    (fun _ _ => Some (boom "exit status 1"))
    (fun _ _ => ("built", failIf "build"))
    (fun _ _ => failIf "pty")
    (fun _ => failIf "stop")
    (fun _ _ => "30 Oct 26 21:19 UTC")
    (fun _ _ => 0%N).

Definition okEnv : Env := scenarioEnv [] false false true.

(** The dev-server stop and the session close both fail. *)
Definition envStopCloseFail : Env :=
  scenarioEnv ["stop"; "close"] false false true.

(** The branch is checked out elsewhere. *)
Definition envCheckedOut : Env := scenarioEnv [] false true true.

(** The detach fails; the worktree is clean. *)
Definition envDetachFails : Env := scenarioEnv ["detach"] false false true.

(** The worktree has uncommitted changes. *)
Definition envDirty : Env := scenarioEnv [] true false true.

(** The session start fails, and so does the worktree cleanup after it. *)
Definition envStartCleanupFail : Env :=
  scenarioEnv ["tmux start"; "cleanup"] false false true.

(** The worktree cannot be created. *)
Definition envCreateFails : Env := scenarioEnv ["create"] false false true.

(** The session restore fails, and so does the session close. *)
Definition envRestoreCloseFail : Env :=
  scenarioEnv ["restore"; "close"] false false true.

(** The launched session never becomes observable. *)
Definition envNoSession : Env := scenarioEnv [] false false false.

(** The same, with every existence check taking 0.2ms. *)
Definition envSlowChecks : Env :=
  let env := envNoSession in
  mkEnv (TmuxPrefix env) (NewGitWorktree_ env) (Setup_ env) (Cleanup_ env)
        (IsDirty_ env) (CommitChanges_ env) (IsBranchCheckedOut_ env)
        (TmuxStart_ env) (Restore_ env) (Close_ env) (DetachSafely_ env)
        (DoesSessionExist_ env) (SendKeys_ env) (Stat_ env) (ExecRun_ env)
        (ExecOutput_ env) (PtyStart_ env) (IfaceStop_ env) (NowFormat_ env)
        (fun _ e => match e with
                    | EvDoesSessionExist _ => 200000%N
                    | _ => 0%N
                    end).

(** A test double for the [Instance.DevServer] interface: [Stop] reports
    whatever the environment says. *)
Inductive FakeDev : Type := fakeDev.

#[export] Instance FakeDev_API (env : Env) : DevServerAPI FakeDev := {
  api_Status := fun _ => DevServerRunning;
  api_CrashCount := fun _ => 0;
  api_IsRunning := fun _ => true;
  api_Start := fun d => ret (None, d);
  api_Stop := fun d =>
    bind (call EvIfaceStop (IfaceStop_ env)) (fun err => ret (err, d))
}.

(** A fresh instance, as [NewInstance] builds it. *)
Definition fresh : Inst.t DevServer.t :=
  Inst.NewInstance "t1" "/repo" "claude" 0.

(** A started, running instance owning a session and a worktree. *)
Definition running {D} (dev : option D) : Inst.t D :=
  Inst.mk "t1" "/repo" "user/t1" Running "claude" 0 0 0 0 false "" None
          dev true (Some sess) (Some wt).

Definition paused {D} (dev : option D) : Inst.t D :=
  Inst.SetStatus Paused (running dev).

Definition runningNoDev : Inst.t FakeDev := running None.

Definition runningFake : Inst.t FakeDev := running (Some fakeDev).

Definition pausedNoDev : Inst.t FakeDev := paused None.

(** [fresh] after [Start] has created its session handle and worktree. *)
Definition freshWithWorktree : Inst.t DevServer.t :=
  Inst.set_Branch "user/t1"
    (Inst.set_gitWorktree (Some wt) (Inst.SetTmuxSession (Some sess) fresh)).


Definition devConfig : DevServerConfig :=
  mkDevServerConfig "" "npm run dev" [].

Definition devIn (st : DevServerStatus) : DevServer.t :=
  DevServer.set_status st
    (DevServer.NewDevServer devConfig "/repo/.worktrees/t1" "t1").

Definition stoppedDev : DevServer.t := devIn DevServerStopped.

Definition buildingDev : DevServer.t := devIn DevServerBuilding.

Definition decimal (n : nat) : string :=
  NilEmpty.string_of_uint (Nat.to_uint n).

(** The lines "0", "1", ..., "499". *)
Definition lines500 : list string := map decimal (seq 0 500).

End Scenario.

(** * The rest of [instance.go] *)

(** ** Persisted records

    The record types of [session/storage.go] are not among the sources. *)

(** Modelled from the spec: the [worktree] object of the persisted instance
    record (section 6), with the fields [ToInstanceData] fills. *)
Module GitWorktreeData.
Record t : Type := mk {
  RepoPath : string;
  WorktreePath : string;
  SessionName : string;
  BranchName : string;
  BaseCommitSHA : string
}.
End GitWorktreeData.

(** Modelled from the spec: the [diff_stats] object of the persisted
    record. *)
Module DiffStatsData.
Record t : Type := mk {
  Added : Z;
  Removed : Z;
  Content : string
}.
End DiffStatsData.

(** Modelled from the spec: the optional [dev_server] object of the
    persisted record. *)
Module DevServerData.
Local Abbreviation status_t := DevServerStatus.
Record t : Type := mk {
  Config : DevServerConfig;
  Status : status_t;
  CrashCount : Z
}.
End DevServerData.

(** Modelled from the spec: the persisted instance record. *)
Module InstanceData.
Local Abbreviation status_t := Status.
Record t : Type := mk {
  Title : string;
  Path : string;
  Branch : string;
  Status : status_t;
  Height : Z;
  Width : Z;
  CreatedAt : Z;
  UpdatedAt : Z;
  Program : string;
  AutoYes : bool;
  Worktree : GitWorktreeData.t;
  DiffStats : DiffStatsData.t;
  DevServer : option DevServerData.t
}.
End InstanceData.

(** Modelled from the spec: [git.NewGitWorktreeFromStorage] keeps its five
    arguments, and the accessors give them back. *)
Definition NewGitWorktreeFromStorage
           (repo worktree session branch base : string) : GitWorktree :=
  mkGitWorktree repo worktree session branch base.

Definition GetRepoPath (w : GitWorktree) : string := repoPath w.
Definition GetBranchName (w : GitWorktree) : string := branchName w.
Definition GetBaseCommitSHA (w : GitWorktree) : string := baseCommitSHA w.

Definition set_diffStats {D} (s : option DiffStats) (i : Inst.t D) : Inst.t D :=
  Inst.mk (Inst.Title i) (Inst.Path i) (Inst.Branch i) (Inst.Status i)
          (Inst.Program i) (Inst.Height i) (Inst.Width i) (Inst.CreatedAt i)
          (Inst.UpdatedAt i) (Inst.AutoYes i) (Inst.Prompt i) s
          (Inst.DevServer i) (Inst.started i) (Inst.tmuxSession i)
          (Inst.gitWorktree i).

Definition set_Title {D} (title : string) (i : Inst.t D) : Inst.t D :=
  Inst.mk title (Inst.Path i) (Inst.Branch i) (Inst.Status i)
          (Inst.Program i) (Inst.Height i) (Inst.Width i) (Inst.CreatedAt i)
          (Inst.UpdatedAt i) (Inst.AutoYes i) (Inst.Prompt i)
          (Inst.diffStats i) (Inst.DevServer i) (Inst.started i)
          (Inst.tmuxSession i) (Inst.gitWorktree i).

(** instance.go 428-436 *)
Definition SetTitle {D} (title : string) (i : Inst.t D)
  : option error * Inst.t D :=
  if Inst.started i
  then (Some (errorString "cannot change title of a started instance"), i)
  else (None, set_Title title i).

(** instance.go 119-164.  [now_] is [time.Now()]; [Config], [Status] and
    [CrashCount] are the methods of the dev-server interface. *)
Definition ToInstanceData {D} `{DevServerAPI D}
           (api_Config : D -> DevServerConfig) (now_ : Z) (i : Inst.t D)
  : InstanceData.t :=
  InstanceData.mk
    (Inst.Title i) (Inst.Path i) (Inst.Branch i) (Inst.Status i)
    (Inst.Height i) (Inst.Width i) (Inst.CreatedAt i) now_
    (Inst.Program i) (Inst.AutoYes i)
    match Inst.gitWorktree i with
    | Some w =>
        GitWorktreeData.mk (GetRepoPath w) (GetWorktreePath w) (Inst.Title i)
                           (GetBranchName w) (GetBaseCommitSHA w)
    | None => GitWorktreeData.mk "" "" "" "" ""
    end
    match Inst.diffStats i with
    | Some s => DiffStatsData.mk (Added s) (Removed s) (Content s)
    | None => DiffStatsData.mk 0 0 ""
    end
    match Inst.DevServer i with
    | Some d =>
        Some (DevServerData.mk (api_Config d) (api_Status d)
                               (api_CrashCount d))
    | None => None
    end.

(** instance.go 166-214.  The result is the instance, or the error with
    which [FromInstanceData] returns a nil instance. *)
Definition FromInstanceData (env : Env) (data : InstanceData.t)
  : M (Inst.t DevServer.t + error) :=
  let w := NewGitWorktreeFromStorage
             (GitWorktreeData.RepoPath (InstanceData.Worktree data))
             (GitWorktreeData.WorktreePath (InstanceData.Worktree data))
             (GitWorktreeData.SessionName (InstanceData.Worktree data))
             (GitWorktreeData.BranchName (InstanceData.Worktree data))
             (GitWorktreeData.BaseCommitSHA (InstanceData.Worktree data)) in
  let instance : Inst.t DevServer.t :=
    Inst.mk (InstanceData.Title data) (InstanceData.Path data)
            (InstanceData.Branch data) (InstanceData.Status data)
            (InstanceData.Program data) (InstanceData.Height data)
            (InstanceData.Width data) (InstanceData.CreatedAt data)
            (InstanceData.UpdatedAt data) false ""
            (Some (mkDiffStats
                     (DiffStatsData.Added (InstanceData.DiffStats data))
                     (DiffStatsData.Removed (InstanceData.DiffStats data))
                     (DiffStatsData.Content (InstanceData.DiffStats data))))
            None false None (Some w) in
  let instance :=
    match InstanceData.DevServer data with
    | Some dd =>
        Inst.set_DevServer
          (Some (DevServer.mk (DevServerData.Config dd)
                              (DevServerData.Status dd) None
                              (DevServerData.CrashCount dd) []
                              (GetWorktreePath w) (Inst.Title instance)))
          instance
    | None => instance
    end in
  if Inst.Paused instance then
    ret (inl (Inst.SetTmuxSession
                (Some (NewTmuxSession (Inst.Title instance)
                                      (Inst.Program instance)))
                (Inst.set_started true instance)))
  else
    '(err, instance) <- @Inst.Start env _ (DevServer.API env) false instance ;;
    match err with
    | Some e => ret (inr e)
    | None => ret (inl instance)
    end.

(** The calls [Pause] may make: the dirty check, the commit, the detach,
    the error log and the clipboard. *)
Definition pauseCall (e : event) : bool :=
  match e with
  | EvIsDirty _ | EvCommitChanges _ _ | EvDetachSafely _ | EvErrorLog _
  | EvClipboardWriteAll _ => true
  | _ => false
  end.

(** The calls of the polling loop: the existence check and the sleep. *)
Definition pollCall (e : event) : bool :=
  match e with
  | EvDoesSessionExist _ | EvSleep _ => true
  | _ => false
  end.

(** No whitespace of the class [\s] and no dot. *)
Fixpoint noSpaceNoDot (s : string) : bool :=
  match s with
  | EmptyString => true
  | String c rest =>
      negb (isSpace c) && negb (Ascii.eqb c "."%char) && noSpaceNoDot rest
  end.

(** * Polling and interaction

    The methods of [instance.go] that read the pane, send keys or poll the
    dev server use more of the session and worktree contracts.  Their calls
    are recorded as extended events: an event of the lifecycle trace, or one
    of the calls below.  [XWarningLog] is [log.WarningLog]. *)

Inductive xevent : Type :=
| XBase (e : event)
| XCapturePaneContent (s : TmuxSession)
| XCapturePaneContentWithOptions (s : TmuxSession) (from to : string)
| XHasUpdated (s : TmuxSession)
| XTapEnter (s : TmuxSession)
| XAttach (s : TmuxSession)
| XSetDetachedSize (s : TmuxSession) (width height : Z)
| XDiff (w : GitWorktree)
| XWarningLog (msg : string).

Definition xtrace := list xevent.

(** What each of these calls answers, given the history before it.
    [XAttach_] gives the error only; the completion channel is opaque.
    [XGetRepoName_] is the accessor for the repository name, and
    [TrimSpace_] is [strings.TrimSpace]. *)
Record XEnv : Type := mkXEnv {
  XCapturePaneContent_ : xtrace -> TmuxSession -> string * option error;
  XCaptureWithOptions_ :
    xtrace -> TmuxSession -> string -> string -> string * option error;
  XHasUpdated_ : xtrace -> TmuxSession -> bool * bool;
  XTapEnter_ : xtrace -> TmuxSession -> option error;
  XAttach_ : xtrace -> TmuxSession -> option error;
  XSetDetachedSize_ : xtrace -> TmuxSession -> Z -> Z -> option error;
  XDoesSessionExist_ : xtrace -> TmuxSession -> bool;
  XSendKeys_ : xtrace -> TmuxSession -> string -> option error;
  XDiff_ : xtrace -> GitWorktree -> DiffStats * option error;
  XGetRepoName_ : GitWorktree -> string;
  XNowFormat_ : xtrace -> string -> string;
  TrimSpace_ : string -> string
}.

Inductive xoutcome (A : Type) : Type :=
| XDone (a : A) (t : xtrace)
| XFault (f : fault).
Arguments XDone {A} a t.
Arguments XFault {A} f.

Definition XM (A : Type) : Type := xtrace -> xoutcome A.

Definition xret {A} (a : A) : XM A := fun t => XDone a t.

Definition xbind {A B} (m : XM A) (f : A -> XM B) : XM B :=
  fun t => match m t with
           | XDone a t' => f a t'
           | XFault x => XFault x
           end.

Definition xcall {A} (e : xevent) (answer : xtrace -> A) : XM A :=
  fun t => XDone (answer t) (t ++ [e])%list.

Definition xemit (e : xevent) : XM unit := xcall e (fun _ => tt).

Definition xask {A} (answer : xtrace -> A) : XM A :=
  fun t => XDone (answer t) t.

Definition xderef {A} (p : option A) : XM A :=
  match p with
  | Some a => xret a
  | None => fun _ => XFault NilPointer
  end.

Declare Scope live_scope.
Delimit Scope live_scope with live.
Notation "x <- c1 ;; c2" := (xbind c1 (fun x => c2))
  (at level 61, c1 at next level, right associativity) : live_scope.
Notation "' pat <- c1 ;; c2" :=
  (xbind c1 (fun x => match x with pat => c2 end))
  (at level 61, pat pattern, c1 at next level, right associativity)
  : live_scope.
Notation "c1 ;; c2" := (xbind c1 (fun _ => c2))
  (at level 61, right associativity) : live_scope.

(** [strings.Split(s, "\n")] *)
Fixpoint splitNL (s : string) : list string :=
  match s with
  | EmptyString => [EmptyString]
  | String c rest =>
      if Ascii.eqb c "010"%char then EmptyString :: splitNL rest
      else match splitNL rest with
           | line :: more => String c line :: more
           | [] => [String c EmptyString]
           end
  end.

(** [strings.HasPrefix] and [strings.Contains] *)
Fixpoint hasPrefixb (s p : string) : bool :=
  match p, s with
  | EmptyString, _ => true
  | String a p', String b s' => Ascii.eqb a b && hasPrefixb s' p'
  | String _ _, EmptyString => false
  end.

Fixpoint containsb (s sub : string) : bool :=
  hasPrefixb s sub
  || match s with
     | EmptyString => false
     | String _ rest => containsb rest sub
     end.

(** The verb [%d] of [fmt.Sprintf] on an int. *)
Definition itoa (z : Z) : string := NilEmpty.string_of_int (Z.to_int z).

(** The methods of the dev-server interface the poller uses. *)
Class DevServerLive (D : Type) : Type := {
  live_CheckHealth : D -> XM D
}.

(** ** DevServer: output capture and health check *)

Module LiveDev.
Local Open Scope live_scope.

Definition set_crashCount (n : Z) (d : DevServer.t) : DevServer.t :=
  DevServer.mk (DevServer.config d) (DevServer.status d)
               (DevServer.session d) n (DevServer.output d)
               (DevServer.worktree d) (DevServer.instance d).

(** instance.go 801-806 (and [GetOutput], 653-658) *)
Definition Output (d : DevServer.t) : string :=
  String.concat nl (DevServer.output d).

(** instance.go 776-779 *)
Definition SetStatus (st : DevServerStatus) (d : DevServer.t) : DevServer.t :=
  DevServer.set_status st d.

(** instance.go 791-794; the counter is a Go int *)
Definition IncrementCrashCount (d : DevServer.t) : DevServer.t :=
  set_crashCount (wrap64 (DevServer.crashCount d + 1)) d.

Section WithEnv.
Variable xenv : XEnv.

(** The loop of [UpdateOutputFromSession] over the captured lines. *)
Definition appendNonBlank (lines : list string) (d : DevServer.t)
  : DevServer.t :=
  fold_left (fun d line =>
               if (TrimSpace_ xenv line =? "")%string then d
               else DevServer.appendOutput line d)
            lines d.

(** instance.go 670-686 *)
Definition UpdateOutputFromSession (d : DevServer.t)
  : XM (option error * DevServer.t) :=
  match DevServer.session d with
  | None => xret (None, d)
  | Some s =>
      '(content, err) <- xcall (XCapturePaneContent s)
                               (fun h => XCapturePaneContent_ xenv h s) ;;
      match err with
      | Some e => xret (Some e, d)
      | None => xret (None, appendNonBlank (splitNL content) d)
      end
  end.

(** instance.go 796-799 *)
Definition UpdateOutput (d : DevServer.t) : XM DevServer.t :=
  '(_, d) <- UpdateOutputFromSession d ;; xret d.

(** instance.go 693-713 *)
Definition SessionExists (d : DevServer.t) : XM bool :=
  match DevServer.session d with
  | None => xret false
  | Some s =>
      doesExist <- xcall (XBase (EvDoesSessionExist s))
                         (fun h => XDoesSessionExist_ xenv h s) ;;
      if negb doesExist then xret false
      else
        '(content, err) <- xcall (XCapturePaneContent s)
                                 (fun h => XCapturePaneContent_ xenv h s) ;;
        match err with
        | Some _ => xret false
        | None => xret (negb (content =? "")%string)
        end
  end.

(** instance.go 761-769 *)
Definition HasUpdated (d : DevServer.t) : XM (bool * DevServer.t) :=
  match DevServer.session d with
  | None => xret (false, d)
  | Some _ =>
      let prevLen := List.length (DevServer.output d) in
      '(_, d) <- UpdateOutputFromSession d ;;
      xret ((prevLen <? List.length (DevServer.output d))%nat, d)
  end.

(** The loop [for i := start; i < numLines; i++] of [CheckHealth]. *)
Definition appendQuoted (lines : list string) (d : DevServer.t)
  : DevServer.t :=
  fold_left (fun d line => DevServer.appendOutput ("  " ++ line) d) lines d.

(** instance.go 715-759 *)
Definition CheckHealth (d : DevServer.t) : XM DevServer.t :=
  if negb (DevServerStatus_eqb (DevServer.status d) DevServerRunning)
  then xret d
  else
    '(_, d) <- UpdateOutputFromSession d ;;
    match DevServer.session d with
    | None =>
        let d := IncrementCrashCount d in
        let d := DevServer.set_status DevServerCrashed d in
        stamp <- xask (fun h => XNowFormat_ xenv h "15:04:05") ;;
        xret (DevServer.appendOutput
                ("[" ++ stamp ++ "] Dev server crashed! Session was nil.") d)
    | Some s =>
        sessionExists <- xcall (XBase (EvDoesSessionExist s))
                               (fun h => XDoesSessionExist_ xenv h s) ;;
        if sessionExists : bool then xret d
        else
          let d := IncrementCrashCount d in
          let d := DevServer.set_status DevServerCrashed d in
          let output := Output d in
          d <-
            (if negb (output =? "")%string then
               let lastLines := splitNL output in
               let numLines := List.length lastLines in
               let start := if (20 <? numLines)%nat
                            then (numLines - 20)%nat else 0%nat in
               stamp <- xask (fun h => XNowFormat_ xenv h "15:04:05") ;;
               let d := DevServer.appendOutput
                          ("[" ++ stamp ++ "] Dev server crashed! Last output:")
                          d in
               xret (appendQuoted (skipn start lastLines) d)
             else
               stamp <- xask (fun h => XNowFormat_ xenv h "15:04:05") ;;
               xret (DevServer.appendOutput
                       ("[" ++ stamp
                        ++ "] Dev server crashed! No output available.") d)) ;;
          let d := DevServer.appendOutput
                     ("Crash count: " ++ itoa (DevServer.crashCount d)) d in
          if 3 <=? DevServer.crashCount d then
            xret (DevServer.appendOutput
                    "Multiple crashes detected. Check your dev server configuration."
                    d)
          else xret d
    end.

#[export] Instance Live : DevServerLive DevServer.t := {
  live_CheckHealth := CheckHealth
}.

End WithEnv.

End LiveDev.

(** ** Instance: preview, keys, prompt, diff statistics *)

Module LiveInst.
Local Open Scope live_scope.

(** instance.go 416-422 *)
Definition GetGitWorktree {D} (i : Inst.t D)
  : option GitWorktree * option error :=
  if negb (Inst.started i) then
    (None,
     Some (errorString
             "cannot get git worktree for instance that has not been started"))
  else (Inst.gitWorktree i, None).

(** instance.go 585-588 *)
Definition GetDiffStats {D} (i : Inst.t D) : option DiffStats :=
  Inst.diffStats i.

Section WithEnv.
Variable xenv : XEnv.
Context {D : Type}.

(** instance.go 250-255 *)
Definition RepoName (i : Inst.t D) : XM (string * option error) :=
  if negb (Inst.started i) then
    xret ("", Some (errorString
                      "cannot get repo name for instance that has not been started"))
  else
    w <- xderef (Inst.gitWorktree i) ;;
    xret (XGetRepoName_ xenv w, None).

(** instance.go 377-382 *)
Definition Preview (i : Inst.t D) : XM (string * option error) :=
  if negb (Inst.started i) || Status_eqb (Inst.Status i) Paused then
    xret ("", None)
  else
    s <- xderef (Inst.tmuxSession i) ;;
    xcall (XCapturePaneContent s) (fun h => XCapturePaneContent_ xenv h s).

(** instance.go 384-389 *)
Definition HasUpdated (i : Inst.t D) : XM (bool * bool) :=
  if negb (Inst.started i) then xret (false, false)
  else
    s <- xderef (Inst.tmuxSession i) ;;
    xcall (XHasUpdated s) (fun h => XHasUpdated_ xenv h s).

(** instance.go 391-399 *)
Definition TapEnter (i : Inst.t D) : XM unit :=
  if negb (Inst.started i) || negb (Inst.AutoYes i) then xret tt
  else
    s <- xderef (Inst.tmuxSession i) ;;
    err <- xcall (XTapEnter s) (fun h => XTapEnter_ xenv h s) ;;
    match err with
    | Some e =>
        xemit (XBase (EvErrorLog ("error tapping enter: " ++ Error e)))
    | None => xret tt
    end.

(** instance.go 401-406 *)
Definition Attach (i : Inst.t D) : XM (option error) :=
  if negb (Inst.started i) then
    xret (Some (errorString
                  "cannot attach instance that has not been started"))
  else
    s <- xderef (Inst.tmuxSession i) ;;
    xcall (XAttach s) (fun h => XAttach_ xenv h s).

(** instance.go 408-414 *)
Definition SetPreviewSize (width height : Z) (i : Inst.t D)
  : XM (option error) :=
  if negb (Inst.started i) || Status_eqb (Inst.Status i) Paused then
    xret (Some (errorString
                  ("cannot set preview size for instance that has not been started or "
                   ++ "is paused")))
  else
    s <- xderef (Inst.tmuxSession i) ;;
    xcall (XSetDetachedSize s width height)
          (fun h => XSetDetachedSize_ xenv h s width height).

(** instance.go 442-445 *)
Definition TmuxAlive (i : Inst.t D) : XM bool :=
  s <- xderef (Inst.tmuxSession i) ;;
  xcall (XBase (EvDoesSessionExist s)) (fun h => XDoesSessionExist_ xenv h s).

(** instance.go 559-583 *)
Definition UpdateDiffStats (i : Inst.t D) : XM (option error * Inst.t D) :=
  if negb (Inst.started i) then xret (None, set_diffStats None i)
  else if Status_eqb (Inst.Status i) Paused then xret (None, i)
  else
    w <- xderef (Inst.gitWorktree i) ;;
    '(stats, err) <- xcall (XDiff w) (fun h => XDiff_ xenv h w) ;;
    match err with
    | Some e =>
        if containsb (Error e) "base commit SHA not set" then
          xret (None, set_diffStats None i)
        else xret (Some (Errorf_w "failed to get diff stats: " e), i)
    | None => xret (None, set_diffStats (Some stats) i)
    end.

(** instance.go 590-609 *)
Definition SendPrompt (prompt : string) (i : Inst.t D) : XM (option error) :=
  if negb (Inst.started i) then
    xret (Some (errorString "instance not started"))
  else
    match Inst.tmuxSession i with
    | None => xret (Some (errorString "tmux session not initialized"))
    | Some s =>
        err <- xcall (XBase (EvSendKeys s prompt))
                     (fun h => XSendKeys_ xenv h s prompt) ;;
        match err with
        | Some e =>
            xret (Some (Errorf_w "error sending keys to tmux session: " e))
        | None =>
            xemit (XBase (EvSleep (100 * Millisecond))) ;;
            err <- xcall (XTapEnter s) (fun h => XTapEnter_ xenv h s) ;;
            match err with
            | Some e => xret (Some (Errorf_w "error tapping enter: " e))
            | None => xret None
            end
        end
    end.

(** instance.go 611-617 *)
Definition PreviewFullHistory (i : Inst.t D) : XM (string * option error) :=
  if negb (Inst.started i) || Status_eqb (Inst.Status i) Paused then
    xret ("", None)
  else
    s <- xderef (Inst.tmuxSession i) ;;
    xcall (XCapturePaneContentWithOptions s "-" "-")
          (fun h => XCaptureWithOptions_ xenv h s "-" "-").

(** instance.go 624-630 *)
Definition SendKeys (keys : string) (i : Inst.t D) : XM (option error) :=
  if negb (Inst.started i) || Status_eqb (Inst.Status i) Paused then
    xret (Some (errorString
                  "cannot send keys to instance that has not been started or is paused"))
  else
    s <- xderef (Inst.tmuxSession i) ;;
    xcall (XBase (EvSendKeys s keys)) (fun h => XSendKeys_ xenv h s keys).

(** app.go 254-275: what the metadata tick does with one instance. *)
Definition tickInstance `{DevServerLive D} (i : Inst.t D) : XM (Inst.t D) :=
  if negb (Inst.Started i) || Inst.Paused i then xret i
  else
    '(updated, prompt) <- HasUpdated i ;;
    i <- (if updated : bool then xret (Inst.SetStatus Running i)
          else if prompt : bool then TapEnter i ;; xret i
               else xret (Inst.SetStatus Ready i)) ;;
    '(err, i) <- UpdateDiffStats i ;;
    match err with
    | Some e =>
        xemit (XWarningLog ("could not update diff stats: " ++ Error e))
    | None => xret tt
    end ;;
    match Inst.DevServer i with
    | Some d =>
        d' <- live_CheckHealth d ;;
        xret (Inst.set_DevServer (Some d') i)
    | None => xret i
    end.

End WithEnv.

End LiveInst.

(** The captured lines that [UpdateOutputFromSession] keeps. *)
Definition keptLines (xenv : XEnv) (content : string) : list string :=
  filter (fun line => negb (TrimSpace_ xenv line =? "")%string)
         (splitNL content).

(** The lines a detected crash adds to the buffer, given the time stamp,
    the output joined before the crash and the new crash count. *)
Definition crashReport (stamp previous : string) (count : Z) : list string :=
  let head_ : list string :=
    if (previous =? "")%string
    then ["[" ++ stamp ++ "] Dev server crashed! No output available."]
    else ("[" ++ stamp ++ "] Dev server crashed! Last output:")
           :: map (append "  ") (lastn 20 (splitNL previous)) in
  let count_ : list string := ["Crash count: " ++ itoa count] in
  let warning_ : list string :=
    if 3 <=? count
    then ["Multiple crashes detected. Check your dev server configuration."]
    else [] in
  (head_ ++ count_ ++ warning_)%list.

(** The calls of the health check: the pane capture and the existence
    check. *)
Definition healthCall (e : xevent) : bool :=
  match e with
  | XCapturePaneContent _ | XBase (EvDoesSessionExist _) => true
  | _ => false
  end.

(** The calls a metadata tick can make after the auto-yes key press: the
    diff, its warning, the error log of a failed key press, and the calls
    of the health check. *)
Definition tickTail (e : xevent) : bool :=
  match e with
  | XDiff _ | XWarningLog _ | XBase (EvErrorLog _) => true
  | _ => healthCall e
  end.

(** What a record looks like after it has been restored and persisted
    again at time [now_]: the status is Paused or Running, auto-yes is off,
    the session name of the worktree is the title, and the update time is
    [now_]. *)
Definition restoredData (data : InstanceData.t) (now_ : Z) : InstanceData.t :=
  InstanceData.mk
    (InstanceData.Title data) (InstanceData.Path data)
    (InstanceData.Branch data)
    (if Status_eqb (InstanceData.Status data) Paused then Paused else Running)
    (InstanceData.Height data) (InstanceData.Width data)
    (InstanceData.CreatedAt data) now_ (InstanceData.Program data) false
    (GitWorktreeData.mk
       (GitWorktreeData.RepoPath (InstanceData.Worktree data))
       (GitWorktreeData.WorktreePath (InstanceData.Worktree data))
       (InstanceData.Title data)
       (GitWorktreeData.BranchName (InstanceData.Worktree data))
       (GitWorktreeData.BaseCommitSHA (InstanceData.Worktree data)))
    (InstanceData.DiffStats data)
    (InstanceData.DevServer data).

(** ** More scenarios *)

Module Example.

(** A record persisted while the agent was waiting for input, with auto-yes
    on and a dev server that was running. *)
Definition readyData : InstanceData.t :=
  InstanceData.mk "t1" "/repo" "user/t1" Ready 24 80 100 200 "claude" true
    (GitWorktreeData.mk "/repo" "/repo/.worktrees/t1" "old-name" "user/t1"
                        "abc123")
    (DiffStatsData.mk 3 1 "diff")
    (Some (DevServerData.mk Scenario.devConfig DevServerRunning 1)).

Definition pausedData : InstanceData.t :=
  InstanceData.mk "t1" "/repo" "user/t1" Paused 24 80 100 200 "claude" false
    (GitWorktreeData.mk "/repo" "/repo/.worktrees/t1" "t1" "user/t1" "abc123")
    (DiffStatsData.mk 0 0 "") None.

(** An environment of the polling layer: the pane shows [captured], the
    session exists or not, the pane has changed or shows a prompt, and the
    named calls fail. *)
Definition xenvOf (captured : string) (sessionExists updated prompt : bool)
           (fails : list string) : XEnv :=
  let failIf (what : string) : option error :=
    if existsb (String.eqb what) fails
    then Some (Scenario.boom (what ++ " failed")) else None in
  mkXEnv (fun _ _ => (captured, failIf "capture"))
         (fun _ _ _ _ => (captured, None))
         (fun _ _ => (updated, prompt))
         (fun _ _ => failIf "tap")
         (fun _ _ => None)
         (fun _ _ _ _ => None)
         (fun _ _ => sessionExists)
         (fun _ _ _ => failIf "send")
         (fun _ _ => (mkDiffStats 1 2 "d", failIf "diff"))
         (fun _ => "repo")
         (fun _ _ => "12:00:00")
         removeWhitespace.

(** A running dev server holding a session. *)
Definition liveDev : DevServer.t :=
  DevServer.mk Scenario.devConfig DevServerRunning (Some Scenario.sess) 2
               ["ready"] "/repo/.worktrees/t1" "t1".

(** A started, running instance with auto-yes on. *)
Definition autoYes : Inst.t DevServer.t :=
  Inst.mk "t1" "/repo" "user/t1" Running "claude" 0 0 0 0 true "" None
          None true (Some Scenario.sess) (Some Scenario.wt).

End Example.

(** * Properties *)

(** ** Strings *)

Lemma str_app_assoc (a b c : string) : (a ++ b) ++ c = a ++ (b ++ c).
Proof.
  induction a as [|ch a IH]; simpl; [reflexivity | now rewrite IH].
Qed.

Lemma str_app_nil_r (a : string) : a ++ "" = a.
Proof.
  induction a as [|ch a IH]; simpl; [reflexivity | now rewrite IH].
Qed.

Lemma Contains_refl (s : string) : Contains s s.
Proof.
  exists "", "". simpl. now rewrite str_app_nil_r.
Qed.

Lemma Contains_app_l (a b s : string) : Contains a s -> Contains (a ++ b) s.
Proof.
  intros (pre & post & ->). exists pre, (post ++ b).
  now rewrite !str_app_assoc.
Qed.

Lemma Contains_app_r (a b s : string) : Contains b s -> Contains (a ++ b) s.
Proof.
  intros (pre & post & ->). exists (a ++ pre), post.
  now rewrite !str_app_assoc.
Qed.

Lemma Contains_trans (a b c : string) :
  Contains a b -> Contains b c -> Contains a c.
Proof.
  intros (p1 & q1 & ->) (p2 & q2 & ->).
  exists (p1 ++ p2), (q2 ++ q1). now rewrite !str_app_assoc.
Qed.

Create HintDb strs.
#[local] Hint Resolve Contains_refl Contains_app_l Contains_app_r : strs.

Lemma Errorf_w_Contains (prefix : string) (e : error) :
  Contains (Error (Errorf_w prefix e)) (Error e).
Proof. unfold Errorf_w. cbn [Error]. auto with strs. Qed.

Lemma Errorf_cleanup_Contains (e c : error) :
  Contains (Error (Errorf_cleanup e c)) (Error e)
  /\ Contains (Error (Errorf_cleanup e c)) (Error c).
Proof. unfold Errorf_cleanup. cbn [Error]. split; auto 6 with strs. Qed.

(** ** combineErrors *)

Lemma combineLoop_prefix (errs : list error) (acc : string) :
  HasPrefix (combineLoop acc errs) acc.
Proof.
  revert acc. induction errs as [|e rest IH]; intros acc; cbn [combineLoop].
  - exists "". now rewrite str_app_nil_r.
  - destruct (IH (acc ++ (nl ++ "  - ") ++ Error e)) as [post Hpost].
    rewrite Hpost. exists (((nl ++ "  - ") ++ Error e) ++ post).
    now rewrite str_app_assoc.
Qed.

Lemma combineLoop_keeps (errs : list error) (acc s : string) :
  Contains acc s -> Contains (combineLoop acc errs) s.
Proof.
  intros H. destruct (combineLoop_prefix errs acc) as [post ->].
  auto with strs.
Qed.

Lemma combineLoop_Contains (errs : list error) (acc : string) (x : error) :
  In x errs -> Contains (combineLoop acc errs) (Error x).
Proof.
  revert acc. induction errs as [|e rest IH]; intros acc Hin;
    cbn [combineLoop].
  - destruct Hin.
  - destruct Hin as [-> | Hin].
    + apply combineLoop_keeps. auto with strs.
    + now apply IH.
Qed.

(** What the loop builds: the start of the message followed by one
    item, a new line and ["  - "] and the message, per error in order. *)
Lemma combineLoop_items (errs : list error) (acc : string) :
  combineLoop acc errs
  = acc ++ fold_right (fun x rest => nl ++ "  - " ++ Error x ++ rest) ""
                      errs.
Proof.
  revert acc. induction errs as [|e rest IH]; intros acc;
    cbn [combineLoop fold_right].
  - now rewrite str_app_nil_r.
  - rewrite IH, !str_app_assoc. reflexivity.
Qed.

Lemma combineErrors_many (errs : list error) :
  (2 <= List.length errs)%nat ->
  exists e,
    combineErrors errs = Some e
    /\ Error e
       = "multiple cleanup errors occurred:"
         ++ fold_right (fun x rest => nl ++ "  - " ++ Error x ++ rest) ""
                       errs
    /\ HasPrefix (Error e) "multiple cleanup errors occurred:"
    /\ forall x, In x errs -> Contains (Error e) (Error x).
Proof.
  intros Hlen.
  destruct errs as [|a [|b rest]]; simpl in Hlen; try lia.
  exists (errorString (combineLoop cleanupHeader (a :: b :: rest))).
  split; [reflexivity | split; [| split]].
  - cbn [Error]. apply combineLoop_items.
  - apply (combineLoop_prefix (a :: b :: rest) cleanupHeader).
  - intros x Hx. now apply combineLoop_Contains.
Qed.

(** C5.  [combineErrors] gives no error for the empty list, gives the one
    error back unchanged for a one-element list, and for two or more errors
    gives a single error whose message is the header "multiple cleanup
    errors occurred:" followed by one item per error, in order, each on a
    line of its own after ["  - "]: the message starts with that header and
    contains the message of every constituent. *)
Theorem C5_combineErrors_spec :
  combineErrors [] = None
  /\ (forall e, combineErrors [e] = Some e)
  /\ (forall errs, (2 <= List.length errs)%nat ->
        exists e,
          combineErrors errs = Some e
          /\ Error e
             = "multiple cleanup errors occurred:"
               ++ fold_right (fun x rest => nl ++ "  - " ++ Error x ++ rest)
                             "" errs
          /\ HasPrefix (Error e) "multiple cleanup errors occurred:"
          /\ forall x, In x errs -> Contains (Error e) (Error x)).
Proof.
  split; [reflexivity | split; [reflexivity |]].
  exact combineErrors_many.
Qed.

Lemma C5_combineErrors_witness :
  (2 <= List.length [errorString "a"; errorString "b"])%nat
  /\ exists e,
       combineErrors [errorString "a"; errorString "b"] = Some e
       /\ Error e
          = "multiple cleanup errors occurred:" ++ nl ++ "  - a"
            ++ nl ++ "  - b"
       /\ HasPrefix (Error e) "multiple cleanup errors occurred:"
       /\ forall x, In x [errorString "a"; errorString "b"] ->
                    Contains (Error e) (Error x).
Proof.
  split; [simpl; lia |].
  apply (proj2 (proj2 C5_combineErrors_spec)). simpl; lia.
Defined.

(** ** The output buffer *)

Lemma pushLine_lastn (buf : list string) (line : string) :
  DevServer.pushLine buf line = lastn 100 (buf ++ [line])%list.
Proof.
  unfold DevServer.pushLine, lastn.
  destruct (Nat.ltb_spec 100 (List.length (buf ++ [line])%list)) as [H|H].
  - reflexivity.
  - replace (List.length (buf ++ [line])%list - 100)%nat with 0%nat by lia.
    reflexivity.
Qed.

Lemma lastn_length {A} (n : nat) (l : list A) :
  List.length (lastn n l) = Nat.min n (List.length l).
Proof. unfold lastn. rewrite length_skipn. lia. Qed.

Lemma lastn_app_lastn {A} (n : nat) (a b : list A) :
  lastn n (lastn n a ++ b) = lastn n (a ++ b).
Proof.
  unfold lastn at 1 3. rewrite !length_app, lastn_length.
  unfold lastn. rewrite !skipn_app, skipn_skipn, length_skipn.
  f_equal; f_equal; lia.
Qed.

Lemma output_appendAll (lines : list string) (d : DevServer.t) :
  DevServer.output (appendAll lines d)
  = fold_left DevServer.pushLine lines (DevServer.output d).
Proof.
  revert d. induction lines as [|x rest IH]; intros d; simpl.
  - reflexivity.
  - unfold appendAll in *. simpl. now rewrite IH.
Qed.

Lemma fold_pushLine (lines : list string) (buf : list string) :
  lines <> [] ->
  fold_left DevServer.pushLine lines buf = lastn 100 (buf ++ lines)%list.
Proof.
  revert buf. induction lines as [|x rest IH]; intros buf Hne.
  - contradiction.
  - simpl. destruct rest as [|y rest'].
    + simpl. apply pushLine_lastn.
    + rewrite IH by discriminate.
      rewrite pushLine_lastn, lastn_app_lastn, <- app_assoc. reflexivity.
Qed.

Lemma appendAll_fresh (lines : list string) (d : DevServer.t) :
  DevServer.output d = [] ->
  DevServer.output (appendAll lines d) = lastn 100 lines.
Proof.
  intros Hd. rewrite output_appendAll, Hd.
  destruct lines as [|x rest].
  - reflexivity.
  - now rewrite fold_pushLine by discriminate.
Qed.

(** C8.  Starting from the empty buffer of a new dev server, after any
    sequence of appends the buffer holds at most 100 lines and they are
    exactly the last (at most 100) appended lines in their order; 500 appends
    leave exactly lines 401 to 500. *)
Theorem C8_output_buffer_bounded
        (cfg : DevServerConfig) (wt inst : string) (lines : list string) :
  let d := appendAll lines (DevServer.NewDevServer cfg wt inst) in
  (List.length (DevServer.output d) <= 100)%nat
  /\ DevServer.output d = lastn 100 lines
  /\ (List.length lines = 500%nat ->
      DevServer.output d = skipn 400 lines
      /\ List.length (DevServer.output d) = 100%nat).
Proof.
  cbv zeta.
  pose proof (appendAll_fresh lines (DevServer.NewDevServer cfg wt inst)
                              eq_refl) as E.
  rewrite E. split; [rewrite lastn_length; lia | split; [reflexivity |]].
  intros H500. split.
  - unfold lastn. now rewrite H500.
  - rewrite lastn_length. lia.
Qed.

Lemma C8_output_buffer_witness :
  List.length Scenario.lines500 = 500%nat
  /\ DevServer.output
       (appendAll Scenario.lines500
                  (DevServer.NewDevServer Scenario.devConfig "/w" "t1"))
     = skipn 400 Scenario.lines500.
Proof.
  split; [reflexivity |].
  apply (C8_output_buffer_bounded Scenario.devConfig "/w" "t1"
                                  Scenario.lines500).
  reflexivity.
Defined.

(** ** Running the monad *)

Ltac run :=
  cbv beta iota zeta delta [bind call emit ret ask now deref panic] in *.

(** ** DevServer.Stop *)

(** C10.  [DevServer.Stop] finishes and returns nil in every state; it
    leaves the status Stopped and the session reference cleared.  With no
    session it calls nothing; with a session it sends the interrupt, waits
    2s, and closes the session when it still exists, ignoring the result. *)
Theorem C10_Stop_never_fails (env : Env) (d : DevServer.t) (t : trace) :
  exists d' evs,
    DevServer.Stop env d t = Done (None, d') (t ++ evs)%list
    /\ DevServer.status d' = DevServerStopped
    /\ DevServer.session d' = None
    /\ evs = match DevServer.session d with
             | None => []
             | Some s =>
                 let intr := String "003"%char EmptyString in
                 let polled :=
                   [EvSendKeys s intr; EvSleep (2 * Second);
                    EvDoesSessionExist s] in
                 if DoesSessionExist_ env
                      (t ++ [EvSendKeys s intr; EvSleep (2 * Second)])%list s
                 then (polled ++ [EvClose s])%list
                 else polled
             end.
Proof.
  unfold DevServer.Stop. destruct (DevServer.session d) as [s|] eqn:Hs.
  - exists (DevServer.set_status DevServerStopped
              (DevServer.set_session None d)).
    run. rewrite <- !app_assoc. cbn [app].
    destruct (DoesSessionExist_ env _ s);
      eexists; (split; [rewrite <- ?app_assoc; cbn [app]; reflexivity |]);
      repeat split.
  - exists (DevServer.set_status DevServerStopped d), [].
    run. rewrite app_nil_r. repeat split. exact Hs.
Qed.

(** ** DevServer.Start and the already-running guard *)

Lemma Start_error_not_guard (env : Env) (d : DevServer.t) (t : trace) :
  forall r d' t',
    DevServer.Start env d t = Done (r, d') t' ->
    DevServer.IsRunning d = false ->
    r <> Some (errorString "dev server is already running").
Proof.
  intros r d' t' Hrun Hnot. unfold DevServer.Start in Hrun.
  rewrite Hnot in Hrun.
  destruct (DevCommand (DevServer.config d) =? "")%string.
  - injection Hrun as <- _ _. discriminate.
  - run.
    destruct (if (BuildCommand
                    (DevServer.config
                       (DevServer.set_status DevServerBuilding d)) =? "")%string
              then _ else _) as [[[be|] d1] t1 | f]; try discriminate Hrun.
    + injection Hrun as <- _ _. discriminate.
    + destruct (DevServer.startDevServer env _ t1) as [[[se|] d2] t2 | f];
        try discriminate Hrun; injection Hrun as <- _ _; discriminate.
Qed.

(** C4 (as the code has it).  [Start] called while the status is Running or
    Starting returns the already-running error, makes no call at all and
    hands the dev server back unchanged.  The status Building is not covered
    by the guard: [IsRunning] is false there and [Start] does exactly what
    it does from the status Stopped, with the same calls and the same
    result; in particular, whatever it returns is not the already-running
    error. *)
Theorem C4_Start_guard (env : Env) (d : DevServer.t) (t : trace) :
  (DevServer.status d = DevServerRunning
   \/ DevServer.status d = DevServerStarting ->
   DevServer.Start env d t
   = Done (Some (errorString "dev server is already running"), d) t)
  /\ (DevServer.status d = DevServerBuilding ->
      DevServer.IsRunning d = false
      /\ DevServer.Start env d t
         = (if (DevCommand (DevServer.config d) =? "")%string
            then Done (Some (errorString "dev command not configured"), d) t
            else DevServer.Start env
                   (DevServer.set_status DevServerStopped d) t)
      /\ forall r d' t',
           DevServer.Start env d t = Done (r, d') t' ->
           r <> Some (errorString "dev server is already running")).
Proof.
  split.
  - intros H. unfold DevServer.Start, DevServer.IsRunning, DevServer.Status.
    destruct H as [-> | ->]; reflexivity.
  - intros Hb.
    assert (Hnot : DevServer.IsRunning d = false).
    { unfold DevServer.IsRunning, DevServer.Status. now rewrite Hb. }
    split; [exact Hnot |]. split.
    + unfold DevServer.Start at 1 2. rewrite Hnot.
      destruct (DevCommand (DevServer.config d) =? "")%string eqn:Hcmd;
        [reflexivity |].
      cbn [DevServer.IsRunning DevServer.Status DevServer.status
           DevServer.set_status DevServerStatus_eqb orb
           DevServer.config].
      rewrite Hcmd. reflexivity.
    + intros r d' t' Hrun.
      exact (Start_error_not_guard env d t r d' t' Hrun Hnot).
Qed.

Lemma C4_Start_guard_witness :
  DevServer.status (Scenario.devIn DevServerStarting) = DevServerStarting
  /\ DevServer.Start Scenario.okEnv (Scenario.devIn DevServerStarting) []
     = Done (Some (errorString "dev server is already running"),
             Scenario.devIn DevServerStarting) [].
Proof.
  split; [reflexivity |].
  apply (proj1 (C4_Start_guard Scenario.okEnv
                  (Scenario.devIn DevServerStarting) [])).
  right. reflexivity.
Defined.

(** C4, the claim as stated, fails for the status Building: [IsRunning] is
    false and [Start] goes on; in an environment where every call succeeds
    it launches a new tmux process, returns nil and leaves the status
    Running. *)
Lemma C4_counterexample :
  DevServer.status Scenario.buildingDev = DevServerBuilding
  /\ exists d' t',
       DevServer.Start Scenario.okEnv Scenario.buildingDev []
       = Done (None, d') t'
       /\ DevServer.status d' = DevServerRunning
       /\ In (EvPtyStart
                ["tmux"; "new-session"; "-d"; "-s"; "claudesquad_t1_dev";
                 "-c"; "/repo/.worktrees/t1"; "-x"; "200"; "-y"; "50";
                 "sh"; "-c"; "npm run dev"]) t'.
Proof.
  split; [reflexivity |].
  eexists. eexists. split; [vm_compute; reflexivity |].
  split; [reflexivity |]. simpl. tauto.
Qed.

(** ** Instance.Kill *)

Lemma Kill_not_started (env : Env) {D : Type} `{DevServerAPI D}
      (i : Inst.t D) (t : trace) :
  Inst.started i = false -> Inst.Kill env i t = Done (None, i) t.
Proof.
  intros Hs. unfold Inst.Kill. rewrite Hs. reflexivity.
Qed.

Lemma combineErrors_two_failures (p1 p2 : string) (e1 e2 : error)
      (rest : list error) :
  exists err,
    combineErrors (Errorf_w p1 e1 :: Errorf_w p2 e2 :: rest) = Some err
    /\ Contains (Error err) (Error e1)
    /\ Contains (Error err) (Error e2).
Proof.
  destruct (combineErrors_many (Errorf_w p1 e1 :: Errorf_w p2 e2 :: rest))
    as (err & Herr & _ & _ & Hall); [simpl; lia |].
  exists err. split; [exact Herr | split].
  - apply (Contains_trans _ (Error (Errorf_w p1 e1)));
      [apply Hall; simpl; tauto | apply Errorf_w_Contains].
  - apply (Contains_trans _ (Error (Errorf_w p2 e2)));
      [apply Hall; simpl; tauto | apply Errorf_w_Contains].
Qed.

(** C1.  [Kill] on an instance that is not started returns nil and touches
    nothing.  On a started instance owning a session and a worktree it stops
    the dev server (when there is one), then closes the session, then cleans
    the worktree up, each step being made whatever the earlier ones
    answered; the failures are collected in that order and combined, so when
    both the stop and the close fail the cleanup is still attempted and the
    returned error mentions both. *)
Theorem C1_Kill_best_effort (env : Env) (D : Type) (api : DevServerAPI D)
        (i : Inst.t D) (t : trace) :
  (Inst.started i = false -> Inst.Kill env i t = Done (None, i) t)
  /\ (Inst.started i = true ->
      forall s w,
        Inst.tmuxSession i = Some s ->
        Inst.gitWorktree i = Some w ->
        (forall d r1 d' t1,
            Inst.DevServer i = Some d ->
            api_Stop d t = Done (r1, d') t1 ->
            let r2 := Close_ env t1 s in
            let r3 := Cleanup_ env (t1 ++ [EvClose s])%list w in
            let res :=
              combineErrors
                (collect "failed to stop dev server: " r1
                 ++ collect "failed to close tmux session: " r2
                 ++ collect "failed to cleanup git worktree: " r3)%list in
            Inst.Kill env i t
            = Done (res, Inst.set_DevServer (Some d') i)
                   (t1 ++ [EvClose s; EvCleanup w])%list
            /\ (forall e1 e2, r1 = Some e1 -> r2 = Some e2 ->
                  exists err, res = Some err
                              /\ Contains (Error err) (Error e1)
                              /\ Contains (Error err) (Error e2)))
        /\ (Inst.DevServer i = None ->
            let r2 := Close_ env t s in
            let r3 := Cleanup_ env (t ++ [EvClose s])%list w in
            Inst.Kill env i t
            = Done (combineErrors
                      (collect "failed to close tmux session: " r2
                       ++ collect "failed to cleanup git worktree: " r3)%list,
                    i)
                   (t ++ [EvClose s; EvCleanup w])%list)).
Proof.
  split; [apply Kill_not_started |].
  intros Hst s w Hs Hw. split.
  - intros d r1 d' t1 Hd Hstop. cbv zeta. split.
    + unfold Inst.Kill. rewrite Hst, Hd. cbn [negb].
      run. rewrite Hstop. cbn [Inst.tmuxSession Inst.gitWorktree
                                 Inst.set_DevServer].
      rewrite Hs, Hw. rewrite <- !app_assoc. reflexivity.
    + intros e1 e2 -> E2. rewrite E2. cbn [collect app].
      apply combineErrors_two_failures.
  - intros Hd. cbv zeta. unfold Inst.Kill. rewrite Hst, Hd. cbn [negb].
    run. rewrite Hs, Hw. rewrite <- !app_assoc. reflexivity.
Qed.

Lemma C1_Kill_witness :
  Inst.started Scenario.runningFake = true
  /\ exists err,
       @Inst.Kill Scenario.envStopCloseFail _
                  (Scenario.FakeDev_API Scenario.envStopCloseFail)
                  Scenario.runningFake []
       = Done (Some err, Scenario.runningFake)
              [EvIfaceStop; EvClose Scenario.sess; EvCleanup Scenario.wt]
       /\ Contains (Error err) "stop failed"
       /\ Contains (Error err) "close failed".
Proof.
  split; [reflexivity |].
  destruct (C1_Kill_best_effort Scenario.envStopCloseFail _
              (Scenario.FakeDev_API Scenario.envStopCloseFail)
              Scenario.runningFake [])
    as [_ Hstarted].
  destruct (Hstarted eq_refl Scenario.sess Scenario.wt eq_refl eq_refl)
    as [Hdev _].
  destruct (Hdev Scenario.fakeDev (Some (Scenario.boom "stop failed"))
                 Scenario.fakeDev [EvIfaceStop] eq_refl eq_refl)
    as [Hrun Hboth].
  destruct (Hboth (Scenario.boom "stop failed") (Scenario.boom "close failed")
                  eq_refl eq_refl) as (err & Herr & H1 & H2).
  exists err. split; [| split; assumption].
  rewrite Hrun. cbv zeta in Herr. rewrite Herr. reflexivity.
Defined.


(** ** Instance.Resume *)

Lemma Status_eqb_neq (a b : Status) : a <> b -> Status_eqb a b = false.
Proof. destruct a, b; simpl; congruence. Qed.

Lemma Status_eqb_refl (a : Status) : Status_eqb a a = true.
Proof. destruct a; reflexivity. Qed.

(** C6.  Resuming a paused instance whose branch is reported checked out
    fails with an error and hands the instance back as it was, so the status
    stays Paused; the only call made is the checked-out query itself (none
    at all when the instance is not marked started), and no call that
    changes a worktree or a session. *)
Theorem C6_Resume_branch_checked_out (env : Env) (D : Type) (i : Inst.t D)
        (t : trace) (w : GitWorktree) :
  Inst.Status i = Paused ->
  Inst.gitWorktree i = Some w ->
  IsBranchCheckedOut_ env t w = (true, None) ->
  exists err i' evs,
    Inst.Resume env i t = Done (Some err, i') (t ++ evs)%list
    /\ i' = i
    /\ Inst.Status i' = Paused
    /\ evs = (if Inst.started i then [EvIsBranchCheckedOut w] else [])
    /\ existsb mutates evs = false.
Proof.
  intros Hp Hw Hchk. unfold Inst.Resume.
  destruct (Inst.started i) eqn:Hst; cbn [negb].
  - rewrite Hp, Status_eqb_refl. cbn [negb]. rewrite Hw. run. rewrite Hchk.
    do 3 eexists. split; [reflexivity |]. repeat split. exact Hp.
  - run. do 3 eexists. rewrite app_nil_r.
    split; [reflexivity |]. repeat split. exact Hp.
Qed.

Lemma C6_Resume_witness :
  (Inst.Status Scenario.pausedNoDev = Paused
   /\ IsBranchCheckedOut_ Scenario.envCheckedOut [] Scenario.wt
      = (true, None))
  /\ exists err,
       Inst.Resume Scenario.envCheckedOut Scenario.pausedNoDev []
       = Done (Some err, Scenario.pausedNoDev)
              [EvIsBranchCheckedOut Scenario.wt].
Proof.
  split; [split; reflexivity |].
  destruct (C6_Resume_branch_checked_out Scenario.envCheckedOut _
              Scenario.pausedNoDev [] Scenario.wt eq_refl eq_refl eq_refl)
    as (err & i' & evs & Hrun & Hi & _ & Hevs & _).
  exists err. rewrite Hrun, Hi, Hevs. reflexivity.
Defined.

(** ** Instance.Pause *)

(** C3 (as the code has it).  When the detach step of [Pause] fails, the
    failure is logged and returned: [Pause] gives back an error that carries
    the detach failure and the instance as it was, so the status is not set
    to Paused. *)
Theorem C3_Pause_detach_failure_blocks (env : Env) (D : Type) (i : Inst.t D)
        (t : trace) (w : GitWorktree) (s : TmuxSession) (e : error) :
  Inst.started i = true ->
  Inst.Status i <> Paused ->
  Inst.gitWorktree i = Some w ->
  Inst.tmuxSession i = Some s ->
  (forall h, DetachSafely_ env h s = Some e) ->
  exists err i' evs,
    Inst.Pause env i t = Done (Some err, i') (t ++ evs)%list
    /\ i' = i
    /\ Inst.Status i' <> Paused
    /\ (In (EvDetachSafely s) evs ->
        Contains (Error err) ("failed to detach tmux session: " ++ Error e)
        /\ In (EvErrorLog (Error e)) evs).
Proof.
  intros Hst Hnp Hw Hs Hdet. unfold Inst.Pause.
  rewrite Hst, (Status_eqb_neq _ _ Hnp). cbn [negb]. rewrite Hw. run.
  destruct (IsDirty_ env t w) as [dirty [e0|]].
  - (* the dirty check failed: two errors are combined *)
    rewrite Hs, Hdet. cbn [collect app combineErrors].
    do 3 eexists. rewrite <- !app_assoc. cbn [app].
    split; [reflexivity | split; [reflexivity | split; [exact Hnp |]]].
    intros _. split; [| simpl; tauto].
    apply (Contains_trans _
             (Error (Errorf_w "failed to detach tmux session: " e)));
      [| apply Contains_refl].
    apply combineLoop_Contains. simpl. tauto.
  - destruct dirty.
    + destruct (CommitChanges_ env _ w _) as [ce|].
      * (* the commit failed: early return, no detach *)
        do 3 eexists. rewrite <- !app_assoc. cbn [app].
        split; [reflexivity | split; [reflexivity | split; [exact Hnp |]]].
        intros Hin. simpl in Hin.
        destruct Hin as [Hin | [Hin | [Hin | []]]]; discriminate Hin.
      * rewrite Hs, Hdet. cbn [collect app combineErrors].
        do 3 eexists. rewrite <- !app_assoc. cbn [app].
        split; [reflexivity | split; [reflexivity | split; [exact Hnp |]]].
        intros _. split; [apply Contains_refl | simpl; tauto].
    + rewrite Hs, Hdet. cbn [collect app combineErrors].
      do 3 eexists. rewrite <- !app_assoc. cbn [app].
      split; [reflexivity | split; [reflexivity | split; [exact Hnp |]]].
      intros _. split; [apply Contains_refl | simpl; tauto].
Qed.

Lemma C3_Pause_detach_failure_witness :
  (Inst.started Scenario.runningNoDev = true
   /\ Inst.Status Scenario.runningNoDev <> Paused)
  /\ exists err evs,
       Inst.Pause Scenario.envDetachFails Scenario.runningNoDev []
       = Done (Some err, Scenario.runningNoDev) evs
       /\ Contains (Error err) "failed to detach tmux session: detach failed".
Proof.
  split; [split; [reflexivity | discriminate] |].
  destruct (C3_Pause_detach_failure_blocks Scenario.envDetachFails _
              Scenario.runningNoDev [] Scenario.wt
              Scenario.sess (Scenario.boom "detach failed")
              eq_refl ltac:(discriminate) eq_refl eq_refl
              (fun _ => eq_refl))
    as (err & i' & evs & Hrun & Hi & _ & Hlog).
  exists err, evs. rewrite Hrun, Hi. split; [reflexivity |].
  apply Hlog.
  assert (Hevs : Done (Some err, i') ([] ++ evs)%list
                 = Inst.Pause Scenario.envDetachFails Scenario.runningNoDev [])
    by (symmetry; exact Hrun).
  vm_compute in Hevs. injection Hevs as _ _ ->. simpl. tauto.
Defined.

(** C3, the claim as stated, fails: a running instance on a clean worktree
    whose detach fails comes back from [Pause] with an error and with the
    status still Running. *)
Lemma C3_counterexample :
  exists err i' t',
    Inst.Pause Scenario.envDetachFails Scenario.runningNoDev []
    = Done (Some err, i') t'
    /\ In (EvDetachSafely Scenario.sess) t'
    /\ Inst.Status i' = Running
    /\ Inst.Status i' <> Paused.
Proof.
  do 3 eexists. split; [vm_compute; reflexivity |].
  split; [simpl; tauto | split; [reflexivity | discriminate]].
Qed.

(** [commitMsg] carries the title and the time stamp. *)
Lemma commitMsg_Contains (title stamp : string) :
  Contains (Inst.commitMsg title stamp) title
  /\ Contains (Inst.commitMsg title stamp) stamp.
Proof.
  unfold Inst.commitMsg. split; auto 8 with strs.
Qed.

(** C7.  On a started, non-paused instance owning a worktree and a
    session, [Pause] finishes, and: when the dirty check reports uncommitted
    changes it makes exactly one commit-changes call, whose message carries
    the instance title and the time stamp, so that one commit is created
    when that call succeeds; when the check reports a clean worktree it
    makes no commit-changes call and creates no commit. *)
Theorem C7_Pause_commits_once (env : Env) (D : Type) (i : Inst.t D)
        (t : trace) (w : GitWorktree) (s : TmuxSession) :
  Inst.started i = true ->
  Inst.Status i <> Paused ->
  Inst.gitWorktree i = Some w ->
  Inst.tmuxSession i = Some s ->
  exists r i' evs,
    Inst.Pause env i t = Done (r, i') (t ++ evs)%list
    /\ (IsDirty_ env t w = (true, None) ->
        let stamp := NowFormat_ env (t ++ [EvIsDirty w])%list RFC822 in
        let msg := Inst.commitMsg (Inst.Title i) stamp in
        filter isCommitCall evs = [EvCommitChanges w msg]
        /\ Contains msg (Inst.Title i)
        /\ Contains msg stamp
        /\ (CommitChanges_ env (t ++ [EvIsDirty w])%list w msg = None ->
            commitsFrom env t evs = [msg]))
    /\ (IsDirty_ env t w = (false, None) ->
        filter isCommitCall evs = []
        /\ commitsFrom env t evs = []).
Proof.
  intros Hst Hnp Hw Hs. unfold Inst.Pause.
  rewrite Hst, (Status_eqb_neq _ _ Hnp). cbn [negb]. rewrite Hw. run.
  destruct (IsDirty_ env t w) as [dirty [e0|]].
  - rewrite Hs.
    destruct (DetachSafely_ env _ s) as [de|];
      cbn [collect app combineErrors];
      do 3 eexists; rewrite <- !app_assoc; cbn [app];
      (split; [reflexivity | split; intros Hd; discriminate Hd]).
  - destruct dirty.
    + destruct (CommitChanges_ env _ w _) as [ce|] eqn:Hc.
      * do 3 eexists. rewrite <- !app_assoc. cbn [app].
        split; [reflexivity | split; [| intros Hd; discriminate Hd]].
        intros _. cbv zeta.
        split; [reflexivity | split; [| split]];
          try apply commitMsg_Contains.
        intros Hok. discriminate Hok.
      * rewrite Hs.
        destruct (DetachSafely_ env _ s) as [de|];
          cbn [collect app combineErrors Inst.gitWorktree Inst.SetStatus];
          rewrite ?Hw; run;
          do 3 eexists; rewrite <- !app_assoc; cbn [app];
          (split; [reflexivity | split; [| intros Hd; discriminate Hd]]);
          intros _; cbv zeta;
          (split; [reflexivity | split; [| split]]);
          try apply commitMsg_Contains;
          intros _; cbn [commitsFrom app]; rewrite Hc; reflexivity.
    + rewrite Hs.
      destruct (DetachSafely_ env _ s) as [de|];
        cbn [collect app combineErrors Inst.gitWorktree Inst.SetStatus];
          rewrite ?Hw; run;
        do 3 eexists; rewrite <- !app_assoc; cbn [app];
        (split; [reflexivity | split; [intros Hd; discriminate Hd |]]);
        intros _; split; reflexivity.
Qed.

Lemma C7_Pause_commits_witness :
  (Inst.started Scenario.runningNoDev = true
   /\ Inst.Status Scenario.runningNoDev <> Paused
   /\ IsDirty_ Scenario.envDirty [] Scenario.wt = (true, None))
  /\ exists r i' evs,
       Inst.Pause Scenario.envDirty Scenario.runningNoDev []
       = Done (r, i') evs
       /\ filter isCommitCall evs
          = [EvCommitChanges Scenario.wt
               "[claudesquad] update from 't1' on 30 Oct 26 21:19 UTC (paused)"]
       /\ commitsFrom Scenario.envDirty [] evs
          = ["[claudesquad] update from 't1' on 30 Oct 26 21:19 UTC (paused)"].
Proof.
  split; [split; [reflexivity | split; [discriminate | reflexivity]] |].
  destruct (C7_Pause_commits_once Scenario.envDirty _ Scenario.runningNoDev
              [] Scenario.wt Scenario.sess
              eq_refl ltac:(discriminate) eq_refl eq_refl)
    as (r & i' & evs & Hrun & Hdirty & _).
  destruct (Hdirty eq_refl) as (Hcalls & _ & _ & Hcommits).
  exists r, i', evs. split; [exact Hrun |].
  split; [exact Hcalls | exact (Hcommits eq_refl)].
Defined.

(** ** Instance.Start *)

Ltac start_step :=
  cbn [negb Inst.gitWorktree Inst.tmuxSession Inst.set_Branch
       Inst.set_gitWorktree Inst.SetTmuxSession Inst.Title Inst.Path
       Inst.Program];
  run.

Ltac start_run :=
  unfold Inst.Start, Inst.Start_body, Inst.Start_deferred; start_step.

Ltac finish_rollback HK :=
  rewrite <- ?app_assoc in *; cbn [app] in *;
  rewrite HK;
  match goal with
  | |- context [match ?c with Some _ => _ | None => _ end] => destruct c
  end;
  (eexists; split; [reflexivity | intros Hc; congruence]).

(** C2 (as the code has it).  With a non-empty title:
    - a worktree-creation failure makes [Start] return at once, before the
      rollback handler is installed: no [Kill], the only call made is the
      creation itself;
    - a failure of the session restore, of the worktree setup or of the
      session start makes the deferred handler call [Kill] on the instance
      as it then is, and [Start] ends in the state [Kill] leaves; the
      session-start failure first cleans the worktree up directly and puts
      that cleanup's failure into the returned error. *)
Theorem C2_Start_failure_rollback (env : Env) (D : Type)
        (api : DevServerAPI D) (i : Inst.t D) (t : trace) :
  Inst.Title i <> "" ->
  let s := match Inst.tmuxSession i with
           | Some s => s
           | None => NewTmuxSession (Inst.Title i) (Inst.Program i)
           end in
  let i0 := Inst.SetTmuxSession (Some s) i in
  let t1 := (t ++ [EvNewGitWorktree (Inst.Path i) (Inst.Title i)])%list in
  (forall e,
      NewGitWorktree_ env t (Inst.Path i) (Inst.Title i) = inr e ->
      Inst.Start env true i t
      = Done (Some (Errorf_w "failed to create git worktree: " e), i0) t1)
  /\ (forall e,
         Restore_ env t s = Some e ->
         rolledBack env (Errorf_w "failed to restore existing session: " e)
                    i0 (t ++ [EvRestore s])%list
                    (Inst.Start env false i t))
  /\ (forall w b e,
         NewGitWorktree_ env t (Inst.Path i) (Inst.Title i) = inl (w, b) ->
         Setup_ env t1 w = Some e ->
         rolledBack env (Errorf_w "failed to setup git worktree: " e)
                    (Inst.set_Branch b (Inst.set_gitWorktree (Some w) i0))
                    (t1 ++ [EvSetup w])%list
                    (Inst.Start env true i t))
  /\ (forall w b e,
         NewGitWorktree_ env t (Inst.Path i) (Inst.Title i) = inl (w, b) ->
         Setup_ env t1 w = None ->
         let t2 := (t1 ++ [EvSetup w])%list in
         let t3 := (t2 ++ [EvTmuxStart s (GetWorktreePath w)])%list in
         TmuxStart_ env t2 s (GetWorktreePath w) = Some e ->
         let e' := match Cleanup_ env t3 w with
                   | Some c => Errorf_cleanup e c
                   | None => e
                   end in
         rolledBack env (Errorf_w "failed to start new session: " e')
                    (Inst.set_Branch b (Inst.set_gitWorktree (Some w) i0))
                    (t3 ++ [EvCleanup w])%list
                    (Inst.Start env true i t)).
Proof.
  intros Htitle. apply String.eqb_neq in Htitle. cbv zeta.
  split; [| split; [| split]].
  - intros e Hnew. start_run. rewrite Htitle, Hnew. reflexivity.
  - intros e Hres c i2 t2 HK. start_run. rewrite Htitle, Hres.
    finish_rollback HK.
  - intros w b e Hnew Hset c i2 t2 HK. start_run.
    rewrite Htitle, Hnew. start_step. rewrite Hset. finish_rollback HK.
  - intros w b e Hnew Hset Hts c i2 t2 HK. start_run.
    rewrite Htitle, Hnew. start_step. rewrite Hset. start_step.
    rewrite <- ?app_assoc in *. cbn [app] in *. rewrite Hts.
    destruct (Cleanup_ env _ w) as [ce|]; finish_rollback HK.
Qed.

Lemma C2_Start_failure_witness :
  Inst.Title Scenario.fresh <> ""
  /\ exists e,
       @Inst.Start Scenario.envStartCleanupFail _
                   (DevServer.API Scenario.envStartCleanupFail)
                   true Scenario.fresh []
       = Done (Some e, Scenario.freshWithWorktree)
              [EvNewGitWorktree "/repo" "t1"; EvSetup Scenario.wt;
               EvTmuxStart Scenario.sess "/repo/.worktrees/t1";
               EvCleanup Scenario.wt; EvDeferredKill]
       /\ Contains (Error e) "cleanup failed".
Proof.
  split; [discriminate |].
  destruct (C2_Start_failure_rollback Scenario.envStartCleanupFail _
              (DevServer.API Scenario.envStartCleanupFail)
              Scenario.fresh [] ltac:(discriminate))
    as (_ & _ & _ & Hstart).
  specialize (Hstart Scenario.wt "user/t1" (Scenario.boom "tmux start failed")
                     eq_refl eq_refl eq_refl).
  destruct (Hstart None Scenario.freshWithWorktree
                   [EvNewGitWorktree "/repo" "t1"; EvSetup Scenario.wt;
                    EvTmuxStart Scenario.sess "/repo/.worktrees/t1";
                    EvCleanup Scenario.wt; EvDeferredKill] eq_refl)
    as (e' & Hrun & He).
  exists e'. split; [exact Hrun |].
  rewrite (He eq_refl).
  apply (Contains_trans _
           (Error (Errorf_cleanup (Scenario.boom "tmux start failed")
                                  (Scenario.boom "cleanup failed")))).
  - apply (Errorf_w_Contains "failed to start new session: "
             (Errorf_cleanup (Scenario.boom "tmux start failed")
                             (Scenario.boom "cleanup failed"))).
  - apply (proj2 (Errorf_cleanup_Contains
                    (Scenario.boom "tmux start failed")
                    (Scenario.boom "cleanup failed"))).
Defined.

(** C2, the claim as stated, fails for a worktree-creation failure: [Start]
    returns the failure without running the rollback.  On a fresh instance
    the trace has no [Kill] marker; on an instance that already owns a
    session and a worktree, where [Kill] would close and clean up, neither
    call is made. *)
Lemma C2_counterexample :
  (exists e i' t',
      @Inst.Start Scenario.envCreateFails _
                  (DevServer.API Scenario.envCreateFails)
                  true Scenario.fresh []
      = Done (Some e, i') t'
      /\ t' = [EvNewGitWorktree "/repo" "t1"]
      /\ ~ In EvDeferredKill t')
  /\ (exists e i' t',
         @Inst.Start Scenario.envCreateFails _
                     (DevServer.API Scenario.envCreateFails)
                     true (Scenario.running None) []
         = Done (Some e, i') t'
         /\ ~ In EvDeferredKill t'
         /\ ~ In (EvClose Scenario.sess) t'
         /\ ~ In (EvCleanup Scenario.wt) t').
Proof.
  split.
  - do 3 eexists. split; [vm_compute; reflexivity |].
    split; [reflexivity |]. simpl. intros [H | []]. discriminate H.
  - do 3 eexists. split; [vm_compute; reflexivity |].
    repeat split; simpl; intros [H | []]; discriminate H.
Qed.

(** What the rollback's own failure does to the result of [Start]: on an
    instance already marked started, a failing restore makes [Kill] run; its
    close fails, and the error [Start] returns is the restore failure
    alone. *)
Fact Start_returns_setup_error_only :
  exists e i' t',
    @Inst.Start Scenario.envRestoreCloseFail _
                (DevServer.API Scenario.envRestoreCloseFail)
                false (Scenario.running None) []
    = Done (Some e, i') t'
    /\ t' = [EvRestore Scenario.sess; EvDeferredKill; EvClose Scenario.sess;
             EvCleanup Scenario.wt]
    /\ Close_ Scenario.envRestoreCloseFail
              [EvRestore Scenario.sess; EvDeferredKill] Scenario.sess
       = Some (Scenario.boom "close failed")
    /\ Error e = "failed to restore existing session: restore failed".
Proof.
  do 3 eexists. split; [vm_compute; reflexivity |].
  repeat split.
Qed.

(** With the concrete dev server the rollback always comes back: [Stop]
    and [Kill] finish in every state. *)
Lemma Stop_finishes (env : Env) (d : DevServer.t) (t : trace) :
  exists r d' t', DevServer.Stop env d t = Done (r, d') t'.
Proof.
  unfold DevServer.Stop. destruct (DevServer.session d) as [s|]; run.
  - destruct (DoesSessionExist_ env _ s); do 3 eexists; reflexivity.
  - do 3 eexists; reflexivity.
Qed.

Lemma Kill_finishes (env : Env) (i : Inst.t DevServer.t) (t : trace) :
  exists r i' t', @Inst.Kill env _ (DevServer.API env) i t = Done (r, i') t'.
Proof.
  unfold Inst.Kill. destruct (Inst.started i); cbn [negb].
  - destruct (Inst.DevServer i) as [d|]; run.
    + cbn [api_Stop DevServer.API].
      destruct (Stop_finishes env d t) as (r & d' & t' & ->).
      cbn [Inst.tmuxSession Inst.gitWorktree Inst.set_DevServer].
      destruct (Inst.tmuxSession i), (Inst.gitWorktree i);
        do 3 eexists; reflexivity.
    + destruct (Inst.tmuxSession i), (Inst.gitWorktree i);
        do 3 eexists; reflexivity.
  - do 3 eexists; reflexivity.
Qed.

(** ** The polling loop of startDevServer *)

Lemma clockFrom_app (env : Env) (t1 t2 : trace) :
  forall past,
    clockFrom env past (t1 ++ t2)%list
    = clockFrom env past t1 + clockFrom env (past ++ t1)%list t2.
Proof.
  induction t1 as [|e t1 IH]; intros past.
  - cbn [app clockFrom]. now rewrite app_nil_r.
  - cbn [app clockFrom]. rewrite IH, <- app_assoc. cbn [app]. lia.
Qed.

Lemma clock_app (env : Env) (t1 t2 : trace) :
  clock env (t1 ++ t2)%list = clock env t1 + clockFrom env t1 t2.
Proof. unfold clock. now rewrite clockFrom_app. Qed.

Lemma clockFrom_nonneg (env : Env) (evs : trace) :
  forall past, 0 <= clockFrom env past evs.
Proof.
  induction evs as [|e evs IH]; intros past; cbn [clockFrom]; [lia |].
  specialize (IH (past ++ [e])%list).
  assert (0 <= sleepTime e) by (destruct e; cbn [sleepTime]; lia).
  lia.
Qed.

(** Time spent in a stretch of calls is time spent in the whole. *)
Lemma clockFrom_mid (env : Env) (past a b c : trace) :
  clockFrom env (past ++ a)%list b <= clockFrom env past (a ++ b ++ c)%list.
Proof.
  rewrite !clockFrom_app.
  pose proof (clockFrom_nonneg env a past).
  pose proof (clockFrom_nonneg env c ((past ++ a) ++ b)%list).
  lia.
Qed.

Lemma sleepsOf_app (t1 t2 : trace) :
  sleepsOf (t1 ++ t2)%list = (sleepsOf t1 ++ sleepsOf t2)%list.
Proof.
  induction t1 as [|e t1 IH]; [reflexivity |].
  destruct e; cbn [app sleepsOf]; rewrite IH; reflexivity.
Qed.

Lemma backoff_cases (k : nat) :
  backoff k = 5 * Millisecond \/ backoff k = 10 * Millisecond
  \/ backoff k = 20 * Millisecond \/ backoff k = 40 * Millisecond
  \/ backoff k = 80 * Millisecond.
Proof.
  induction k as [|k IH]; [now left |].
  cbn [backoff].
  destruct IH as [-> | [-> | [-> | [-> | ->]]]]; vm_compute; tauto.
Qed.

Lemma backoff_bounds (k : nat) :
  5 * Millisecond <= backoff k <= 80 * Millisecond.
Proof.
  unfold Millisecond.
  destruct (backoff_cases k) as [-> | [-> | [-> | [-> | ->]]]];
    unfold Millisecond; lia.
Qed.



Lemma sumBackoff_28 : sumBackoff 28 = 1995 * Millisecond.
Proof. vm_compute. reflexivity. Qed.

Lemma sumBackoff_29 : sumBackoff 29 = 2075 * Millisecond.
Proof. vm_compute. reflexivity. Qed.



(** The loop under a timer created at time [c0], entered for its [k]-th
    re-check when at least the first [k] delays have gone by: it finishes
    within the fuel, its sleeps are the next delays of the backoff
    sequence, the 29th re-check at the latest finds the timer fired, the
    session is reported only after a positive answer, and the loop gives up
    only when the timer has fired. *)
Lemma waitLoop_run (env : Env) (s : TmuxSession) (c0 : Z) (fuel : nat) :
  forall (k : nat) (t : trace),
    c0 + sumBackoff k <= clock env t ->
    (k <= 29)%nat ->
    (30 <= k + fuel)%nat ->
    exists r n evs,
      DevServer.waitLoop env fuel s (c0 + 2 * Second) (backoff k) t
      = Done r (t ++ evs)%list
      /\ sleepsOf evs = map backoff (seq k n)
      /\ (k + n <= 29)%nat
      /\ ~ In EvPtmxClose evs
      /\ (if r : bool
          then exists h, DoesSessionExist_ env h s = true
          else c0 + 2 * Second <= clock env (t ++ evs)%list).
Proof.
  induction fuel as [|fuel IH]; intros k t Hclk Hk Hfuel; [lia |].
  cbn [DevServer.waitLoop]. run.
  destruct (DoesSessionExist_ env t s) eqn:Hex.
  - exists true, 0%nat, [EvDoesSessionExist s].
    rewrite Nat.add_0_r. cbn [sleepsOf seq map].
    repeat split; try lia.
    + intros [H | []]; discriminate H.
    + now exists t.
  - pose proof (clockFrom_nonneg env [EvDoesSessionExist s] t) as Hcheck.
    pose proof (clock_app env t [EvDoesSessionExist s]) as Hc1.
    destruct (Z.leb_spec (c0 + 2 * Second)
                         (clock env (t ++ [EvDoesSessionExist s])%list))
      as [Hfired|Hnot].
    + exists false, 0%nat, [EvDoesSessionExist s].
      rewrite Nat.add_0_r. cbn [sleepsOf seq map].
      repeat split; try lia.
      intros [H' | []]; discriminate H'.
    + assert (k <= 28)%nat.
      { destruct (Nat.eq_dec k 29) as [->|Hne]; [| lia].
        rewrite sumBackoff_29 in Hclk. unfold Second, Millisecond in *. lia. }
      change (DevServer.nextSleep (backoff k)) with (backoff (S k)).
      destruct (IH (S k)
                   ((t ++ [EvDoesSessionExist s]) ++ [EvSleep (backoff k)])%list)
        as (r & n & evs & Hrun & Hsl & Hn & Hclose & Hr);
        [| lia | lia |].
      { rewrite (clock_app env _ [EvSleep (backoff k)]).
        cbn [clockFrom sleepTime sumBackoff].
        pose proof (backoff_bounds k). unfold Millisecond in *. lia. }
      exists r, (S n), ([EvDoesSessionExist s; EvSleep (backoff k)] ++ evs)%list.
      rewrite Hrun. rewrite <- !app_assoc in *. cbn [app] in *.
      split; [reflexivity |].
      split; [cbn [sleepsOf seq map]; now rewrite Hsl |].
      split; [lia |].
      split.
      * intros [H' | [H' | H']]; try discriminate H'. now apply Hclose.
      * exact Hr.
Qed.

Ltac norm_trace :=
  rewrite <- ?app_assoc in *; cbn [app] in *.

(** The polling loop as [startDevServer] enters it, with the timer set at
    the time of the history [t0]. *)
Lemma waitLoop_from_timer (env : Env) (s : TmuxSession) (t0 : trace) :
  exists r n evs,
    DevServer.waitLoop env DevServer.pollFuel s
      (clock env t0 + 2 * Second) (5 * Millisecond) t0
    = Done r (t0 ++ evs)%list
    /\ sleepsOf evs = map backoff (seq 0 n)
    /\ (n <= 29)%nat
    /\ ~ In EvPtmxClose evs
    /\ (if r : bool
        then exists h, DoesSessionExist_ env h s = true
        else 2 * Second <= clockFrom env t0 evs).
Proof.
  destruct (waitLoop_run env s (clock env t0) DevServer.pollFuel 0 t0)
    as (r & n & evs & Hrun & Hsl & Hn & Hcl & Hr);
    [cbn [sumBackoff]; lia | lia | unfold DevServer.pollFuel; lia |].
  exists r, n, evs. cbn [Nat.add] in *.
  repeat split; try assumption.
  destruct r; [exact Hr |]. rewrite clock_app in Hr. lia.
Qed.

Ltac poll_then :=
  let r := fresh "r" in
  let n := fresh "n" in
  let evs := fresh "evs" in
  let Hrun := fresh "Hrun" in
  let Hsl := fresh "Hsl" in
  let Hn := fresh "Hn" in
  let Hcl := fresh "Hcl" in
  let Hr := fresh "Hr" in
  let Hnever := fresh "Hnever" in
  let h := fresh "h" in
  let Hh := fresh "Hh" in
  lazymatch goal with
  | |- context [DevServer.waitLoop ?env _ ?s _ _ ?t0] =>
      destruct (waitLoop_from_timer env s t0)
        as (r & n & evs & Hrun & Hsl & Hn & Hcl & Hr)
  end;
  rewrite Hrun; destruct r;
  (eexists; eexists; eexists; exists n; norm_trace;
   split; [reflexivity |]);
  cbn [sleepsOf]; rewrite ?sleepsOf_app;
  cbn [sleepsOf]; rewrite ?app_nil_r;
  (split; [exact Hsl | split; [exact Hn |]]);
  intros _ Hnever;
  [ destruct Hr as [h Hh]; rewrite Hnever in Hh; discriminate Hh
  | split;
    [ repeat (first [left; reflexivity | right]);
      apply in_or_app; right; simpl; tauto
    | split; [reflexivity |] ] ].

(** [startDevServer] always finishes.  Its sleeps are an initial segment of
    the backoff sequence, at most 29 of them; when the process launch
    succeeds and the session is never observed, it gives up only once 2s
    have gone by, closes the pty handle and returns the timeout error. *)
Lemma startDevServer_run (env : Env) (d : DevServer.t) (t : trace) :
  exists r d' evs n,
    DevServer.startDevServer env d t = Done (r, d') (t ++ evs)%list
    /\ sleepsOf evs = map backoff (seq 0 n)
    /\ (n <= 29)%nat
    /\ ((forall h a, PtyStart_ env h a = None) ->
        (forall h s, DoesSessionExist_ env h s = false) ->
        In EvPtmxClose evs
        /\ r = Some (errorString
                       ("timed out waiting for tmux session "
                        ++ TmuxPrefix env
                        ++ devServerSessionName (DevServer.instance d)))
        /\ 2 * Second <= clockFrom env t evs).
Proof.
  unfold DevServer.startDevServer. run.
  set (full := TmuxPrefix env ++ devServerSessionName (DevServer.instance d)).
  set (s := NewTmuxSession full (DevCommand (DevServer.config d))).
  destruct (ExecRun_ env t _) as [noSession|];
    match goal with
    | |- context [PtyStart_ env ?h ?a] =>
        destruct (PtyStart_ env h a) as [pe|] eqn:Hpty
    end.
  1, 3: (eexists; eexists; eexists; exists 0%nat; norm_trace;
         split; [reflexivity |];
         split; [reflexivity | split; [lia |]];
         intros Hok _; rewrite Hok in Hpty; discriminate Hpty).
  - poll_then.
    match goal with
    | |- _ <= clockFrom env t (?a :: ?b :: (?w ++ ?c)%list) =>
        apply Z.le_trans with (1 := Hr);
          apply (clockFrom_mid env t [a; b] w c)
    end.
  - poll_then.
    match goal with
    | |- _ <= clockFrom env t (?a :: ?b :: ?b' :: (?w ++ ?c)%list) =>
        apply Z.le_trans with (1 := Hr);
          apply (clockFrom_mid env t [a; b; b'] w c)
    end.
Qed.






(** How many sleeps a timed-out wait makes depends on how long the checks
    take: all 29 when they take no time, 28 when each takes 0.2ms. *)
Fact timed_out_wait_sleeps :
  (exists r d' t',
      DevServer.Start Scenario.envNoSession Scenario.stoppedDev []
      = Done (r, d') t'
      /\ List.length (sleepsOf t') = 29%nat)
  /\ (exists r d' t',
         DevServer.Start Scenario.envSlowChecks Scenario.stoppedDev []
         = Done (r, d') t'
         /\ List.length (sleepsOf t') = 28%nat).
Proof.
  split; do 3 eexists; (split; [vm_compute; reflexivity |]);
    vm_compute; reflexivity.
Qed.


(** * Further properties of the lifecycle *)

(** ** What Kill and Start leave behind *)

Lemma Kill_frame (env : Env) (D : Type) (api : DevServerAPI D)
      (i : Inst.t D) (t : trace) r i' t' :
  Inst.Kill env i t = Done (r, i') t' ->
  i' = Inst.set_DevServer (Inst.DevServer i') i.
Proof.
  unfold Inst.Kill. destruct (Inst.started i); cbn [negb].
  - destruct (Inst.DevServer i) as [d|] eqn:Hd; run.
    + destruct (api_Stop d t) as [[r1 d'] t1 | f]; [| discriminate].
      cbn [Inst.tmuxSession Inst.gitWorktree Inst.set_DevServer].
      destruct (Inst.tmuxSession i), (Inst.gitWorktree i);
        intros H; injection H as _ <- _; reflexivity.
    + destruct (Inst.tmuxSession i), (Inst.gitWorktree i);
        intros H; injection H as _ <- _; destruct i; cbn in *;
        subst; reflexivity.
  - intros H. injection H as _ <- _. destruct i; reflexivity.
Qed.

(** The two ways [Start] can end. *)
Lemma Start_outcome_cases (env : Env) (D : Type) (api : DevServerAPI D)
      (firstTimeSetup : bool) (i : Inst.t D) (t : trace) r i' t' :
  Inst.Start env firstTimeSetup i t = Done (r, i') t' ->
  (r = None ->
   Inst.started i' = true /\ Inst.Status i' = Running
   /\ Inst.tmuxSession i' <> None
   /\ (firstTimeSetup = true -> Inst.gitWorktree i' <> None)
   /\ Inst.Title i' = Inst.Title i /\ Inst.Title i <> "")
  /\ (r <> None ->
      Inst.started i' = Inst.started i /\ Inst.Status i' = Inst.Status i).
Proof.
  unfold Inst.Start, Inst.Start_body, Inst.Start_deferred.
  destruct (Inst.Title i =? "")%string eqn:Htitle.
  { intros H. injection H as <- <- _. split; [discriminate | tauto]. }
  apply String.eqb_neq in Htitle.
  destruct firstTimeSetup; start_step.
  - destruct (NewGitWorktree_ env t _ _) as [[w b] | e]; start_step.
    + destruct (Setup_ env _ w) as [e|]; start_step.
      * destruct (Inst.Kill env _ _) as [[c i2] t2 | f] eqn:HK;
          [| discriminate].
        apply Kill_frame in HK. destruct c; intros H;
          injection H as <- <- _; (split; [discriminate |]); intros _;
          rewrite HK; split; reflexivity.
      * destruct (TmuxStart_ env _ _ _) as [e|]; start_step.
        -- destruct (Inst.Kill env _ _) as [[c i2] t2 | f] eqn:HK;
             [| discriminate].
           apply Kill_frame in HK. destruct c; intros H;
             injection H as <- <- _; (split; [discriminate |]); intros _;
             rewrite HK; split; reflexivity.
        -- intros H. injection H as <- <- _. split; [| congruence].
           intros _. cbn. repeat split; try discriminate. exact Htitle.
    + intros H. injection H as <- <- _. split; [discriminate |].
      intros _. split; reflexivity.
  - destruct (Restore_ env t _) as [e|]; start_step.
    + destruct (Inst.Kill env _ _) as [[c i2] t2 | f] eqn:HK;
        [| discriminate].
      apply Kill_frame in HK. destruct c; intros H;
        injection H as <- <- _; (split; [discriminate |]); intros _;
        rewrite HK; split; reflexivity.
    + intros H. injection H as <- <- _. split; [| congruence].
      intros _. cbn. repeat split; try discriminate. exact Htitle.
Qed.

(** ** Pause and Resume: what changes and what is called *)

Ltac oracle_case :=
  match goal with
  | |- context [IsDirty_ ?e ?h ?w] =>
      destruct (IsDirty_ e h w) as [? [?|]] eqn:?
  | |- context [CommitChanges_ ?e ?h ?w ?m] =>
      destruct (CommitChanges_ e h w m) as [?|] eqn:?
  | |- context [DetachSafely_ ?e ?h ?s] =>
      destruct (DetachSafely_ e h s) as [?|] eqn:?
  | |- context [IsBranchCheckedOut_ ?e ?h ?w] =>
      destruct (IsBranchCheckedOut_ e h w) as [? [?|]] eqn:?
  | |- context [Stat_ ?e ?h ?p] =>
      destruct (Stat_ e h p) as [| |?] eqn:?
  | |- context [Setup_ ?e ?h ?w] =>
      destruct (Setup_ e h w) as [?|] eqn:?
  | |- context [DoesSessionExist_ ?e ?h ?s] =>
      destruct (DoesSessionExist_ e h s) eqn:?
  | |- context [Restore_ ?e ?h ?s] =>
      destruct (Restore_ e h s) as [?|] eqn:?
  | |- context [TmuxStart_ ?e ?h ?s ?p] =>
      destruct (TmuxStart_ e h s p) as [?|] eqn:?
  | |- context [Cleanup_ ?e ?h ?w] =>
      destruct (Cleanup_ e h w) as [?|] eqn:?
  | |- context [if ?b then _ else _] =>
      match type of b with bool => is_var b; destruct b end
  end.

Ltac lifecycle_step :=
  cbn [negb collect app combineErrors Inst.gitWorktree Inst.tmuxSession
       Inst.SetStatus Inst.started Inst.Status] in *;
  run.

Ltac lifecycle_cases :=
  lifecycle_step; repeat (oracle_case; lifecycle_step).

Lemma Pause_frame (env : Env) (D : Type) (i : Inst.t D) (t : trace)
      r i' t' :
  Inst.Pause env i t = Done (r, i') t' ->
  (r = None ->
   i' = Inst.SetStatus Paused i
   /\ Inst.started i = true /\ Inst.Status i <> Paused)
  /\ (r <> None -> i' = i)
  /\ exists evs,
       t' = (t ++ evs)%list
       /\ forallb pauseCall evs = true
       /\ (Inst.started i = false \/ Inst.Status i = Paused -> evs = []).
Proof.
  unfold Inst.Pause.
  destruct (Inst.started i) eqn:Hst; cbn [negb].
  2: { intros H. injection H as <- <- <-.
       split; [discriminate | split; [reflexivity |]].
       exists []. rewrite app_nil_r. repeat split. }
  destruct (Status_eqb (Inst.Status i) Paused) eqn:Hp.
  { intros H. injection H as <- <- <-.
    split; [discriminate | split; [reflexivity |]].
    exists []. rewrite app_nil_r. repeat split. }
  assert (Hnp : Inst.Status i <> Paused).
  { intros E. rewrite E in Hp. discriminate Hp. }
  destruct (Inst.gitWorktree i) as [w|] eqn:Hw;
    [| run; discriminate].
  destruct (Inst.tmuxSession i) as [s|] eqn:Hs.
  - lifecycle_cases; rewrite ?Hw, ?Hs; lifecycle_step;
      intros H; injection H as <- <- <-;
      (split; [try discriminate; intros _; repeat split; assumption
              | split; [try reflexivity; intros X; now elim X |]]);
      (eexists; rewrite <- ?app_assoc; cbn [app];
       split; [reflexivity | split; [reflexivity |]];
       intros [X | X]; congruence).
  - lifecycle_cases; rewrite ?Hw, ?Hs; lifecycle_step;
      try discriminate;
      intros H; injection H as <- <- <-;
      (split; [try discriminate
              | split; [try reflexivity; intros X; now elim X |]]);
      (eexists; rewrite <- ?app_assoc; cbn [app];
       split; [reflexivity | split; [reflexivity |]];
       intros [X | X]; congruence).
Qed.

Lemma Resume_frame (env : Env) (D : Type) (i : Inst.t D) (t : trace)
      r i' t' :
  Inst.Resume env i t = Done (r, i') t' ->
  (r = None ->
   i' = Inst.SetStatus Running i
   /\ Inst.started i = true /\ Inst.Status i = Paused)
  /\ (r <> None -> i' = i)
  /\ (Inst.started i = false \/ Inst.Status i <> Paused -> t' = t).
Proof.
  unfold Inst.Resume, Inst.startFresh.
  destruct (Inst.started i) eqn:Hst; cbn [negb].
  2: { intros H. injection H as <- <- <-.
       split; [discriminate | split; [reflexivity | reflexivity]]. }
  destruct (Status_eqb (Inst.Status i) Paused) eqn:Hp; cbn [negb].
  2: { intros H. injection H as <- <- <-.
       split; [discriminate | split; [reflexivity | reflexivity]]. }
  assert (Hpaused : Inst.Status i = Paused).
  { destruct (Inst.Status i); try discriminate Hp; reflexivity. }
  destruct (Inst.gitWorktree i) as [w|] eqn:Hw;
    [| run; discriminate].
  destruct (Inst.tmuxSession i) as [s|] eqn:Hs;
    lifecycle_cases; rewrite ?Hw, ?Hs; lifecycle_step;
    try discriminate;
    intros H; injection H as <- <- <-;
    (split; [try discriminate; intros _; repeat split; assumption
            | split; [try reflexivity; intros X; now elim X |]]);
    intros [X | X]; congruence.
Qed.

(** ** Start, SetTitle and a repeated Kill *)

(** [Start] either succeeds, and then the instance is marked started, is
    Running, owns a session (and a worktree on a first start) and keeps its
    non-empty title; or it fails, and then neither the started flag nor the
    status has changed.  With an empty title it fails before any call and
    hands the instance back untouched. *)
Theorem Start_postcondition (env : Env) (D : Type) (api : DevServerAPI D)
        (firstTimeSetup : bool) (i : Inst.t D) (t : trace) r i' t' :
  Inst.Start env firstTimeSetup i t = Done (r, i') t' ->
  (r = None ->
   Inst.started i' = true /\ Inst.Status i' = Running
   /\ Inst.tmuxSession i' <> None
   /\ (firstTimeSetup = true -> Inst.gitWorktree i' <> None)
   /\ Inst.Title i' = Inst.Title i /\ Inst.Title i <> "")
  /\ (r <> None ->
      Inst.started i' = Inst.started i /\ Inst.Status i' = Inst.Status i)
  /\ (Inst.Title i = "" ->
      r = Some (errorString "instance title cannot be empty")
      /\ i' = i /\ t' = t).
Proof.
  intros Hrun.
  destruct (Start_outcome_cases env D api firstTimeSetup i t r i' t' Hrun)
    as [Hok Herr].
  split; [exact Hok | split; [exact Herr |]].
  intros Hempty. unfold Inst.Start in Hrun. rewrite Hempty in Hrun.
  cbn in Hrun. injection Hrun as <- <- <-. repeat split.
Qed.

Lemma Start_postcondition_witness :
  exists i' t',
    @Inst.Start Scenario.okEnv _ (DevServer.API Scenario.okEnv) true
                Scenario.fresh []
    = Done (None, i') t'
    /\ Inst.started i' = true /\ Inst.Status i' = Running.
Proof.
  eexists. eexists. split; [vm_compute; reflexivity |].
  refine (let H := proj1 (Start_postcondition Scenario.okEnv _
                            (DevServer.API Scenario.okEnv) true
                            Scenario.fresh [] None _ _ eq_refl) eq_refl in
          conj (proj1 H) (proj1 (proj2 H))).
Defined.

(** The title can be set freely before the instance is started and no more
    after a successful [Start]: [SetTitle] is then rejected and the title
    stays what it was. *)
Theorem SetTitle_locked_by_Start (env : Env) (D : Type)
        (api : DevServerAPI D) (firstTimeSetup : bool) (i : Inst.t D)
        (t : trace) (title : string) :
  (Inst.started i = false ->
   SetTitle title i = (None, set_Title title i)
   /\ Inst.Title (snd (SetTitle title i)) = title)
  /\ (forall i' t',
         Inst.Start env firstTimeSetup i t = Done (None, i') t' ->
         SetTitle title i'
         = (Some (errorString "cannot change title of a started instance"),
            i')
         /\ Inst.Title (snd (SetTitle title i')) = Inst.Title i).
Proof.
  split.
  - intros Hst. unfold SetTitle. rewrite Hst. split; reflexivity.
  - intros i' t' Hrun.
    destruct (Start_outcome_cases env D api firstTimeSetup i t None i' t' Hrun)
      as [Hok _].
    destruct (Hok eq_refl) as (Hst & _ & _ & _ & Ht & _).
    unfold SetTitle. rewrite Hst. cbn [snd]. split; [reflexivity | exact Ht].
Qed.

Lemma SetTitle_locked_by_Start_witness :
  Inst.started Scenario.fresh = false
  /\ SetTitle "t2" Scenario.fresh = (None, set_Title "t2" Scenario.fresh).
Proof.
  split; [reflexivity |].
  apply (proj1 (SetTitle_locked_by_Start Scenario.okEnv _
                  (DevServer.API Scenario.okEnv) true Scenario.fresh []
                  "t2")).
  reflexivity.
Defined.

Lemma Stop_result (env : Env) (d : DevServer.t) (t : trace) :
  exists t',
    DevServer.Stop env d t
    = Done (None, DevServer.set_status DevServerStopped
                    (DevServer.set_session None d)) t'
    /\ (DevServer.session d = None -> t' = t).
Proof.
  unfold DevServer.Stop. destruct (DevServer.session d) as [s|] eqn:Hs; run.
  - destruct (DoesSessionExist_ env _ s); eexists;
      (split; [reflexivity | discriminate]).
  - exists t. split; [| reflexivity].
    destruct d; cbn in *; subst; reflexivity.
Qed.

(** [Kill] does not clear the started flag, the session or the worktree.
    With the concrete dev server, a second [Kill] therefore runs again: it
    leaves the (already stopped) dev server alone and repeats the session
    close and the worktree cleanup, returning their combined failures. *)
Theorem Kill_again_repeats_cleanup (env : Env) (i : Inst.t DevServer.t)
        (t : trace) (s : TmuxSession) (w : GitWorktree) r1 i1 t1 :
  Inst.started i = true ->
  Inst.tmuxSession i = Some s ->
  Inst.gitWorktree i = Some w ->
  @Inst.Kill env _ (DevServer.API env) i t = Done (r1, i1) t1 ->
  Inst.started i1 = true
  /\ Inst.tmuxSession i1 = Some s
  /\ Inst.gitWorktree i1 = Some w
  /\ @Inst.Kill env _ (DevServer.API env) i1 t1
     = Done (combineErrors
               (collect "failed to close tmux session: " (Close_ env t1 s)
                ++ collect "failed to cleanup git worktree: "
                           (Cleanup_ env (t1 ++ [EvClose s])%list w))%list,
             i1)
            (t1 ++ [EvClose s; EvCleanup w])%list.
Proof.
  intros Hst Hs Hw Hrun.
  pose proof (Kill_frame env _ (DevServer.API env) i t r1 i1 t1 Hrun) as Hfr.
  assert (Hst1 : Inst.started i1 = true) by (rewrite Hfr; exact Hst).
  assert (Hs1 : Inst.tmuxSession i1 = Some s) by (rewrite Hfr; exact Hs).
  assert (Hw1 : Inst.gitWorktree i1 = Some w) by (rewrite Hfr; exact Hw).
  split; [exact Hst1 | split; [exact Hs1 | split; [exact Hw1 |]]].
  assert (Hdev : Inst.DevServer i1 = None
                 \/ exists d, Inst.DevServer i1
                              = Some (DevServer.set_status DevServerStopped
                                        (DevServer.set_session None d))).
  { unfold Inst.Kill in Hrun. rewrite Hst in Hrun. cbn [negb] in Hrun.
    destruct (Inst.DevServer i) as [d|] eqn:Hd; run.
    - cbn [api_Stop DevServer.API] in Hrun.
      destruct (Stop_result env d t) as (t0 & Hstop & _).
      rewrite Hstop in Hrun.
      cbn [Inst.tmuxSession Inst.gitWorktree Inst.set_DevServer] in Hrun.
      rewrite Hs, Hw in Hrun. injection Hrun as _ <- _.
      right. exists d. reflexivity.
    - rewrite Hs, Hw in Hrun. injection Hrun as _ <- _. now left. }
  unfold Inst.Kill. rewrite Hst1. cbn [negb].
  destruct Hdev as [Hnone | [d Hsome]].
  - rewrite Hnone. run. rewrite Hs1, Hw1. rewrite <- !app_assoc. reflexivity.
  - rewrite Hsome. run. cbn [api_Stop DevServer.API].
    destruct (Stop_result env
                (DevServer.set_status DevServerStopped
                   (DevServer.set_session None d)) t1)
      as (t0 & Hstop & Hsame).
    rewrite Hstop, (Hsame eq_refl).
    cbn [Inst.tmuxSession Inst.gitWorktree Inst.set_DevServer].
    rewrite Hs1, Hw1. rewrite <- !app_assoc. cbn [app].
    f_equal. f_equal.
    destruct i1; cbn in *. subst. reflexivity.
Qed.

Lemma Kill_again_repeats_cleanup_witness :
  exists r1 r2,
    @Inst.Kill Scenario.okEnv _ (DevServer.API Scenario.okEnv)
               (Scenario.running None) []
    = Done (r1, Scenario.running None)
           [EvClose Scenario.sess; EvCleanup Scenario.wt]
    /\ @Inst.Kill Scenario.okEnv _ (DevServer.API Scenario.okEnv)
                  (Scenario.running None)
                  [EvClose Scenario.sess; EvCleanup Scenario.wt]
       = Done (r2, Scenario.running None)
              [EvClose Scenario.sess; EvCleanup Scenario.wt;
               EvClose Scenario.sess; EvCleanup Scenario.wt].
Proof.
  eexists. eexists. split; [vm_compute; reflexivity |].
  exact (proj2 (proj2 (proj2
           (Kill_again_repeats_cleanup Scenario.okEnv (Scenario.running None)
              [] Scenario.sess Scenario.wt None (Scenario.running None)
              [EvClose Scenario.sess; EvCleanup Scenario.wt]
              eq_refl eq_refl eq_refl eq_refl)))).
Defined.

(** ** Pause keeps the resources; Pause and Resume undo each other *)

Lemma forallb_pauseCall_not (evs : trace) (e : event) :
  forallb pauseCall evs = true -> pauseCall e = false -> ~ In e evs.
Proof.
  intros Hall He Hin. rewrite forallb_forall in Hall.
  rewrite (Hall e Hin) in He. discriminate He.
Qed.

(** Whatever [Pause] returns, every call it has made is one of the dirty
    check, the commit, the detach, the error log and the clipboard.  So it
    has not removed or recreated the worktree and has not closed, started
    or restored the session; and the instance still holds the same
    worktree, session and started flag. *)
Theorem Pause_keeps_resources (env : Env) (D : Type) (i : Inst.t D)
        (t : trace) r i' t' :
  Inst.Pause env i t = Done (r, i') t' ->
  exists evs,
    t' = (t ++ evs)%list
    /\ forallb pauseCall evs = true
    /\ (forall w, ~ In (EvCleanup w) evs /\ ~ In (EvSetup w) evs)
    /\ (forall s, ~ In (EvClose s) evs /\ ~ In (EvRestore s) evs
                  /\ forall dir, ~ In (EvTmuxStart s dir) evs)
    /\ Inst.gitWorktree i' = Inst.gitWorktree i
    /\ Inst.tmuxSession i' = Inst.tmuxSession i
    /\ Inst.started i' = Inst.started i.
Proof.
  intros Hrun.
  destruct (Pause_frame env D i t r i' t' Hrun)
    as (Hok & Herr & evs & Ht & Hall & _).
  exists evs. split; [exact Ht |]. split; [exact Hall |].
  split; [intros w; split; apply forallb_pauseCall_not; auto |].
  split; [intros s; split; [| split; [| intros dir]];
          apply forallb_pauseCall_not; auto |].
  destruct r as [e|].
  - rewrite (Herr ltac:(discriminate)). repeat split.
  - destruct (Hok eq_refl) as (-> & _ & _). repeat split.
Qed.

Lemma Pause_keeps_resources_witness :
  exists r i' evs,
    Inst.Pause Scenario.envDirty Scenario.runningNoDev [] = Done (r, i') evs
    /\ forallb pauseCall evs = true
    /\ ~ In (EvCleanup Scenario.wt) evs
    /\ Inst.gitWorktree i' = Some Scenario.wt.
Proof.
  destruct (Pause_keeps_resources Scenario.envDirty _ Scenario.runningNoDev
              [] _ _ _ eq_refl)
    as (evs & Ht & Hcalls & Hw & _ & Hwt & _).
  vm_compute in Ht. subst evs.
  do 3 eexists. split; [vm_compute; reflexivity |].
  split; [exact Hcalls | split; [apply Hw | exact Hwt]].
Defined.

(** A successful [Pause] followed by a successful [Resume] gives the
    instance back with the status Running and nothing else changed.  In
    between, a second [Pause] is rejected without any call; afterwards, a
    second [Resume] is. *)
Theorem Pause_Resume_round_trip (env : Env) (D : Type) (i : Inst.t D)
        (t : trace) i1 t1 i2 t2 :
  Inst.Pause env i t = Done (None, i1) t1 ->
  Inst.Resume env i1 t1 = Done (None, i2) t2 ->
  i2 = Inst.SetStatus Running i
  /\ Inst.Pause env i1 t1
     = Done (Some (errorString "instance is already paused"), i1) t1
  /\ Inst.Resume env i2 t2
     = Done (Some (errorString "can only resume paused instances"), i2) t2.
Proof.
  intros Hp Hr.
  destruct (Pause_frame env D i t None i1 t1 Hp) as (Hpok & _).
  destruct (Hpok eq_refl) as (-> & Hst & _).
  destruct (Resume_frame env D _ t1 None i2 t2 Hr) as (Hrok & _).
  destruct (Hrok eq_refl) as (-> & _ & _).
  split; [destruct i; reflexivity |].
  split.
  - unfold Inst.Pause. cbn [Inst.started Inst.SetStatus Inst.Status].
    rewrite Hst. reflexivity.
  - unfold Inst.Resume. cbn [Inst.started Inst.SetStatus Inst.Status].
    rewrite Hst. reflexivity.
Qed.

Lemma Pause_Resume_round_trip_witness :
  exists i1 t1 i2 t2,
    Inst.Pause Scenario.okEnv Scenario.runningNoDev [] = Done (None, i1) t1
    /\ Inst.Resume Scenario.okEnv i1 t1 = Done (None, i2) t2
    /\ i2 = Inst.SetStatus Running Scenario.runningNoDev.
Proof.
  do 4 eexists.
  split; [vm_compute; reflexivity |].
  split; [vm_compute; reflexivity |].
  exact (proj1 (Pause_Resume_round_trip Scenario.okEnv _
                  Scenario.runningNoDev [] _ _ _ _ eq_refl eq_refl)).
Defined.

(** ** Resume: the worktree and the session *)

Ltac not_in_list :=
  let H := fresh in
  simpl; intros H;
  repeat match type of H with
         | _ \/ _ => destruct H as [H | H]
         end;
  solve [discriminate H | contradiction].

Ltac resume_worktree_case :=
  do 3 eexists; split; [reflexivity |];
  split;
  [ let X := fresh in
    intros X; first [discriminate X | intros ?; not_in_list]
  | split;
    [ let X := fresh in
      intros X;
      first
        [ discriminate X
        | eexists; split; [reflexivity |];
          split; [intros ?; not_in_list |];
          let e' := fresh in
          let He' := fresh in
          intros e' He';
          first [discriminate He' | injection He' as <-; repeat split] ]
    | let e' := fresh in
      let He' := fresh in
      intros e' He';
      first [discriminate He' | injection He' as <-; repeat split] ] ].

(** On a paused, started instance whose branch is free, [Resume] looks at
    the worktree directory.  When it is there, no setup is run.  When it is
    missing, setup is run once, right after the check, and a setup failure
    ends [Resume] with that error and the instance unchanged.  When the
    check itself fails, [Resume] ends with that error after these two calls
    only. *)
Theorem Resume_recreates_worktree_only_if_missing
        (env : Env) (D : Type) (i : Inst.t D) (t : trace)
        (w : GitWorktree) (s : TmuxSession) :
  Inst.started i = true ->
  Inst.Status i = Paused ->
  Inst.gitWorktree i = Some w ->
  Inst.tmuxSession i = Some s ->
  IsBranchCheckedOut_ env t w = (false, None) ->
  let dir := GetWorktreePath w in
  let t1 := (t ++ [EvIsBranchCheckedOut w])%list in
  exists r i' evs,
    Inst.Resume env i t = Done (r, i') (t ++ evs)%list
    /\ (Stat_ env t1 dir = StatOk -> forall w', ~ In (EvSetup w') evs)
    /\ (Stat_ env t1 dir = StatNotExist ->
        exists rest,
          evs = ([EvIsBranchCheckedOut w; EvStat dir; EvSetup w] ++ rest)%list
          /\ (forall w', ~ In (EvSetup w') rest)
          /\ forall e,
               Setup_ env (t1 ++ [EvStat dir])%list w = Some e ->
               r = Some (Errorf_w "failed to setup git worktree: " e)
               /\ i' = i /\ rest = [EvErrorLog (Error e)])
    /\ (forall e,
           Stat_ env t1 dir = StatErr e ->
           r = Some (Errorf_w "failed to check if worktree exists: " e)
           /\ i' = i /\ evs = [EvIsBranchCheckedOut w; EvStat dir]).
Proof.
  intros Hst Hp Hw Hs Hfree. cbv zeta.
  unfold Inst.Resume, Inst.startFresh.
  rewrite Hst, Hp, Status_eqb_refl, Hw. cbn [negb]. run. rewrite Hfree.
  lifecycle_cases; rewrite ?Hs, ?Hw; lifecycle_cases;
    norm_trace; resume_worktree_case.
Qed.

Lemma Resume_worktree_witness :
  exists r i' evs,
    Inst.Resume Scenario.okEnv Scenario.pausedNoDev [] = Done (r, i') evs
    /\ forall w', ~ In (EvSetup w') evs.
Proof.
  destruct (Resume_recreates_worktree_only_if_missing Scenario.okEnv _
              Scenario.pausedNoDev [] Scenario.wt Scenario.sess
              eq_refl eq_refl eq_refl eq_refl eq_refl)
    as (r & i' & evs & Hrun & Hok & _).
  exists r, i', evs. split; [exact Hrun | exact (Hok eq_refl)].
Defined.

Ltac use_always :=
  repeat match goal with
         | A : forall h, TmuxStart_ ?e h ?s ?d = _,
           H : TmuxStart_ ?e ?h0 ?s ?d = _ |- _ =>
             rewrite A in H
         end.

Ltac absurd_answer :=
  match goal with
  | H : None = Some _ |- _ => discriminate H
  | H : Some _ = None |- _ => discriminate H
  | H : true = false |- _ => discriminate H
  | H : false = true |- _ => discriminate H
  end.

Ltac resume_session_case :=
  do 3 eexists; split; [reflexivity |];
  split;
  [ let X := fresh in
    let Y := fresh in
    intros X Y; first [absurd_answer | repeat split]
  | split;
    [ let A := fresh in
      intros A; use_always; first [absurd_answer | repeat split]
    | split;
      [ let e := fresh in
        let A := fresh in
        let B := fresh in
        intros e A B; use_always;
        first
          [ absurd_answer
          | destruct B as [B | B]; [discriminate B | now elim B]
          | match goal with H : Some _ = Some _ |- _ => injection H as <- end;
            split; [reflexivity |];
            split; [simpl; tauto |];
            eexists; split; [reflexivity |];
            unfold Errorf_w, Errorf_cleanup; cbn [Error];
            auto 8 with strs ]
      | split;
        [ let X := fresh in
          intros X;
          first [ left; reflexivity | right; discriminate
                | exfalso; revert X; not_in_list ]
        | let X := fresh in
          intros X;
          first [ simpl; tauto
                | destruct X as [X | X]; [discriminate X | now elim X] ] ] ] ] ].

(** On a paused, started instance whose branch is free and whose worktree
    directory is there, [Resume] reconnects to the session when it still
    exists and the restore succeeds, and makes no other session call.  It
    starts a fresh session exactly when the session is gone or the restore
    failed; a restore failure is therefore not fatal when the fresh start
    works.  When the fresh start fails, the worktree cleanup is attempted,
    the start failure is in the returned error and the instance is left
    unchanged (still Paused). *)
Theorem Resume_session_fallback
        (env : Env) (D : Type) (i : Inst.t D) (t : trace)
        (w : GitWorktree) (s : TmuxSession) :
  Inst.started i = true ->
  Inst.Status i = Paused ->
  Inst.gitWorktree i = Some w ->
  Inst.tmuxSession i = Some s ->
  IsBranchCheckedOut_ env t w = (false, None) ->
  let dir := GetWorktreePath w in
  Stat_ env (t ++ [EvIsBranchCheckedOut w])%list dir = StatOk ->
  let t2 := (t ++ [EvIsBranchCheckedOut w; EvStat dir])%list in
  exists r i' evs,
    Inst.Resume env i t = Done (r, i') (t ++ evs)%list
    /\ (DoesSessionExist_ env t2 s = true ->
        Restore_ env (t2 ++ [EvDoesSessionExist s])%list s = None ->
        r = None /\ i' = Inst.SetStatus Running i
        /\ evs = [EvIsBranchCheckedOut w; EvStat dir; EvDoesSessionExist s;
                  EvRestore s])
    /\ ((forall h, TmuxStart_ env h s dir = None) ->
        r = None /\ i' = Inst.SetStatus Running i)
    /\ (forall e,
           (forall h, TmuxStart_ env h s dir = Some e) ->
           DoesSessionExist_ env t2 s = false
           \/ Restore_ env (t2 ++ [EvDoesSessionExist s])%list s <> None ->
           i' = i /\ In (EvCleanup w) evs
           /\ exists err, r = Some err /\ Contains (Error err) (Error e))
    /\ (In (EvTmuxStart s dir) evs ->
        DoesSessionExist_ env t2 s = false
        \/ Restore_ env (t2 ++ [EvDoesSessionExist s])%list s <> None)
    /\ (DoesSessionExist_ env t2 s = false
        \/ Restore_ env (t2 ++ [EvDoesSessionExist s])%list s <> None ->
        In (EvTmuxStart s dir) evs).
Proof.
  intros Hst Hp Hw Hs Hfree dir Hstat. cbv zeta. subst dir.
  unfold Inst.Resume, Inst.startFresh.
  rewrite Hst, Hp, Status_eqb_refl, Hw. cbn [negb]. run. rewrite Hfree.
  lifecycle_step. rewrite Hstat. lifecycle_step. rewrite Hs.
  norm_trace.
  lifecycle_cases; rewrite ?Hs, ?Hw; lifecycle_cases;
    norm_trace; resume_session_case.
Qed.

Lemma Resume_session_fallback_witness :
  exists evs,
    Inst.Resume Scenario.okEnv Scenario.pausedNoDev []
    = Done (None, Inst.SetStatus Running Scenario.pausedNoDev) evs
    /\ evs = [EvIsBranchCheckedOut Scenario.wt; EvStat "/repo/.worktrees/t1";
              EvDoesSessionExist Scenario.sess; EvRestore Scenario.sess].
Proof.
  destruct (Resume_session_fallback Scenario.okEnv _ Scenario.pausedNoDev []
              Scenario.wt Scenario.sess
              eq_refl eq_refl eq_refl eq_refl eq_refl eq_refl)
    as (r & i' & evs & Hrun & Hrec & _).
  destruct (Hrec eq_refl eq_refl) as (-> & -> & Hevs).
  exists evs. split; [exact Hrun | exact Hevs].
Defined.

(** ** Persisting and restoring an instance *)

(** Restoring a record whose status is Paused makes no call at all: the
    instance comes back marked started, Paused, with a session handle built
    from its title and program.  Any other record is restored through
    [Start(false)]: with an empty title it is refused before any call;
    otherwise the one call is the session restore, and the instance comes
    back started and Running when that succeeds, while its failure is
    returned in place of the instance. *)
Theorem FromInstanceData_restore (env : Env) (data : InstanceData.t)
        (t : trace) :
  let s := NewTmuxSession (InstanceData.Title data)
                          (InstanceData.Program data) in
  (InstanceData.Status data = Paused ->
   exists i,
     FromInstanceData env data t = Done (inl i) t
     /\ Inst.started i = true /\ Inst.Status i = Paused
     /\ Inst.tmuxSession i = Some s)
  /\ (InstanceData.Status data <> Paused ->
      (InstanceData.Title data = "" ->
       FromInstanceData env data t
       = Done (inr (errorString "instance title cannot be empty")) t)
      /\ (InstanceData.Title data <> "" ->
          (Restore_ env t s = None ->
           exists i,
             FromInstanceData env data t
             = Done (inl i) (t ++ [EvRestore s])%list
             /\ Inst.started i = true /\ Inst.Status i = Running
             /\ Inst.tmuxSession i = Some s)
          /\ (forall e,
                 Restore_ env t s = Some e ->
                 FromInstanceData env data t
                 = Done (inr (Errorf_w "failed to restore existing session: "
                                       e))
                        (t ++ [EvRestore s; EvDeferredKill])%list))).
Proof.
  cbv zeta. unfold FromInstanceData, Inst.Paused. split.
  - intros Hp.
    destruct (InstanceData.DevServer data);
      cbn [Inst.Status Inst.set_DevServer]; rewrite Hp; cbn [Status_eqb];
      eexists; (split; [reflexivity | repeat split]).
  - intros Hnp. apply Status_eqb_neq in Hnp.
    split.
    + intros Hempty.
      destruct (InstanceData.DevServer data);
        cbn [Inst.Status Inst.set_DevServer]; rewrite Hnp;
        unfold Inst.Start; cbn [Inst.Title Inst.set_DevServer];
        rewrite Hempty; reflexivity.
    + intros Htitle. apply String.eqb_neq in Htitle. split.
      * intros Hok.
        destruct (InstanceData.DevServer data);
          cbn [Inst.Status Inst.set_DevServer]; rewrite Hnp;
          start_run; cbn [Inst.set_DevServer Inst.Title Inst.tmuxSession
                          Inst.Program];
          rewrite Htitle; start_step; rewrite Hok;
          eexists; (split; [reflexivity | repeat split]).
      * intros e Hfail.
        destruct (InstanceData.DevServer data);
          cbn [Inst.Status Inst.set_DevServer]; rewrite Hnp;
          start_run; cbn [Inst.set_DevServer Inst.Title Inst.tmuxSession
                          Inst.Program];
          rewrite Htitle; start_step; rewrite Hfail;
          unfold Inst.Kill;
          cbn [Inst.started Inst.SetTmuxSession Inst.set_DevServer negb];
          run; norm_trace; reflexivity.
Qed.

Lemma FromInstanceData_restore_witness :
  (InstanceData.Status Example.pausedData = Paused
   /\ exists i,
        FromInstanceData Scenario.okEnv Example.pausedData [] = Done (inl i) []
        /\ Inst.started i = true)
  /\ (InstanceData.Status Example.readyData <> Paused
      /\ InstanceData.Title Example.readyData <> ""
      /\ exists i,
           FromInstanceData Scenario.okEnv Example.readyData []
           = Done (inl i) [EvRestore Scenario.sess]
           /\ Inst.Status i = Running).
Proof.
  split.
  - split; [reflexivity |].
    destruct (proj1 (FromInstanceData_restore Scenario.okEnv
                       Example.pausedData []) eq_refl)
      as (i & Hrun & Hst & _).
    exists i. split; assumption.
  - split; [discriminate | split; [discriminate |]].
    destruct (proj1 (proj2 (proj2 (FromInstanceData_restore Scenario.okEnv
                                     Example.readyData [])
                              ltac:(discriminate)) ltac:(discriminate))
                    eq_refl)
      as (i & Hrun & _ & Hstatus & _).
    exists i. split; assumption.
Defined.

(** Persisting an instance that [FromInstanceData] has just restored gives
    the record back with four differences: the status has become Running
    unless it was Paused, auto-yes is off whatever was stored, the session
    name of the worktree is the title, and the update time is the time of
    persisting.  Title, path, branch, size, creation time, program, the
    other worktree fields, the diff statistics and the dev-server
    configuration, status and crash count are unchanged. *)
Theorem ToInstanceData_FromInstanceData (env : Env) (data : InstanceData.t)
        (t : trace) (now_ : Z) i t' :
  FromInstanceData env data t = Done (inl i) t' ->
  @ToInstanceData _ (DevServer.API env) DevServer.config now_ i
  = restoredData data now_.
Proof.
  unfold FromInstanceData, Inst.Paused, restoredData.
  destruct data as [title path branch st h wd ca ua prog ay
                    [rp wp sn bn bc] [ad rm ct] dev].
  cbn [InstanceData.Title InstanceData.Path InstanceData.Branch
       InstanceData.Status InstanceData.Height InstanceData.Width
       InstanceData.CreatedAt InstanceData.UpdatedAt InstanceData.Program
       InstanceData.Worktree InstanceData.DiffStats InstanceData.DevServer
       GitWorktreeData.RepoPath GitWorktreeData.WorktreePath
       GitWorktreeData.SessionName GitWorktreeData.BranchName
       GitWorktreeData.BaseCommitSHA DiffStatsData.Added
       DiffStatsData.Removed DiffStatsData.Content].
  destruct dev as [[cfg dst cc]|];
    cbn [Inst.Status Inst.set_DevServer DevServerData.Config
         DevServerData.Status DevServerData.CrashCount];
    (destruct (Status_eqb st Paused) eqn:Hp;
     [ intros H; injection H as <- _;
       destruct st; try discriminate Hp; reflexivity
     | start_run;
       cbn [Inst.set_DevServer Inst.Title Inst.tmuxSession Inst.Program];
       destruct (title =? "")%string; [discriminate |];
       start_step;
       destruct (Restore_ env t _) as [e|]; start_step;
       [ unfold Inst.Kill;
         cbn [Inst.started Inst.SetTmuxSession Inst.set_DevServer negb];
         run; discriminate
       | intros H; injection H as <- _; reflexivity ] ]).
Qed.

Lemma ToInstanceData_FromInstanceData_witness :
  exists i t',
    FromInstanceData Scenario.okEnv Example.readyData [] = Done (inl i) t'
    /\ @ToInstanceData _ (DevServer.API Scenario.okEnv) DevServer.config 300 i
       = restoredData Example.readyData 300
    /\ InstanceData.AutoYes (restoredData Example.readyData 300) = false
    /\ InstanceData.Status (restoredData Example.readyData 300) = Running.
Proof.
  do 2 eexists. split; [vm_compute; reflexivity |].
  split; [| split; reflexivity].
  exact (ToInstanceData_FromInstanceData Scenario.okEnv Example.readyData
           [] 300 _ _ eq_refl).
Defined.

(** ** The dev server between Start and Stop *)

Lemma startDevServer_shape (env : Env) (d : DevServer.t) (t : trace)
      r d' t' :
  DevServer.startDevServer env d t = Done (r, d') t' ->
  DevServer.config d' = DevServer.config d
  /\ DevServer.crashCount d' = DevServer.crashCount d
  /\ DevServer.status d' = DevServer.status d
  /\ (r = None -> DevServer.session d' <> None).
Proof.
  unfold DevServer.startDevServer. run.
  destruct (ExecRun_ env t _) as [noSession|];
    match goal with
    | |- context [PtyStart_ env ?h ?a] =>
        destruct (PtyStart_ env h a) as [pe|]
    end;
    try (intros H; injection H as <- <- _; repeat split; discriminate);
    match goal with
    | |- context [DevServer.waitLoop ?e ?f ?s ?dl ?sd ?t0] =>
        destruct (DevServer.waitLoop e f s dl sd t0) as [[|] t1 | f0]
    end;
    try discriminate;
    intros H; injection H as <- <- _; repeat split; discriminate.
Qed.

Ltac finish_dev_start env :=
  let r0 := fresh "r0" in
  let d1 := fresh "d1" in
  let evs := fresh "evs" in
  let n := fresh "n" in
  let Hr := fresh "Hr" in
  let Hc1 := fresh "Hc1" in
  let Hk1 := fresh "Hk1" in
  let Hsess := fresh "Hsess" in
  let e := fresh "e" in
  match goal with
  | |- context [DevServer.startDevServer env ?d0 ?t0] =>
      destruct (startDevServer_run env d0 t0)
        as (r0 & d1 & evs & n & Hr & _);
      destruct (startDevServer_shape env d0 t0 r0 d1 _ Hr)
        as (Hc1 & Hk1 & _ & Hsess);
      rewrite Hr
  end;
  destruct r0 as [e|]; do 3 eexists; (split; [reflexivity |]);
  cbn [DevServer.config DevServer.crashCount DevServer.status
       DevServer.session DevServer.set_status DevServer.appendOutput
       DevServer.set_output] in *;
  repeat split; try congruence; try discriminate;
  try (intros [? | ?]; congruence); try (now apply Hsess);
  try (match goal with H : _ \/ _ |- _ => destruct H; congruence end).

(** The ways [DevServer.Start] can end. *)
Lemma DevServer_Start_cases (env : Env) (d : DevServer.t) (t : trace) :
  exists r d' t',
    DevServer.Start env d t = Done (r, d') t'
    /\ DevServer.config d' = DevServer.config d
    /\ DevServer.crashCount d' = DevServer.crashCount d
    /\ (r = None ->
        DevServer.status d' = DevServerRunning
        /\ DevServer.session d' <> None)
    /\ (DevServer.IsRunning d = true \/ DevCommand (DevServer.config d) = "" ->
        r <> None /\ d' = d /\ t' = t)
    /\ (DevServer.IsRunning d = false ->
        DevCommand (DevServer.config d) <> "" ->
        r <> None -> DevServer.status d' = DevServerStopped).
Proof.
  unfold DevServer.Start.
  destruct (DevServer.IsRunning d) eqn:Hrun.
  { do 3 eexists. split; [reflexivity |].
    repeat split; try discriminate; congruence. }
  destruct (DevCommand (DevServer.config d) =? "")%string eqn:Hcmd.
  { do 3 eexists. split; [reflexivity |].
    repeat split; try discriminate; try congruence.
    apply String.eqb_eq in Hcmd. congruence. }
  apply String.eqb_neq in Hcmd. run.
  cbn [DevServer.config DevServer.set_status].
  destruct (BuildCommand (DevServer.config d) =? "")%string.
  - finish_dev_start env.
  - unfold DevServer.runBuild. run.
    destruct (ExecOutput_ env t _) as [out [be|]].
    + do 3 eexists. split; [reflexivity |].
      cbn [DevServer.config DevServer.crashCount DevServer.status
           DevServer.set_status DevServer.appendOutput DevServer.set_output].
      repeat split; try discriminate; try (intros [X | X]; congruence);
        try (match goal with H : _ \/ _ |- _ => destruct H; congruence end).
    + finish_dev_start env.
Qed.

(** [DevServer.Start] always returns.  When it is refused up front (the
    server is already running, or no dev command is configured) nothing is
    called and nothing changes, so the status stays what it was, Starting
    or Building included.  Otherwise it ends with the status Running and a
    session held when it returns nil, and with the status Stopped when it
    returns an error: never Building or Starting.  The configuration and
    the crash count are never changed. *)
Theorem DevServer_Start_end_state (env : Env) (d : DevServer.t) (t : trace) :
  exists r d' t',
    DevServer.Start env d t = Done (r, d') t'
    /\ DevServer.config d' = DevServer.config d
    /\ DevServer.crashCount d' = DevServer.crashCount d
    /\ (r = None ->
        DevServer.status d' = DevServerRunning
        /\ DevServer.session d' <> None)
    /\ (DevServer.IsRunning d = true \/ DevCommand (DevServer.config d) = "" ->
        r <> None /\ d' = d /\ t' = t)
    /\ (DevServer.IsRunning d = false ->
        DevCommand (DevServer.config d) <> "" ->
        r <> None -> DevServer.status d' = DevServerStopped)
    /\ (DevServer.IsRunning d = false ->
        DevCommand (DevServer.config d) <> "" ->
        DevServer.status d' <> DevServerBuilding
        /\ DevServer.status d' <> DevServerStarting).
Proof.
  destruct (DevServer_Start_cases env d t)
    as (r & d' & t' & Hrun & Hcfg & Hcount & Hok & Hrefused & Hfail).
  exists r, d', t'.
  split; [exact Hrun |]. split; [exact Hcfg |]. split; [exact Hcount |].
  split; [exact Hok |]. split; [exact Hrefused |]. split; [exact Hfail |].
  intros Hnot Hcmd. destruct r as [e|].
  - rewrite (Hfail Hnot Hcmd ltac:(discriminate)).
    split; discriminate.
  - destruct (Hok eq_refl) as [-> _]. split; discriminate.
Qed.

Lemma DevServer_Start_end_state_witness :
  exists r d' t',
    DevServer.Start Scenario.okEnv Scenario.stoppedDev [] = Done (r, d') t'
    /\ r = None
    /\ DevServer.status d' = DevServerRunning
    /\ DevServer.status d' <> DevServerStarting.
Proof.
  destruct (DevServer_Start_end_state Scenario.okEnv Scenario.stoppedDev [])
    as (r & d' & t' & Hrun & _ & _ & Hok & _ & _ & Hend).
  assert (Hr : r = None).
  { vm_compute in Hrun. injection Hrun as <- _ _. reflexivity. }
  exists r, d', t'. split; [exact Hrun |]. split; [exact Hr |].
  split; [apply (Hok Hr) |].
  apply (Hend eq_refl). discriminate.
Defined.

(** When a build command is configured and fails, [Start] stops there: the
    only calls are the build and the error log, no tmux process is launched,
    the captured build output is the newest line of the buffer, the status
    is Stopped and the error wraps the build failure. *)
Theorem DevServer_Start_build_failure (env : Env) (d : DevServer.t)
        (t : trace) (out : string) (e : error) :
  DevServer.IsRunning d = false ->
  DevCommand (DevServer.config d) <> "" ->
  BuildCommand (DevServer.config d) <> "" ->
  let argv := ["sh"; "-c"; BuildCommand (DevServer.config d)] in
  ExecOutput_ env t argv = (out, Some e) ->
  exists err d',
    DevServer.Start env d t
    = Done (Some err, d')
           (t ++ [EvExecOutput argv;
                  EvErrorLog ("DevServer.Start: build failed: "
                              ++ "build command failed: " ++ Error e)])%list
    /\ Error err = "build failed: " ++ "build command failed: " ++ Error e
    /\ DevServer.status d' = DevServerStopped
    /\ DevServer.session d' = DevServer.session d
    /\ DevServer.output d' = DevServer.pushLine (DevServer.output d) out
    /\ last (DevServer.output d') "" = out.
Proof.
  intros Hrun Hcmd Hbuild argv Hexec. subst argv.
  apply String.eqb_neq in Hcmd. apply String.eqb_neq in Hbuild.
  unfold DevServer.Start, DevServer.runBuild.
  rewrite Hrun, Hcmd. run. cbn [DevServer.config DevServer.set_status].
  rewrite Hbuild, Hexec. norm_trace.
  do 2 eexists. split; [reflexivity |].
  cbn [Error Errorf_w DevServer.status DevServer.session DevServer.output
       DevServer.set_status DevServer.appendOutput DevServer.set_output].
  repeat split.
  rewrite pushLine_lastn. unfold lastn.
  rewrite skipn_app, length_app. cbn [List.length].
  replace (List.length (DevServer.output d) + 1 - 100
           - List.length (DevServer.output d))%nat with 0%nat by lia.
  cbn [skipn]. apply last_last.
Qed.

Lemma DevServer_Start_build_failure_witness :
  exists err d',
    DevServer.Start (Scenario.scenarioEnv ["build"] false false true)
      (DevServer.NewDevServer
         (mkDevServerConfig "make" "npm run dev" []) "/w" "t1") []
    = Done (Some err, d')
           [EvExecOutput ["sh"; "-c"; "make"];
            EvErrorLog
              "DevServer.Start: build failed: build command failed: build failed"]
    /\ DevServer.status d' = DevServerStopped
    /\ DevServer.output d' = ["built"].
Proof.
  destruct (DevServer_Start_build_failure
              (Scenario.scenarioEnv ["build"] false false true)
              (DevServer.NewDevServer
                 (mkDevServerConfig "make" "npm run dev" []) "/w" "t1")
              [] "built" (Scenario.boom "build failed")
              eq_refl ltac:(discriminate) ltac:(discriminate) eq_refl)
    as (err & d' & Hrun & _ & Hst & _ & Hout & _).
  exists err, d'. split; [exact Hrun | split; [exact Hst | exact Hout]].
Defined.

(** [Stop] is idempotent: after any [Stop], a second one makes no call,
    returns nil and leaves the dev server as the first one left it; and the
    guard of [Start] no longer refuses. *)
Theorem DevServer_Stop_twice (env : Env) (d : DevServer.t) (t : trace)
        r d1 t1 :
  DevServer.Stop env d t = Done (r, d1) t1 ->
  DevServer.Stop env d1 t1 = Done (None, d1) t1
  /\ DevServer.IsRunning d1 = false.
Proof.
  intros Hrun.
  destruct (Stop_result env d t) as (t0 & Hstop & _).
  rewrite Hstop in Hrun. injection Hrun as _ <- <-.
  split; [| reflexivity].
  destruct (Stop_result env
              (DevServer.set_status DevServerStopped
                 (DevServer.set_session None d)) t0)
    as (t2 & Hstop2 & Hsame).
  rewrite Hstop2, (Hsame eq_refl). reflexivity.
Qed.

Lemma DevServer_Stop_twice_witness :
  exists d1 t1,
    DevServer.Stop Scenario.okEnv
      (DevServer.set_session (Some Scenario.sess)
         (Scenario.devIn DevServerRunning)) []
    = Done (None, d1) t1
    /\ DevServer.Stop Scenario.okEnv d1 t1 = Done (None, d1) t1.
Proof.
  do 2 eexists. split; [vm_compute; reflexivity |].
  exact (proj1 (DevServer_Stop_twice Scenario.okEnv
                  (DevServer.set_session (Some Scenario.sess)
                     (Scenario.devIn DevServerRunning))
                  [] None _ _ eq_refl)).
Defined.

(** ** The name of the dev-server session *)

Lemma removeWhitespace_idem (s : string) :
  removeWhitespace (removeWhitespace s) = removeWhitespace s.
Proof.
  induction s as [|c s IH]; [reflexivity |].
  cbn [removeWhitespace]. destruct (isSpace c) eqn:Hc; [exact IH |].
  cbn [removeWhitespace]. rewrite Hc, IH. reflexivity.
Qed.

Lemma replaceDots_idem (s : string) :
  replaceDots (replaceDots s) = replaceDots s.
Proof.
  induction s as [|c s IH]; [reflexivity |].
  cbn [replaceDots]. rewrite IH.
  destruct (Ascii.eqb c ".") eqn:Hc; [reflexivity | now rewrite Hc].
Qed.

Lemma removeWhitespace_replaceDots (s : string) :
  removeWhitespace (replaceDots s) = replaceDots (removeWhitespace s).
Proof.
  induction s as [|c s IH]; [reflexivity |].
  cbn [replaceDots removeWhitespace].
  destruct (Ascii.eqb c ".") eqn:Hc.
  - apply Ascii.eqb_eq in Hc. subst c. cbn. now rewrite IH.
  - destruct (isSpace c); cbn [replaceDots]; rewrite ?Hc, IH; reflexivity.
Qed.

Lemma noSpaceNoDot_app (a b : string) :
  noSpaceNoDot (a ++ b) = noSpaceNoDot a && noSpaceNoDot b.
Proof.
  induction a as [|c a IH]; [reflexivity |].
  cbn [append noSpaceNoDot]. rewrite IH. now rewrite andb_assoc.
Qed.

Lemma noSpaceNoDot_clean (s : string) :
  noSpaceNoDot (replaceDots (removeWhitespace s)) = true.
Proof.
  induction s as [|c s IH]; [reflexivity |].
  cbn [removeWhitespace]. destruct (isSpace c) eqn:Hc; [exact IH |].
  cbn [replaceDots noSpaceNoDot]. rewrite IH, andb_true_r.
  destruct (Ascii.eqb c ".") eqn:Hd; [reflexivity |].
  now rewrite Hc, Hd.
Qed.

(** The session name derived from an instance title ends in "_dev" and
    holds no whitespace and no dot.  It does not tell apart titles that
    differ only in whitespace, or only in a dot against an underscore: such
    titles get the same dev-server session name. *)
Theorem devServerSessionName_shape (title : string) :
  noSpaceNoDot (devServerSessionName title) = true
  /\ (exists stem, devServerSessionName title = stem ++ "_dev")
  /\ devServerSessionName (removeWhitespace title)
     = devServerSessionName title
  /\ devServerSessionName (replaceDots title) = devServerSessionName title.
Proof.
  unfold devServerSessionName. split; [| split; [| split]].
  - rewrite noSpaceNoDot_app, noSpaceNoDot_clean. reflexivity.
  - eexists. reflexivity.
  - now rewrite removeWhitespace_idem.
  - now rewrite removeWhitespace_replaceDots, replaceDots_idem.
Qed.

(** ** Launching the dev-server session *)

Lemma waitLoop_events (env : Env) (s : TmuxSession) (deadline : Z)
      (fuel : nat) :
  forall sd t r t',
    DevServer.waitLoop env fuel s deadline sd t = Done r t' ->
    exists evs, t' = (t ++ evs)%list /\ forallb pollCall evs = true.
Proof.
  induction fuel as [|fuel IH]; intros sd t r t'; cbn [DevServer.waitLoop].
  - discriminate.
  - run. destruct (DoesSessionExist_ env t s).
    + intros H. injection H as _ <-. now exists [EvDoesSessionExist s].
    + destruct (deadline <=? clock env (t ++ [EvDoesSessionExist s])%list).
      * intros H. injection H as _ <-. now exists [EvDoesSessionExist s].
      * intros H. apply IH in H. destruct H as (evs & -> & Hall).
        exists ([EvDoesSessionExist s; EvSleep sd] ++ evs)%list.
        rewrite <- !app_assoc. split; [reflexivity |].
        cbn [app forallb pollCall andb]. exact Hall.
Qed.

Lemma waitLoop_from_start (env : Env) (s : TmuxSession) (t0 : trace) :
  exists r evs,
    DevServer.waitLoop env DevServer.pollFuel s (clock env t0 + 2 * Second)
                       (5 * Millisecond) t0
    = Done r (t0 ++ evs)%list
    /\ forallb pollCall evs = true.
Proof.
  destruct (waitLoop_run env s (clock env t0) DevServer.pollFuel 0 t0)
    as (r & n & evs & Hrun & _);
    [cbn [sumBackoff]; lia | lia | unfold DevServer.pollFuel; lia |].
  change (backoff 0) with (5 * Millisecond) in Hrun.
  destruct (waitLoop_events env s _ _ _ _ _ _ Hrun) as (evs' & Heq & Hall).
  apply app_inv_head in Heq. subst evs'.
  exists r, evs. split; assumption.
Qed.

Lemma forallb_pollCall_not (evs : trace) (e : event) :
  forallb pollCall evs = true -> pollCall e = false -> ~ In e evs.
Proof.
  intros Hall He Hin. rewrite forallb_forall in Hall.
  rewrite (Hall e Hin) in He. discriminate He.
Qed.

(** [startDevServer] first asks tmux whether a session of the derived name
    exists and, only when it does, kills it; then it launches exactly one
    new session of that name in the worktree directory.  With no
    environment configured the command handed to the shell is the dev
    command itself. *)
Theorem startDevServer_replaces_stale_session (env : Env) (d : DevServer.t)
        (t : trace) :
  let full := TmuxPrefix env ++ devServerSessionName (DevServer.instance d) in
  let has := ["tmux"; "has-session"; "-t"; full] in
  let kill := ["tmux"; "kill-session"; "-t"; full] in
  exists r d' evs argv rest,
    DevServer.startDevServer env d t = Done (r, d') (t ++ evs)%list
    /\ (ExecRun_ env t has = None ->
        evs = ([EvExecRun has; EvExecRun kill; EvPtyStart argv] ++ rest)%list)
    /\ (ExecRun_ env t has <> None ->
        evs = ([EvExecRun has; EvPtyStart argv] ++ rest)%list)
    /\ ~ In (EvExecRun kill) rest
    /\ (forall a, ~ In (EvPtyStart a) rest)
    /\ nth 4 argv "" = full
    /\ nth 6 argv "" = DevServer.worktree d
    /\ (Env_ (DevServer.config d) = [] ->
        last argv "" = DevCommand (DevServer.config d)).
Proof.
  cbv zeta. unfold DevServer.startDevServer. run.
  destruct (ExecRun_ env t _) as [noSession|];
    match goal with
    | |- context [PtyStart_ env ?h ?a] =>
        destruct (PtyStart_ env h a) as [pe|]
    end;
    try (do 5 eexists; norm_trace; split; [reflexivity |];
         split; [intros X; first [discriminate X | reflexivity] |];
         split; [intros X; first [now elim X | reflexivity] |];
         split; [not_in_list |];
         split; [intros a; not_in_list |];
         split; [reflexivity | split; [reflexivity |]];
         intros ->; reflexivity);
    match goal with
    | |- context [DevServer.waitLoop env _ ?s _ _ ?t0] =>
        destruct (waitLoop_from_start env s t0) as (r0 & pevs & Hrun & Hall)
    end;
    rewrite Hrun; destruct r0;
    (do 5 eexists; norm_trace; split; [reflexivity |];
     split; [intros X; first [discriminate X | reflexivity] |];
     split; [intros X; first [now elim X | reflexivity] |];
     split;
     [ intros X; apply in_app_or in X; destruct X as [X | X];
       [ revert X; apply forallb_pollCall_not; [exact Hall | reflexivity]
       | revert X; not_in_list ] |];
     split;
     [ intros a X; apply in_app_or in X; destruct X as [X | X];
       [ revert X; apply forallb_pollCall_not; [exact Hall | reflexivity]
       | revert X; not_in_list ] |];
     split; [reflexivity | split; [reflexivity |]];
     intros ->; reflexivity).
Qed.

Lemma startDevServer_replaces_stale_session_witness :
  exists r d' argv rest,
    DevServer.startDevServer Scenario.okEnv Scenario.stoppedDev []
    = Done (r, d')
           ([EvExecRun ["tmux"; "has-session"; "-t"; "claudesquad_t1_dev"];
             EvPtyStart argv] ++ rest)%list
    /\ (forall a, ~ In (EvPtyStart a) rest)
    /\ last argv "" = "npm run dev".
Proof.
  destruct (startDevServer_replaces_stale_session
              Scenario.okEnv Scenario.stoppedDev [])
    as (r & d' & evs & argv & rest & Hrun & _ & Hfresh & _ & Honce & _ & _
        & Hcmd).
  exists r, d', argv, rest.
  rewrite (Hfresh ltac:(discriminate)) in Hrun.
  split; [exact Hrun |]. split; [exact Honce | exact (Hcmd eq_refl)].
Defined.

(** * Properties of polling and interaction *)

Ltac xrun :=
  cbv beta iota zeta delta [xbind xcall xemit xret xask xderef] in *.

Ltac dev_simpl :=
  cbn [DevServer.status DevServer.session DevServer.config
       DevServer.crashCount DevServer.output DevServer.worktree
       DevServer.instance DevServer.set_status DevServer.set_output
       DevServer.set_session DevServer.appendOutput LiveDev.set_crashCount
       LiveDev.IncrementCrashCount] in *.

(** ** The output buffer under several appends *)

Lemma appendAll_frame (lines : list string) (d : DevServer.t) :
  appendAll lines d
  = DevServer.set_output (fold_left DevServer.pushLine lines
                                    (DevServer.output d)) d.
Proof.
  unfold appendAll. revert d. induction lines as [|x rest IH]; intros d.
  - destruct d; reflexivity.
  - cbn [fold_left]. rewrite IH. reflexivity.
Qed.

Lemma appendAll_app (l1 l2 : list string) (d : DevServer.t) :
  appendAll l2 (appendAll l1 d) = appendAll (l1 ++ l2) d.
Proof. unfold appendAll. now rewrite fold_left_app. Qed.

Lemma appendOutput_appendAll (line : string) (d : DevServer.t) :
  DevServer.appendOutput line d = appendAll [line] d.
Proof. reflexivity. Qed.

Lemma appendNonBlank_appendAll (xenv : XEnv) (lines : list string)
      (d : DevServer.t) :
  LiveDev.appendNonBlank xenv lines d
  = appendAll
      (filter (fun line => negb (TrimSpace_ xenv line =? "")%string) lines) d.
Proof.
  unfold LiveDev.appendNonBlank, appendAll. revert d.
  induction lines as [|x rest IH]; intros d; [reflexivity |].
  cbn [fold_left filter].
  destruct (TrimSpace_ xenv x =? "")%string; cbn [negb fold_left];
    apply IH.
Qed.

Lemma appendQuoted_appendAll (lines : list string) (d : DevServer.t) :
  LiveDev.appendQuoted lines d = appendAll (map (append "  ") lines) d.
Proof.
  unfold LiveDev.appendQuoted, appendAll. revert d.
  induction lines as [|x rest IH]; intros d; [reflexivity |].
  cbn [fold_left map]. apply IH.
Qed.

Lemma output_appendAll_lastn (lines : list string) (d : DevServer.t) :
  DevServer.output (appendAll lines d)
  = match lines with
    | [] => DevServer.output d
    | _ :: _ => lastn 100 (DevServer.output d ++ lines)
    end.
Proof.
  rewrite output_appendAll. destruct lines as [|x rest]; [reflexivity |].
  now rewrite fold_pushLine by discriminate.
Qed.

(** ** UpdateOutputFromSession and HasUpdated *)

(** [UpdateOutputFromSession] makes no call without a session, and one
    capture with one.  A failed capture is returned and changes nothing.  A
    successful one appends the captured lines that are not blank, in their
    order, keeping the newest 100 lines of the buffer; every other field of
    the dev server is untouched. *)
Theorem UpdateOutputFromSession_appends_kept_lines
        (xenv : XEnv) (d : DevServer.t) (t : xtrace) :
  (DevServer.session d = None ->
   LiveDev.UpdateOutputFromSession xenv d t = XDone (None, d) t)
  /\ (forall s,
         DevServer.session d = Some s ->
         let t' := (t ++ [XCapturePaneContent s])%list in
         (forall content e,
             XCapturePaneContent_ xenv t s = (content, Some e) ->
             LiveDev.UpdateOutputFromSession xenv d t = XDone (Some e, d) t')
         /\ (forall content,
                XCapturePaneContent_ xenv t s = (content, None) ->
                let kept := keptLines xenv content in
                LiveDev.UpdateOutputFromSession xenv d t
                = XDone (None,
                         DevServer.set_output
                           match kept with
                           | [] => DevServer.output d
                           | _ :: _ => lastn 100 (DevServer.output d ++ kept)
                           end d)
                        t')).
Proof.
  unfold LiveDev.UpdateOutputFromSession. split.
  - intros ->. reflexivity.
  - intros s ->. cbv zeta. split.
    + intros content e Hcap. xrun. rewrite Hcap. reflexivity.
    + intros content Hcap. xrun. rewrite Hcap.
      rewrite appendNonBlank_appendAll. fold (keptLines xenv content).
      rewrite appendAll_frame.
      destruct (keptLines xenv content) as [|x rest] eqn:Hk;
        [reflexivity |].
      now rewrite fold_pushLine by discriminate.
Qed.

Lemma UpdateOutputFromSession_witness :
  LiveDev.UpdateOutputFromSession
    (Example.xenvOf ("compiled" ++ nl ++ "   " ++ nl ++ "listening")
                    true false false [])
    Example.liveDev []
  = XDone (None,
           DevServer.set_output ["ready"; "compiled"; "listening"]
                                Example.liveDev)
          [XCapturePaneContent Scenario.sess].
Proof.
  exact (proj2 (proj2 (UpdateOutputFromSession_appends_kept_lines
                         (Example.xenvOf
                            ("compiled" ++ nl ++ "   " ++ nl ++ "listening")
                            true false false [])
                         Example.liveDev [])
                      Scenario.sess eq_refl)
               ("compiled" ++ nl ++ "   " ++ nl ++ "listening") eq_refl).
Defined.

(** ** CheckHealth *)

Lemma DevServerStatus_eqb_eq (a b : DevServerStatus) :
  DevServerStatus_eqb a b = true <-> a = b.
Proof. destruct a, b; simpl; split; congruence. Qed.

Ltac health_fold :=
  rewrite ?appendQuoted_appendAll, ?appendNonBlank_appendAll,
    ?appendAll_frame in *;
  dev_simpl.

Ltac health_done :=
  do 2 eexists; rewrite <- ?app_assoc; cbn [app];
  (split; [reflexivity |]); health_fold;
  repeat split; auto; try congruence; try discriminate;
  try (left; split; reflexivity);
  try (right; repeat split; congruence).

(** Every way [CheckHealth] can go. *)
Lemma CheckHealth_cases (xenv : XEnv) (d : DevServer.t) (t : xtrace) :
  exists d' evs,
    LiveDev.CheckHealth xenv d t = XDone d' (t ++ evs)%list
    /\ forallb healthCall evs = true
    /\ DevServer.config d' = DevServer.config d
    /\ DevServer.session d' = DevServer.session d
    /\ (DevServer.status d <> DevServerRunning -> d' = d /\ evs = [])
    /\ ((DevServer.status d' = DevServer.status d
         /\ DevServer.crashCount d' = DevServer.crashCount d)
        \/ (DevServer.status d = DevServerRunning
            /\ DevServer.status d' = DevServerCrashed
            /\ DevServer.crashCount d'
               = wrap64 (DevServer.crashCount d + 1)))
    /\ (DevServer.status d = DevServerRunning ->
        (DevServer.session d = None
         \/ exists s, DevServer.session d = Some s
                      /\ forall h, XDoesSessionExist_ xenv h s = false) ->
        DevServer.status d' = DevServerCrashed
        /\ DevServer.crashCount d' = wrap64 (DevServer.crashCount d + 1))
    /\ (DevServer.status d = DevServerRunning ->
        (exists s, DevServer.session d = Some s
                   /\ forall h, XDoesSessionExist_ xenv h s = true) ->
        DevServer.status d' = DevServerRunning
        /\ DevServer.crashCount d' = DevServer.crashCount d).
Proof.
  unfold LiveDev.CheckHealth.
  destruct (DevServer.status d) eqn:Hst;
    cbn [DevServerStatus_eqb negb];
    try (exists d, []; rewrite app_nil_r;
         (split; [reflexivity |]);
         (split; [reflexivity |]);
         (split; [reflexivity |]);
         (split; [reflexivity |]);
         (split; [intros _; split; reflexivity |]);
         (split; [left; split; [exact Hst | reflexivity] |]);
         split; intros X; discriminate X).
  unfold LiveDev.UpdateOutputFromSession.
  destruct (DevServer.session d) as [s|] eqn:Hsess; xrun.
  - destruct (XCapturePaneContent_ xenv t s) as [content [ce|]];
      health_fold; rewrite ?Hsess;
      match goal with
      | |- context [XDoesSessionExist_ xenv ?h s] =>
          destruct (XDoesSessionExist_ xenv h s) eqn:Hex
      end.
    all: try match goal with
             | |- context [(LiveDev.Output ?x =? "")%string] =>
                 destruct (LiveDev.Output x =? "")%string
             end; cbn [negb].
    all: try match goal with
             | |- context [3 <=? ?c] => destruct (3 <=? c)
             end.
    all: do 2 eexists; rewrite <- ?app_assoc; cbn [app];
      (split; [reflexivity |]); health_fold;
      (split; [reflexivity |]);
      (split; [reflexivity |]);
      (split; [exact Hsess || (rewrite Hsess; reflexivity) |]);
      (split; [intros X; now elim X |]);
      (split; [first [ left; split; [exact Hst | reflexivity]
                     | right; repeat split; exact Hst ] |]);
      split;
      [ intros _ [X | (s' & X & Hnever)];
        [ congruence
        | first [ split; [reflexivity | reflexivity]
                | injection X as <-; rewrite Hnever in Hex;
                  discriminate Hex ] ]
      | intros _ (s' & X & Halways);
        first [ split; [exact Hst | reflexivity]
              | injection X as <-; rewrite Halways in Hex;
                discriminate Hex ] ].
  - rewrite Hsess. do 2 eexists. rewrite app_nil_r.
    split; [reflexivity |]. health_fold.
    split; [reflexivity |].
    split; [reflexivity |].
    split; [exact Hsess |].
    split; [intros X; now elim X |].
    split; [right; repeat split |].
    split; [intros _ _; split; reflexivity |].
    intros _ (s' & X & _). congruence.
Qed.

Lemma UpdateOutputFromSession_shape (xenv : XEnv) (d : DevServer.t)
      (t : xtrace) :
  exists r kept evs,
    LiveDev.UpdateOutputFromSession xenv d t
    = XDone (r, appendAll kept d) (t ++ evs)%list
    /\ forallb healthCall evs = true.
Proof.
  unfold LiveDev.UpdateOutputFromSession.
  destruct (DevServer.session d) as [s|]; xrun.
  - destruct (XCapturePaneContent_ xenv t s) as [content [ce|]].
    + exists (Some ce), [], [XCapturePaneContent s]. split; reflexivity.
    + exists None, (keptLines xenv content), [XCapturePaneContent s].
      rewrite appendNonBlank_appendAll. split; reflexivity.
  - exists None, [], []. rewrite app_nil_r. split; reflexivity.
Qed.

Lemma appendAll_crashCount (lines : list string) (d : DevServer.t) :
  DevServer.crashCount (appendAll lines d) = DevServer.crashCount d.
Proof. rewrite appendAll_frame. reflexivity. Qed.

Lemma skipn_last20 {A} (l : list A) :
  skipn (if (20 <? List.length l)%nat then (List.length l - 20)%nat else 0%nat)
        l
  = lastn 20 l.
Proof.
  unfold lastn. destruct (Nat.ltb_spec 20 (List.length l)) as [H|H].
  - reflexivity.
  - replace (List.length l - 20)%nat with 0%nat by lia. reflexivity.
Qed.

(** [CheckHealth] always returns, and it is confined: the only calls it can
    make are the pane capture and the existence check, it never changes the
    configuration or the session handle, a server that is not Running is
    left exactly as it was without any call, and the only change of status
    it can make is from Running to Crashed, which comes with the crash
    counter going up by one. *)
Theorem CheckHealth_only_marks_crashes (xenv : XEnv) (d : DevServer.t)
        (t : xtrace) :
  exists d' evs,
    LiveDev.CheckHealth xenv d t = XDone d' (t ++ evs)%list
    /\ forallb healthCall evs = true
    /\ DevServer.config d' = DevServer.config d
    /\ DevServer.session d' = DevServer.session d
    /\ (DevServer.status d <> DevServerRunning -> d' = d /\ evs = [])
    /\ ((DevServer.status d' = DevServer.status d
         /\ DevServer.crashCount d' = DevServer.crashCount d)
        \/ (DevServer.status d = DevServerRunning
            /\ DevServer.status d' = DevServerCrashed
            /\ DevServer.crashCount d'
               = wrap64 (DevServer.crashCount d + 1))).
Proof.
  destruct (CheckHealth_cases xenv d t)
    as (d' & evs & Hrun & Hcalls & Hcfg & Hsess & Hidle & Hstep & _).
  exists d', evs. repeat split; try assumption; now apply Hidle.
Qed.

(** A crash is counted once.  When the server is Running and its session is
    gone (the handle is nil, or tmux reports that the session does not
    exist), [CheckHealth] marks it Crashed and adds one to the crash
    counter; every later [CheckHealth] leaves the server as it is and makes
    no call. *)
Theorem CheckHealth_counts_crash_once (xenv : XEnv) (d : DevServer.t)
        (t : xtrace) :
  DevServer.status d = DevServerRunning ->
  (DevServer.session d = None
   \/ exists s, DevServer.session d = Some s
                /\ forall h, XDoesSessionExist_ xenv h s = false) ->
  exists d' t',
    LiveDev.CheckHealth xenv d t = XDone d' t'
    /\ DevServer.status d' = DevServerCrashed
    /\ DevServer.crashCount d' = wrap64 (DevServer.crashCount d + 1)
    /\ forall later, LiveDev.CheckHealth xenv d' later = XDone d' later.
Proof.
  intros Hst Hgone.
  destruct (CheckHealth_cases xenv d t)
    as (d' & evs & Hrun & _ & _ & _ & _ & _ & Hcrash & _).
  destruct (Hcrash Hst Hgone) as [Hst' Hcount].
  exists d', (t ++ evs)%list. repeat split; try assumption.
  intros later. unfold LiveDev.CheckHealth. rewrite Hst'. reflexivity.
Qed.

Lemma CheckHealth_counts_crash_once_witness :
  exists d' t',
    LiveDev.CheckHealth (Example.xenvOf "boom" false false false [])
                        Example.liveDev [] = XDone d' t'
    /\ DevServer.status d' = DevServerCrashed
    /\ DevServer.crashCount d' = wrap64 (2 + 1)
    /\ forall later,
         LiveDev.CheckHealth (Example.xenvOf "boom" false false false [])
                             d' later = XDone d' later.
Proof.
  refine (CheckHealth_counts_crash_once
            (Example.xenvOf "boom" false false false []) Example.liveDev []
            eq_refl _).
  right. exists Scenario.sess. split; reflexivity.
Defined.

(** What a crash leaves in the output buffer.  When the server is Running
    and tmux reports its session gone, the buffer after [CheckHealth] is
    the last 100 lines of: the buffer as the final capture left it,
    followed by the crash report (the stamped headline, the last 20 lines
    of the output indented by two spaces, or the no-output headline when
    the buffer was empty, then the crash count, and the configuration
    warning from the third crash on). *)
Theorem CheckHealth_crash_report (xenv : XEnv) (d : DevServer.t)
        (t : xtrace) s r d1 t1 :
  DevServer.status d = DevServerRunning ->
  DevServer.session d = Some s ->
  LiveDev.UpdateOutputFromSession xenv d t = XDone (r, d1) t1 ->
  XDoesSessionExist_ xenv t1 s = false ->
  let h := (t1 ++ [XBase (EvDoesSessionExist s)])%list in
  let count := wrap64 (DevServer.crashCount d + 1) in
  exists d',
    LiveDev.CheckHealth xenv d t = XDone d' h
    /\ DevServer.output d'
       = lastn 100 (DevServer.output d1
                    ++ crashReport (XNowFormat_ xenv h "15:04:05")
                                   (LiveDev.Output d1) count).
Proof.
  intros Hst Hsess HU Hex. cbv zeta.
  assert (Hd1 : DevServer.session d1 = Some s
                /\ DevServer.crashCount d1 = DevServer.crashCount d).
  { destruct (UpdateOutputFromSession_shape xenv d t)
      as (r0 & kept & evs & HU' & _).
    rewrite HU in HU'. injection HU' as _ -> _.
    rewrite appendAll_frame. dev_simpl. split; [exact Hsess | reflexivity]. }
  destruct Hd1 as [Hs1 Hc1].
  unfold LiveDev.CheckHealth. rewrite Hst.
  cbn [DevServerStatus_eqb negb]. xrun. rewrite HU, Hs1, Hex.
  unfold crashReport, LiveDev.Output. dev_simpl.
  rewrite skipn_last20.
  destruct (String.concat nl (DevServer.output d1) =? "")%string;
    cbn [negb];
    rewrite ?appendQuoted_appendAll, ?appendOutput_appendAll,
      ?appendAll_app, ?appendAll_crashCount;
    dev_simpl; rewrite Hc1;
    destruct (3 <=? wrap64 (DevServer.crashCount d + 1));
    rewrite ?appendOutput_appendAll, ?appendAll_app;
    eexists; (split; [reflexivity |]);
    rewrite output_appendAll_lastn; dev_simpl;
    rewrite <- ?app_assoc; reflexivity.
Qed.

Lemma CheckHealth_crash_report_witness :
  exists d',
    LiveDev.CheckHealth (Example.xenvOf "boom" false false false [])
                        Example.liveDev []
    = XDone d' [XCapturePaneContent Scenario.sess;
                XBase (EvDoesSessionExist Scenario.sess)]
    /\ DevServer.output d'
       = ["ready"; "boom"; "[12:00:00] Dev server crashed! Last output:";
          "  ready"; "  boom"; "Crash count: 3";
          "Multiple crashes detected. Check your dev server configuration."].
Proof.
  destruct (CheckHealth_crash_report
              (Example.xenvOf "boom" false false false []) Example.liveDev []
              Scenario.sess None (appendAll ["boom"] Example.liveDev)
              [XCapturePaneContent Scenario.sess]
              eq_refl eq_refl eq_refl eq_refl)
    as (d' & Hrun & Hout).
  exists d'. split; [exact Hrun |]. rewrite Hout. vm_compute. reflexivity.
Defined.

(** A dev server that was Running when the instance was persisted comes
    back from [FromInstanceData] without a session handle, so the first
    [CheckHealth] after the restore marks it Crashed without asking tmux
    anything: the crash counter is the stored one plus one, and the output
    buffer holds the single line saying that the session was nil. *)
Theorem FromInstanceData_running_server_crashes (env : Env)
        (data : InstanceData.t) (t : trace) dd i t' :
  InstanceData.DevServer data = Some dd ->
  DevServerData.Status dd = DevServerRunning ->
  FromInstanceData env data t = Done (inl i) t' ->
  exists d,
    Inst.DevServer i = Some d
    /\ DevServer.session d = None
    /\ forall xenv xt,
         exists d',
           LiveDev.CheckHealth xenv d xt = XDone d' xt
           /\ DevServer.status d' = DevServerCrashed
           /\ DevServer.crashCount d'
              = wrap64 (DevServerData.CrashCount dd + 1)
           /\ DevServer.output d'
              = ["[" ++ XNowFormat_ xenv xt "15:04:05"
                 ++ "] Dev server crashed! Session was nil."].
Proof.
  intros Hdev Hst. unfold FromInstanceData, Inst.Paused.
  rewrite Hdev. destruct dd as [cfg dst cc].
  cbn [DevServerData.Status DevServerData.Config DevServerData.CrashCount]
    in *.
  subst dst. cbn [Inst.Status Inst.set_DevServer].
  assert (Hhealth :
            forall w ttl xenv xt,
            exists d',
              LiveDev.CheckHealth xenv
                (DevServer.mk cfg DevServerRunning None cc [] w ttl) xt
              = XDone d' xt
              /\ DevServer.status d' = DevServerCrashed
              /\ DevServer.crashCount d' = wrap64 (cc + 1)
              /\ DevServer.output d'
                 = ["[" ++ XNowFormat_ xenv xt "15:04:05"
                    ++ "] Dev server crashed! Session was nil."]).
  { intros w ttl xenv xt.
    unfold LiveDev.CheckHealth, LiveDev.UpdateOutputFromSession.
    dev_simpl. cbn [DevServerStatus_eqb negb]. xrun. dev_simpl.
    eexists. split; [reflexivity |]. repeat split. }
  destruct (Status_eqb (InstanceData.Status data) Paused).
  - intros H. injection H as <- _.
    eexists. split; [reflexivity |]. split; [reflexivity |]. apply Hhealth.
  - start_run.
    cbn [Inst.set_DevServer Inst.Title Inst.tmuxSession Inst.Program].
    destruct (InstanceData.Title data =? "")%string; [discriminate |].
    start_step.
    destruct (Restore_ env t _) as [e|]; start_step.
    + unfold Inst.Kill.
      cbn [Inst.started Inst.SetTmuxSession Inst.set_DevServer negb].
      run. discriminate.
    + intros H. injection H as <- _.
      eexists. split; [reflexivity |]. split; [reflexivity |]. apply Hhealth.
Qed.

Lemma FromInstanceData_running_server_crashes_witness :
  exists i d d',
    FromInstanceData Scenario.okEnv Example.readyData [] = Done (inl i)
      [EvRestore Scenario.sess]
    /\ Inst.DevServer i = Some d
    /\ LiveDev.CheckHealth (Example.xenvOf "" true false false []) d []
       = XDone d' []
    /\ DevServer.status d' = DevServerCrashed
    /\ DevServer.crashCount d' = 2
    /\ DevServer.output d'
       = ["[12:00:00] Dev server crashed! Session was nil."].
Proof.
  destruct (FromInstanceData_running_server_crashes
              Scenario.okEnv Example.readyData []
              (DevServerData.mk Scenario.devConfig DevServerRunning 1)
              _ _ eq_refl eq_refl eq_refl)
    as (d & Hd & _ & Hhealth).
  destruct (Hhealth (Example.xenvOf "" true false false []) [])
    as (d' & Hrun & Hst & Hcount & Hout).
  eexists _, d, d'. split; [reflexivity |].
  split; [exact Hd |]. split; [exact Hrun |]. split; [exact Hst |].
  split; [exact Hcount | exact Hout].
Defined.

Lemma lastn_all {A} (n : nat) (l : list A) :
  (List.length l <= n)%nat -> lastn n l = l.
Proof.
  intros H. unfold lastn.
  replace (List.length l - n)%nat with 0%nat by lia. reflexivity.
Qed.

(** The dev server's [HasUpdated] compares buffer lengths, so it can only
    notice growth while the buffer is short of its 100 lines.  After a
    successful capture the buffer holds the last 100 lines of the old
    buffer followed by the non-blank captured lines, and the answer is true
    exactly when some line was kept and the buffer held fewer than 100
    lines before: once the buffer is full, new output is stored but never
    reported. *)
Theorem DevServer_HasUpdated_full_buffer (xenv : XEnv) (d : DevServer.t)
        (t : xtrace) s content :
  DevServer.session d = Some s ->
  XCapturePaneContent_ xenv t s = (content, None) ->
  (List.length (DevServer.output d) <= 100)%nat ->
  exists b d',
    LiveDev.HasUpdated xenv d t
    = XDone (b, d') (t ++ [XCapturePaneContent s])%list
    /\ DevServer.output d'
       = lastn 100 (DevServer.output d ++ keptLines xenv content)
    /\ (b = true <->
        keptLines xenv content <> []
        /\ (List.length (DevServer.output d) < 100)%nat).
Proof.
  intros Hs Hcap Hlen.
  unfold LiveDev.HasUpdated, LiveDev.UpdateOutputFromSession.
  rewrite Hs. xrun. rewrite Hcap.
  rewrite appendNonBlank_appendAll. fold (keptLines xenv content).
  do 2 eexists. split; [reflexivity |].
  rewrite output_appendAll_lastn.
  destruct (keptLines xenv content) as [|k ks].
  - rewrite app_nil_r, lastn_all by exact Hlen.
    split; [reflexivity |]. rewrite Nat.ltb_irrefl.
    split; [discriminate | intros [X _]; now elim X].
  - split; [reflexivity |].
    rewrite lastn_length, length_app. cbn [List.length].
    rewrite Nat.ltb_lt. split.
    + intros H. split; [discriminate | lia].
    + intros [_ H]. lia.
Qed.

Lemma DevServer_HasUpdated_full_buffer_witness :
  exists b d',
    LiveDev.HasUpdated (Example.xenvOf "boom" true false false [])
                       Example.liveDev []
    = XDone (b, d') [XCapturePaneContent Scenario.sess]
    /\ DevServer.output d' = ["ready"; "boom"]
    /\ b = true.
Proof.
  destruct (DevServer_HasUpdated_full_buffer
              (Example.xenvOf "boom" true false false []) Example.liveDev []
              Scenario.sess "boom" eq_refl eq_refl ltac:(cbn; lia))
    as (b & d' & Hrun & Hout & Hb).
  exists b, d'. split; [exact Hrun |]. split; [exact Hout |].
  apply Hb. split; [discriminate | cbn; lia].
Defined.

(** ** The instance between the ticks *)

Ltac inst_simpl :=
  cbn [Inst.Title Inst.Status Inst.AutoYes Inst.diffStats Inst.DevServer
       Inst.started Inst.tmuxSession Inst.gitWorktree Inst.SetStatus
       Inst.set_DevServer set_diffStats Inst.Started Inst.Paused
       negb orb andb Status_eqb] in *.

(** Before [Start] the guarded methods reach neither tmux nor git.  On an
    instance that is not started, each of them returns at once without a
    call, whether or not a session or a worktree is present: the previews
    are empty without an error, [HasUpdated] reports no update and no
    prompt, [TapEnter] does nothing, [UpdateDiffStats] clears the
    statistics without an error, the metadata tick leaves the instance as
    it is, and [Attach], [SetPreviewSize], [SendKeys], [SendPrompt],
    [RepoName] and [GetGitWorktree] return an error.  [TmuxAlive] is the
    one exception: it has no guard, and asks tmux whether the session
    exists whenever the instance holds a session handle. *)
Theorem not_started_makes_no_call (xenv : XEnv) (i : Inst.t DevServer.t)
        (t : xtrace) (keys : string) (width height : Z) :
  Inst.started i = false ->
  LiveInst.Preview xenv i t = XDone ("", None) t
  /\ LiveInst.PreviewFullHistory xenv i t = XDone ("", None) t
  /\ LiveInst.HasUpdated xenv i t = XDone (false, false) t
  /\ LiveInst.TapEnter xenv i t = XDone tt t
  /\ LiveInst.UpdateDiffStats xenv i t = XDone (None, set_diffStats None i) t
  /\ @LiveInst.tickInstance xenv _ (LiveDev.Live xenv) i t = XDone i t
  /\ (exists e, LiveInst.Attach xenv i t = XDone (Some e) t)
  /\ (exists e,
         LiveInst.SetPreviewSize xenv width height i t = XDone (Some e) t)
  /\ (exists e, LiveInst.SendKeys xenv keys i t = XDone (Some e) t)
  /\ (exists e, LiveInst.SendPrompt xenv keys i t = XDone (Some e) t)
  /\ (exists e, LiveInst.RepoName xenv i t = XDone ("", Some e) t)
  /\ (exists e, LiveInst.GetGitWorktree i = (None, Some e))
  /\ (forall s,
         Inst.tmuxSession i = Some s ->
         LiveInst.TmuxAlive xenv i t
         = XDone (XDoesSessionExist_ xenv t s)
                 (t ++ [XBase (EvDoesSessionExist s)])%list).
Proof.
  intros Hns.
  unfold LiveInst.Preview, LiveInst.PreviewFullHistory, LiveInst.HasUpdated,
    LiveInst.TapEnter, LiveInst.UpdateDiffStats, LiveInst.tickInstance,
    LiveInst.Attach, LiveInst.SetPreviewSize, LiveInst.SendKeys,
    LiveInst.SendPrompt, LiveInst.RepoName, LiveInst.GetGitWorktree,
    LiveInst.TmuxAlive, Inst.Started.
  rewrite Hns. cbn [negb orb].
  repeat split; try (eexists; reflexivity).
  intros s ->. reflexivity.
Qed.

Lemma not_started_makes_no_call_witness :
  LiveInst.Preview (Example.xenvOf "x" true true true [])
                   Scenario.freshWithWorktree []
  = XDone ("", None) []
  /\ LiveInst.UpdateDiffStats (Example.xenvOf "x" true true true [])
                              Scenario.freshWithWorktree []
     = XDone (None, set_diffStats None Scenario.freshWithWorktree) []
  /\ (exists e,
         LiveInst.SendPrompt (Example.xenvOf "x" true true true []) "go"
                             Scenario.freshWithWorktree []
         = XDone (Some e) [])
  /\ LiveInst.TmuxAlive (Example.xenvOf "x" true true true [])
                        Scenario.freshWithWorktree []
     = XDone true [XBase (EvDoesSessionExist Scenario.sess)].
Proof.
  destruct (not_started_makes_no_call
              (Example.xenvOf "x" true true true [])
              Scenario.freshWithWorktree [] "go" 80 24 eq_refl)
    as (Hp & _ & _ & _ & Hd & _ & _ & _ & _ & Hs & _ & _ & Ha).
  split; [exact Hp |]. split; [exact Hd |]. split; [exact Hs |].
  exact (Ha Scenario.sess eq_refl).
Defined.

(** While an instance is Paused the views stay off its session and its
    worktree: the previews are empty, [SetPreviewSize] and [SendKeys] are
    refused, the metadata tick skips it, and on a started instance
    [UpdateDiffStats] keeps the statistics it has; none of them makes a
    call. *)
Theorem paused_makes_no_view_call (xenv : XEnv) (i : Inst.t DevServer.t)
        (t : xtrace) (keys : string) (width height : Z) :
  Inst.Status i = Paused ->
  LiveInst.Preview xenv i t = XDone ("", None) t
  /\ LiveInst.PreviewFullHistory xenv i t = XDone ("", None) t
  /\ @LiveInst.tickInstance xenv _ (LiveDev.Live xenv) i t = XDone i t
  /\ (Inst.started i = true ->
      LiveInst.UpdateDiffStats xenv i t = XDone (None, i) t)
  /\ (exists e,
         LiveInst.SetPreviewSize xenv width height i t = XDone (Some e) t)
  /\ (exists e, LiveInst.SendKeys xenv keys i t = XDone (Some e) t).
Proof.
  intros Hp.
  unfold LiveInst.Preview, LiveInst.PreviewFullHistory,
    LiveInst.UpdateDiffStats, LiveInst.tickInstance,
    LiveInst.SetPreviewSize, LiveInst.SendKeys, Inst.Started, Inst.Paused.
  rewrite Hp. cbn [Status_eqb]. rewrite Bool.orb_true_r.
  repeat split; try (eexists; reflexivity).
  intros ->. reflexivity.
Qed.

Lemma paused_makes_no_view_call_witness :
  LiveInst.Preview (Example.xenvOf "x" true true true [])
                   (@Scenario.paused DevServer.t None) []
  = XDone ("", None) []
  /\ @LiveInst.tickInstance (Example.xenvOf "x" true true true []) _
       (LiveDev.Live (Example.xenvOf "x" true true true []))
       (@Scenario.paused DevServer.t None) []
     = XDone (@Scenario.paused DevServer.t None) [].
Proof.
  destruct (paused_makes_no_view_call
              (Example.xenvOf "x" true true true []) (@Scenario.paused DevServer.t None)
              [] "go" 80 24 eq_refl)
    as (Hp & _ & Ht & _).
  split; [exact Hp | exact Ht].
Defined.

Lemma healthCall_tickTail (evs : list xevent) :
  forallb healthCall evs = true -> forallb tickTail evs = true.
Proof.
  rewrite !forallb_forall. intros H e He. specialize (H e He).
  destruct e as [[]| | | | | | | |]; try discriminate H; reflexivity.
Qed.

Lemma TapEnter_started (xenv : XEnv) (D : Type) (i : Inst.t D) (t : xtrace)
      s :
  Inst.started i = true ->
  Inst.tmuxSession i = Some s ->
  exists logs,
    LiveInst.TapEnter xenv i t
    = XDone tt (t ++ (if Inst.AutoYes i then [XTapEnter s] else [])
                  ++ logs)%list
    /\ forallb tickTail logs = true.
Proof.
  intros Hst Hs. unfold LiveInst.TapEnter. rewrite Hst, Hs.
  destruct (Inst.AutoYes i); cbn [negb orb]; xrun.
  - destruct (XTapEnter_ xenv t s) as [e|].
    + eexists [_]. rewrite <- app_assoc. split; reflexivity.
    + exists []. split; reflexivity.
  - exists []. cbn [app]. rewrite app_nil_r. split; reflexivity.
Qed.

Lemma UpdateDiffStats_started (xenv : XEnv) (D : Type) (i : Inst.t D)
      (t : xtrace) w :
  Inst.started i = true ->
  Inst.Status i <> Paused ->
  Inst.gitWorktree i = Some w ->
  exists r ds,
    LiveInst.UpdateDiffStats xenv i t
    = XDone (r, set_diffStats ds i) (t ++ [XDiff w])%list.
Proof.
  intros Hst Hnp Hw. apply Status_eqb_neq in Hnp.
  unfold LiveInst.UpdateDiffStats. rewrite Hst, Hnp, Hw.
  cbn [negb]. xrun.
  destruct (XDiff_ xenv t w) as [stats [e|]].
  - destruct (containsb (Error e) "base commit SHA not set").
    + exists None, None. reflexivity.
    + exists (Some (Errorf_w "failed to get diff stats: " e)),
        (Inst.diffStats i).
      destruct i; reflexivity.
  - exists None, (Some stats). reflexivity.
Qed.

(** What the rest of a tick does once the status is settled: the diff, the
    warning when it fails, and the health check of the dev server. *)
Lemma tick_rest (xenv : XEnv) (i : Inst.t DevServer.t) (t : xtrace) w :
  Inst.started i = true ->
  Inst.Status i <> Paused ->
  Inst.gitWorktree i = Some w ->
  exists i' rest,
    ('(err, i) <- LiveInst.UpdateDiffStats xenv i ;;
     match err with
     | Some e =>
         xemit (XWarningLog ("could not update diff stats: " ++ Error e))
     | None => xret tt
     end ;;
     match Inst.DevServer i with
     | Some d =>
         d' <- LiveDev.CheckHealth xenv d ;;
         xret (Inst.set_DevServer (Some d') i)
     | None => xret i
     end)%live t
    = XDone i' (t ++ rest)%list
    /\ forallb tickTail rest = true
    /\ In (XDiff w) rest
    /\ Inst.Status i' = Inst.Status i
    /\ Inst.started i' = true
    /\ Inst.tmuxSession i' = Inst.tmuxSession i
    /\ Inst.gitWorktree i' = Some w
    /\ Inst.Title i' = Inst.Title i
    /\ Inst.AutoYes i' = Inst.AutoYes i.
Proof.
  intros Hst Hnp Hw.
  destruct (UpdateDiffStats_started xenv _ i t w Hst Hnp Hw)
    as (r & ds & HU).
  xrun. rewrite HU. inst_simpl.
  destruct (Inst.DevServer i) as [d|].
  - destruct r as [e|];
      match goal with
      | |- context [LiveDev.CheckHealth xenv d ?h] =>
          destruct (CheckHealth_cases xenv d h)
            as (d' & hevs & Hrun & Hcalls & _)
      end;
      rewrite Hrun; rewrite <- !app_assoc; cbn [app];
      do 2 eexists; (split; [reflexivity |]);
      cbn [forallb tickTail andb]; inst_simpl;
      (split; [now apply healthCall_tickTail |]);
      (split; [now left |]); repeat split; assumption.
  - destruct r as [e|]; rewrite <- ?app_assoc; cbn [app];
      do 2 eexists; (split; [reflexivity |]);
      inst_simpl; (split; [reflexivity |]);
      (split; [now left |]); repeat split; assumption.
Qed.

(** One metadata tick on a started instance that is not Paused.  It asks
    the session once whether the pane changed; the status becomes Running
    when it did, Ready when it did not and no prompt is showing, and is left
    alone when a prompt is showing.  Enter is pressed exactly when a prompt
    is showing, the pane did not change and auto-yes is on.  After that the
    tick always takes the diff of the worktree, and every other call it
    makes is the diff warning, the key-press error log, or one of the calls
    of the dev server's health check.  The tick always returns, and the
    instance stays started on the same session and worktree. *)
Theorem tickInstance_status_and_autoyes (xenv : XEnv)
        (i : Inst.t DevServer.t) (t : xtrace) s w updated prompt :
  Inst.started i = true ->
  Inst.Status i <> Paused ->
  Inst.tmuxSession i = Some s ->
  Inst.gitWorktree i = Some w ->
  XHasUpdated_ xenv t s = (updated, prompt) ->
  exists i' rest,
    @LiveInst.tickInstance xenv _ (LiveDev.Live xenv) i t
    = XDone i' (t ++ XHasUpdated s
                  :: (if negb updated && prompt && Inst.AutoYes i
                      then [XTapEnter s] else [])
                  ++ rest)%list
    /\ forallb tickTail rest = true
    /\ In (XDiff w) rest
    /\ Inst.Status i'
       = (if updated then Running
          else if prompt then Inst.Status i else Ready)
    /\ Inst.started i' = true
    /\ Inst.tmuxSession i' = Some s
    /\ Inst.gitWorktree i' = Some w
    /\ Inst.Title i' = Inst.Title i.
Proof.
  intros Hst Hnp Hs Hw Hup.
  unfold LiveInst.tickInstance, Inst.Started, Inst.Paused.
  rewrite Hst. rewrite (Status_eqb_neq _ _ Hnp). cbn [negb orb].
  unfold LiveInst.HasUpdated. rewrite Hst, Hs. cbn [negb].
  cbn [live_CheckHealth LiveDev.Live].
  destruct updated; [| destruct prompt].
  - destruct (tick_rest xenv (Inst.SetStatus Running i)
                        (t ++ [XHasUpdated s])%list w)
      as (i' & rest & Hrun & Htail & Hdiff & Hstatus & Hstarted & Hsess
          & Hwt & Htitle & _);
      [exact Hst | discriminate | exact Hw |].
    xrun. rewrite Hup. xrun. rewrite Hrun.
    exists i', rest. rewrite <- app_assoc. cbn [app negb andb].
    repeat split; try assumption. rewrite Hsess. exact Hs.
  - destruct (TapEnter_started xenv _ i (t ++ [XHasUpdated s])%list s Hst Hs)
      as (logs & Htap & Hlogs).
    match type of Htap with
    | _ = XDone tt ?h =>
        destruct (tick_rest xenv i h w Hst Hnp Hw)
          as (i' & rest & Hrun & Htail & Hdiff & Hstatus & Hstarted & Hsess
              & Hwt & Htitle & _)
    end.
    xrun. rewrite Hup. xrun. rewrite Htap. rewrite Hrun.
    exists i', (logs ++ rest)%list.
    rewrite <- !app_assoc. cbn [app negb andb].
    split; [reflexivity |].
    split; [rewrite forallb_app, Hlogs, Htail; reflexivity |].
    split; [apply in_or_app; now right |].
    repeat split; try assumption. rewrite Hsess. exact Hs.
  - destruct (tick_rest xenv (Inst.SetStatus Ready i)
                        (t ++ [XHasUpdated s])%list w)
      as (i' & rest & Hrun & Htail & Hdiff & Hstatus & Hstarted & Hsess
          & Hwt & Htitle & _);
      [exact Hst | discriminate | exact Hw |].
    xrun. rewrite Hup. xrun. rewrite Hrun.
    exists i', rest. rewrite <- app_assoc. cbn [app negb andb].
    repeat split; try assumption. rewrite Hsess. exact Hs.
Qed.

Lemma tickInstance_status_and_autoyes_witness :
  exists i' rest,
    @LiveInst.tickInstance (Example.xenvOf "x" true false true []) _
      (LiveDev.Live (Example.xenvOf "x" true false true []))
      Example.autoYes []
    = XDone i' ([XHasUpdated Scenario.sess; XTapEnter Scenario.sess]
                ++ rest)%list
    /\ In (XDiff Scenario.wt) rest
    /\ Inst.Status i' = Running.
Proof.
  destruct (tickInstance_status_and_autoyes
              (Example.xenvOf "x" true false true []) Example.autoYes []
              Scenario.sess Scenario.wt false true
              eq_refl ltac:(discriminate) eq_refl eq_refl eq_refl)
    as (i' & rest & Hrun & _ & Hdiff & Hstatus & _).
  exists i', rest. split; [exact Hrun |]. split; [exact Hdiff | exact Hstatus].
Defined.

(** A tick returns on every started instance that has its session and its
    worktree, and on every Paused one. *)
Lemma tickInstance_returns (xenv : XEnv) (i : Inst.t DevServer.t)
      (t : xtrace) :
  Inst.started i = true ->
  Inst.tmuxSession i <> None ->
  Inst.gitWorktree i <> None ->
  exists i' t',
    @LiveInst.tickInstance xenv _ (LiveDev.Live xenv) i t = XDone i' t'
    /\ Inst.started i' = true.
Proof.
  intros Hst Hs Hw.
  destruct (Inst.tmuxSession i) as [s|] eqn:Hs'; [clear Hs | now elim Hs].
  destruct (Inst.gitWorktree i) as [w|] eqn:Hw'; [clear Hw | now elim Hw].
  unfold LiveInst.tickInstance, Inst.Started, Inst.Paused.
  rewrite Hst. cbn [negb orb].
  destruct (Status_eqb (Inst.Status i) Paused) eqn:Hp.
  { exists i, t. split; [reflexivity | exact Hst]. }
  assert (Hnp : Inst.Status i <> Paused).
  { intros X. rewrite X in Hp. discriminate Hp. }
  unfold LiveInst.HasUpdated. rewrite Hst, Hs'. cbn [negb].
  cbn [live_CheckHealth LiveDev.Live].
  destruct (XHasUpdated_ xenv t s) as [updated prompt] eqn:Hup.
  destruct updated; [| destruct prompt].
  - destruct (tick_rest xenv (Inst.SetStatus Running i)
                        (t ++ [XHasUpdated s])%list w)
      as (i' & rest & Hrun & _ & _ & _ & Hstarted & _);
      [exact Hst | discriminate | exact Hw' |].
    xrun. rewrite Hup. xrun. rewrite Hrun.
    do 2 eexists. split; [reflexivity | exact Hstarted].
  - destruct (TapEnter_started xenv _ i (t ++ [XHasUpdated s])%list s
                               Hst Hs')
      as (logs & Htap & _).
    match type of Htap with
    | _ = XDone tt ?h =>
        destruct (tick_rest xenv i h w Hst Hnp Hw')
          as (i' & rest & Hrun & _ & _ & _ & Hstarted & _)
    end.
    xrun. rewrite Hup. xrun. rewrite Htap. rewrite Hrun.
    do 2 eexists. split; [reflexivity | exact Hstarted].
  - destruct (tick_rest xenv (Inst.SetStatus Ready i)
                        (t ++ [XHasUpdated s])%list w)
      as (i' & rest & Hrun & _ & _ & _ & Hstarted & _);
      [exact Hst | discriminate | exact Hw' |].
    xrun. rewrite Hup. xrun. rewrite Hrun.
    do 2 eexists. split; [reflexivity | exact Hstarted].
Qed.

Lemma FromInstanceData_fields (env : Env) (data : InstanceData.t)
      (t : trace) i t' :
  FromInstanceData env data t = Done (inl i) t' ->
  Inst.started i = true
  /\ Inst.tmuxSession i <> None
  /\ Inst.gitWorktree i <> None.
Proof.
  unfold FromInstanceData, Inst.Paused.
  destruct (InstanceData.DevServer data) as [dd|];
    cbn [Inst.Status Inst.set_DevServer];
    (destruct (Status_eqb (InstanceData.Status data) Paused);
     [ intros H; injection H as <- _; repeat split; discriminate
     | start_run;
       cbn [Inst.set_DevServer Inst.Title Inst.tmuxSession Inst.Program];
       destruct (InstanceData.Title data =? "")%string; [discriminate |];
       start_step;
       destruct (Restore_ env t _) as [e|]; start_step;
       [ unfold Inst.Kill;
         cbn [Inst.started Inst.SetTmuxSession Inst.set_DevServer negb];
         run; discriminate
       | intros H; injection H as <- _; repeat split; discriminate ] ]).
Qed.

(** The metadata tick is safe on every instance the program puts in its
    list.  An instance that came out of a successful first-time [Start], or
    out of a successful [FromInstanceData], is started and has both its
    session handle and its worktree, so a tick on it never dereferences a
    nil pointer: it returns, and the instance is still started. *)
Theorem tick_safe_after_Start_or_restore (env : Env) (xenv : XEnv)
        (i' : Inst.t DevServer.t) (xt : xtrace) :
  ((exists i t t',
       @Inst.Start env _ (DevServer.API env) true i t = Done (None, i') t')
   \/ (exists data t t', FromInstanceData env data t = Done (inl i') t')) ->
  exists i'' xt',
    @LiveInst.tickInstance xenv _ (LiveDev.Live xenv) i' xt = XDone i'' xt'
    /\ Inst.started i'' = true.
Proof.
  intros [(i & t & t' & HS) | (data & t & t' & HF)].
  - destruct (Start_outcome_cases env _ _ true i t None i' t' HS)
      as [Hok _].
    destruct (Hok eq_refl) as (Hst & _ & Hs & Hw & _).
    apply tickInstance_returns; [exact Hst | exact Hs | exact (Hw eq_refl)].
  - destruct (FromInstanceData_fields env data t i' t' HF)
      as (Hst & Hs & Hw).
    apply tickInstance_returns; assumption.
Qed.

Lemma tick_safe_after_Start_or_restore_witness :
  exists i' t',
    @Inst.Start Scenario.okEnv _ (DevServer.API Scenario.okEnv) true
                Scenario.fresh [] = Done (None, i') t'
    /\ exists i'' xt',
         @LiveInst.tickInstance (Example.xenvOf "x" true true false []) _
           (LiveDev.Live (Example.xenvOf "x" true true false [])) i' []
         = XDone i'' xt'
         /\ Inst.started i'' = true.
Proof.
  eexists _, _. split; [vm_compute; reflexivity |].
  apply (tick_safe_after_Start_or_restore Scenario.okEnv).
  left. exists Scenario.fresh, []. eexists. vm_compute. reflexivity.
Defined.

(** ** The bound of the output buffer as an invariant *)

Lemma appendAll_bound (lines : list string) (d : DevServer.t) :
  (List.length (DevServer.output d) <= 100)%nat ->
  (List.length (DevServer.output (appendAll lines d)) <= 100)%nat.
Proof.
  intros H. rewrite output_appendAll_lastn.
  destruct lines; [exact H |]. rewrite lastn_length. lia.
Qed.

Ltac buffer_fold :=
  do 4 rewrite ?appendOutput_appendAll;
  rewrite ?appendQuoted_appendAll, ?appendNonBlank_appendAll;
  repeat rewrite appendAll_app;
  rewrite output_appendAll;
  cbn [DevServer.output DevServer.set_status LiveDev.set_crashCount
       LiveDev.IncrementCrashCount];
  rewrite ?output_appendAll, <- ?fold_left_app.

Lemma startDevServer_output (env : Env) (d : DevServer.t) (t : trace)
      r d' t' :
  DevServer.startDevServer env d t = Done (r, d') t' ->
  exists lines,
    DevServer.output d' = fold_left DevServer.pushLine lines
                                    (DevServer.output d).
Proof.
  unfold DevServer.startDevServer. run.
  destruct (ExecRun_ env t _) as [noSession|];
    match goal with
    | |- context [PtyStart_ env ?h ?a] =>
        destruct (PtyStart_ env h a) as [pe|]
    end;
    try (intros H; injection H as _ <- _; exists []; reflexivity);
    match goal with
    | |- context [DevServer.waitLoop ?e ?f ?s ?dl ?sd ?t0] =>
        destruct (DevServer.waitLoop e f s dl sd t0) as [[|] t1 | f0]
    end;
    try discriminate;
    intros H; injection H as _ <- _;
    first [ exists []; reflexivity | eexists [_]; reflexivity ].
Qed.

Lemma DevServer_Start_output (env : Env) (d : DevServer.t) (t : trace)
      r d' t' :
  DevServer.Start env d t = Done (r, d') t' ->
  exists lines,
    DevServer.output d' = fold_left DevServer.pushLine lines
                                    (DevServer.output d).
Proof.
  unfold DevServer.Start.
  destruct (DevServer.IsRunning d).
  { intros H. injection H as _ <- _. exists []. reflexivity. }
  destruct (DevCommand (DevServer.config d) =? "")%string.
  { intros H. injection H as _ <- _. exists []. reflexivity. }
  run. cbn [DevServer.config DevServer.set_status].
  destruct (BuildCommand (DevServer.config d) =? "")%string.
  - match goal with
    | |- context [DevServer.startDevServer env ?d0 ?t0] =>
        destruct (DevServer.startDevServer env d0 t0)
          as [[r0 d1] t1 | f] eqn:Hs; [| discriminate]
    end.
    apply startDevServer_output in Hs. destruct Hs as (lines & Hs).
    dev_simpl.
    destruct r0; intros H; injection H as _ <- _; exists lines;
      dev_simpl; exact Hs.
  - unfold DevServer.runBuild. run.
    destruct (ExecOutput_ env t _) as [out [be|]].
    + intros H. injection H as _ <- _. exists [out]. reflexivity.
    + match goal with
      | |- context [DevServer.startDevServer env ?d0 ?t0] =>
          destruct (DevServer.startDevServer env d0 t0)
            as [[r0 d1] t1 | f] eqn:Hs; [| discriminate]
      end.
      apply startDevServer_output in Hs. destruct Hs as (lines & Hs).
      dev_simpl.
      destruct r0; intros H; injection H as _ <- _; exists (out :: lines);
        dev_simpl; exact Hs.
Qed.

Lemma appendAll_session (lines : list string) (d : DevServer.t) :
  DevServer.session (appendAll lines d) = DevServer.session d.
Proof. rewrite appendAll_frame. reflexivity. Qed.

Lemma CheckHealth_output (xenv : XEnv) (d : DevServer.t) (t : xtrace)
      d' t' :
  LiveDev.CheckHealth xenv d t = XDone d' t' ->
  exists lines,
    DevServer.output d' = fold_left DevServer.pushLine lines
                                    (DevServer.output d).
Proof.
  unfold LiveDev.CheckHealth.
  destruct (negb (DevServerStatus_eqb (DevServer.status d) DevServerRunning)).
  { intros H. injection H as <- _. exists []. reflexivity. }
  destruct (UpdateOutputFromSession_shape xenv d t)
    as (r0 & kept & evs & HU & _).
  xrun. rewrite HU, appendAll_session.
  destruct (DevServer.session d) as [s|].
  - destruct (XDoesSessionExist_ xenv _ s).
    + intros H. injection H as <- _. exists kept. apply output_appendAll.
    + match goal with
      | |- context [(LiveDev.Output ?x =? "")%string] =>
          destruct (LiveDev.Output x =? "")%string
      end; cbn [negb];
        match goal with
        | |- context [3 <=? ?c] => destruct (3 <=? c)
        end;
        intros H; injection H as <- _; buffer_fold;
        eexists; reflexivity.
  - intros H. injection H as <- _. buffer_fold. eexists. reflexivity.
Qed.

(** The bound of C8 is an invariant of the dev server, not only a property
    of appends to a new one: when the buffer holds at most 100 lines, it
    still does after [Start], [Stop], [UpdateOutputFromSession],
    [HasUpdated] and [CheckHealth], however they end. *)
Theorem output_buffer_invariant (env : Env) (xenv : XEnv) (d : DevServer.t) :
  (List.length (DevServer.output d) <= 100)%nat ->
  (forall t r d' t',
      DevServer.Start env d t = Done (r, d') t' ->
      (List.length (DevServer.output d') <= 100)%nat)
  /\ (forall t r d' t',
         DevServer.Stop env d t = Done (r, d') t' ->
         (List.length (DevServer.output d') <= 100)%nat)
  /\ (forall t r d' t',
         LiveDev.UpdateOutputFromSession xenv d t = XDone (r, d') t' ->
         (List.length (DevServer.output d') <= 100)%nat)
  /\ (forall t b d' t',
         LiveDev.HasUpdated xenv d t = XDone (b, d') t' ->
         (List.length (DevServer.output d') <= 100)%nat)
  /\ (forall t d' t',
         LiveDev.CheckHealth xenv d t = XDone d' t' ->
         (List.length (DevServer.output d') <= 100)%nat).
Proof.
  intros Hlen.
  assert (Hfold : forall lines d',
             DevServer.output d'
             = fold_left DevServer.pushLine lines (DevServer.output d) ->
             (List.length (DevServer.output d') <= 100)%nat).
  { intros lines d' E. rewrite E, <- output_appendAll.
    now apply appendAll_bound. }
  split; [| split; [| split; [| split]]].
  - intros t r d' t' H. apply DevServer_Start_output in H.
    destruct H as (lines & E). exact (Hfold lines d' E).
  - intros t r d' t' H.
    destruct (Stop_result env d t) as (t1 & E & _).
    rewrite E in H. injection H as _ <- _. exact Hlen.
  - intros t r d' t' H.
    destruct (UpdateOutputFromSession_shape xenv d t)
      as (r0 & kept & evs & E & _).
    rewrite E in H. injection H as _ <- _. now apply appendAll_bound.
  - intros t b d' t'. unfold LiveDev.HasUpdated.
    destruct (DevServer.session d) as [s|].
    + destruct (UpdateOutputFromSession_shape xenv d t)
        as (r0 & kept & evs & E & _).
      xrun. rewrite E. intros H. injection H as _ <- _.
      now apply appendAll_bound.
    + intros H. injection H as _ <- _. exact Hlen.
  - intros t d' t' H. apply CheckHealth_output in H.
    destruct H as (lines & E). exact (Hfold lines d' E).
Qed.

Lemma output_buffer_invariant_witness :
  (List.length (DevServer.output Example.liveDev) <= 100)%nat
  /\ exists d' t',
       LiveDev.CheckHealth (Example.xenvOf "boom" false false false [])
                           Example.liveDev [] = XDone d' t'
       /\ (List.length (DevServer.output d') <= 100)%nat.
Proof.
  assert (Hlen : (List.length (DevServer.output Example.liveDev) <= 100)%nat)
    by (cbn; lia).
  split; [exact Hlen |].
  destruct (LiveDev.CheckHealth (Example.xenvOf "boom" false false false [])
                                Example.liveDev [])
    as [d' t' | f] eqn:Hrun; [| discriminate Hrun].
  exists d', t'. split; [reflexivity |].
  exact (proj2 (proj2 (proj2 (proj2
           (output_buffer_invariant
              Scenario.okEnv (Example.xenvOf "boom" false false false [])
              Example.liveDev Hlen)))) [] d' t' Hrun).
Defined.
